(** * The notebook model of jupyter-js-notebook, embedded in Rocq

    The development follows the TypeScript sources:
    - [nbformat]       : the document types the sources import from
                         notebook/nbformat;
    - [ObservableList] : the list container of phosphor-observablelist;
    - [OutputArea]     : the class OutputAreaModel (output-area model);
    - [cells]          : the cell, input-area and editor models;
    - [Notebook]       : the class NotebookModel (notebook/model.ts);
    - [serialize]      : notebook/serialize.ts;
    - [NotebookSave]   : NotebookModel.save, which calls the serializer;
    - [widget]         : NotebookWidget.onCellsChanged (notebook/widget.ts);
    - [toolbar]        : the cell commands of NotebookToolbar
                         (notebook/widget.ts).

    JavaScript objects are records, `undefined` is [None], numbers used as
    list indices are integers ([Z]), and a mutating method is a function
    from the old state to the new one.  A signal connected to one handler is
    the handler applied after the operation that emits. *)

From Stdlib Require Import ZArith Ascii String.
From stdpp Require Import base list.

Open Scope string_scope.
Open Scope list_scope.
Open Scope Z_scope.

(* ===================================================================== *)
(** ** notebook/nbformat: outputs and document cells                      *)
(* ===================================================================== *)

Module nbformat.

(** Modelled from the spec: notebook/nbformat.ts is not among the
    sources.  An output is the JavaScript object the kernel message
    carries: its [output_type] tag, the stream fields [name] and [text],
    and the payload of the other kinds.  Fields an output kind does not
    use hold the empty value. *)
Record IOutput : Type := mkOutput {
  output_type : string;
  name : string;
  text : string;
  data : list (string * string);
  metadata : list (string * string);
  execution_count : option Z;
  ename : string;
  evalue : string;
  traceback : list string
}.

(** [output.text = t] *)
Definition with_text (t : string) (o : IOutput) : IOutput :=
  {| output_type := output_type o; name := name o; text := t;
     data := data o; metadata := metadata o;
     execution_count := execution_count o;
     ename := ename o; evalue := evalue o; traceback := traceback o |}.

Definition Stream (n t : string) : IOutput :=
  mkOutput "stream" n t [] [] None "" "" [].

Definition ExecuteResult (d : list (string * string)) (n : option Z) : IOutput :=
  mkOutput "execute_result" "" "" d [] n "" "" [].

Definition DisplayData (d : list (string * string)) : IOutput :=
  mkOutput "display_data" "" "" d [] None "" "" [].

Definition Error (en ev : string) (tb : list string) : IOutput :=
  mkOutput "error" "" "" [] [] None en ev tb.

(** Modelled from the spec: the type guard [isStream] of
    notebook/nbformat.ts tells a stream by the tag of the object. *)
Definition isStream (o : IOutput) : bool :=
  String.eqb (output_type o) "stream".

(** Modelled from the spec: a cell source is one string or a sequence of
    line strings. *)
Inductive multilineString : Type :=
| Single (s : string)
| Lines (l : list string).

(** Modelled from the spec: the document cells [IRawCell],
    [IMarkdownCell] and [ICodeCell].  The fields the serializer reads
    and writes come first.  A cell object and its metadata object are
    open: [metadata_other] holds the keys of the metadata the serializer
    does not read for a cell of this type and [other] the keys of the
    cell object it does not read, each key with its value as JSON
    text. *)
Inductive ICell : Type :=
| IRawCell (source : multilineString)
           (tags : option (list string)) (name : option string)
           (format : option string)
           (metadata_other other : list (string * string))
| IMarkdownCell (source : multilineString)
                (tags : option (list string)) (name : option string)
                (metadata_other other : list (string * string))
| ICodeCell (source : multilineString)
            (tags : option (list string)) (name : option string)
            (collapsed scrolled : option bool)
            (outputs : list IOutput) (execution_count : option Z)
            (metadata_other other : list (string * string)).

Definition cell_type (c : ICell) : string :=
  match c with
  | IRawCell _ _ _ _ _ _ => "raw"
  | IMarkdownCell _ _ _ _ _ => "markdown"
  | ICodeCell _ _ _ _ _ _ _ _ _ => "code"
  end.

Definition source (c : ICell) : multilineString :=
  match c with
  | IRawCell s _ _ _ _ _ | IMarkdownCell s _ _ _ _
  | ICodeCell s _ _ _ _ _ _ _ _ => s
  end.

Definition metadata_tags (c : ICell) : option (list string) :=
  match c with
  | IRawCell _ t _ _ _ _ | IMarkdownCell _ t _ _ _
  | ICodeCell _ t _ _ _ _ _ _ _ => t
  end.

Definition metadata_name (c : ICell) : option string :=
  match c with
  | IRawCell _ _ n _ _ _ | IMarkdownCell _ _ n _ _
  | ICodeCell _ _ n _ _ _ _ _ _ => n
  end.

Definition metadata_other (c : ICell) : list (string * string) :=
  match c with
  | IRawCell _ _ _ _ m _ | IMarkdownCell _ _ _ m _
  | ICodeCell _ _ _ _ _ _ _ m _ => m
  end.

Definition other (c : ICell) : list (string * string) :=
  match c with
  | IRawCell _ _ _ _ _ o | IMarkdownCell _ _ _ _ o
  | ICodeCell _ _ _ _ _ _ _ _ o => o
  end.

(** Modelled from the spec: the type guards on document cells tell the
    variant by [cell_type]. *)
Definition isMarkdownCell (c : ICell) : bool := String.eqb (cell_type c) "markdown".
Definition isCodeCell (c : ICell) : bool := String.eqb (cell_type c) "code".
Definition isRawCell (c : ICell) : bool := String.eqb (cell_type c) "raw".

(** Modelled from the spec: the part of [INotebookMetadata] the model
    reads and writes, the kernel spec names and the language info. *)
Record INotebookMetadata : Type := mkMetadata {
  kernelspec_name : string;
  kernelspec_display_name : string;
  language_info : string
}.

(** Modelled from the spec: the persisted document,
    [{ cells, metadata, nbformat, nbformat_minor }]. *)
Record INotebookContent : Type := mkContent {
  cells : list ICell;
  nb_metadata : INotebookMetadata;
  nbformat : Z;
  nbformat_minor : Z
}.

End nbformat.

(* ===================================================================== *)
(** ** phosphor-observablelist                                            *)
(* ===================================================================== *)

Module ObservableList.

(** Modelled from the spec: phosphor-observablelist is an external
    package, not among the sources.  This is the change a list operation
    reports to the handlers connected to its [changed] signal: the kind
    of change with the old and new index and value. *)
Inductive IListChangedArgs (T : Type) : Type :=
| Add (newIndex : Z) (newValue : T)
| Move (oldIndex newIndex : Z) (value : T)
| Remove (oldIndex : Z) (oldValue : T)
| Replace (index : Z) (oldValue newValue : list T)
| Set_ (index : Z) (oldValue newValue : T).
Arguments Add {T}.
Arguments Move {T}.
Arguments Remove {T}.
Arguments Replace {T}.
Arguments Set_ {T}.

Section Ops.
Context {T : Type}.

(** Modelled from the spec: the [length] property. *)
Definition length (l : list T) : Z := Z.of_nat (List.length l).

(** Modelled from the spec: negative indices address from the end,
    index -1 being the last element. *)
Definition _norm (l : list T) (i : Z) : Z :=
  if i <? 0 then i + length l else i.

(** Modelled from the spec: the indices of the list are [0, length). *)
Definition _check (l : list T) (i : Z) : bool :=
  (0 <=? i) && (i <? length l).

(** Modelled from the spec: [get] reads the item at the normalised
    index; where the list has no item the read is `undefined`, which is
    what the callers in the sources test for. *)
Definition get (l : list T) (i : Z) : option T :=
  let j := _norm l i in
  if _check l j then l !! Z.to_nat j else None.

(** Modelled from the spec: [set] replaces the item at the normalised
    index and reports a Set change with the old and the new item.  An
    index outside [0, length) is the OutOfRange failure ([None]): nothing
    is replaced and nothing is reported. *)
Definition set (l : list T) (i : Z) (item : T)
  : option (list T * IListChangedArgs T) :=
  let j := _norm l i in
  if _check l j then
    match l !! Z.to_nat j with
    | Some old => Some (<[Z.to_nat j := item]> l, Set_ j old item)
    | None => None
    end
  else None.

(** Modelled from the spec: [add] appends and reports an Add change at
    the index of the new item. *)
Definition add (l : list T) (item : T) : list T * IListChangedArgs T :=
  (l ++ [item], Add (length l) item).

(** Modelled from the spec: [insert] places the item at the normalised
    index and reports an Add change at that index.  An index outside
    [0, length] is the OutOfRange failure ([None]). *)
Definition insert (l : list T) (i : Z) (item : T)
  : option (list T * IListChangedArgs T) :=
  let j := _norm l i in
  if (0 <=? j) && (j <=? length l) then
    Some (take (Z.to_nat j) l ++ item :: drop (Z.to_nat j) l, Add j item)
  else None.

(** Modelled from the spec: [removeAt] deletes the item at the
    normalised index and reports a Remove change.  An index outside
    [0, length) is the OutOfRange failure ([None]). *)
Definition removeAt (l : list T) (i : Z)
  : option (list T * IListChangedArgs T) :=
  let j := _norm l i in
  if _check l j then
    match l !! Z.to_nat j with
    | Some old => Some (delete (Z.to_nat j) l, Remove j old)
    | None => None
    end
  else None.

(** Modelled from the spec: [move] relocates the item at [i] to [j]
    and reports a Move change.  An index outside [0, length) is the
    OutOfRange failure ([None]). *)
Definition move (l : list T) (i j : Z)
  : option (list T * IListChangedArgs T) :=
  let i' := _norm l i in
  let j' := _norm l j in
  if _check l i' && _check l j' then
    match l !! Z.to_nat i' with
    | Some x =>
        let rest := delete (Z.to_nat i') l in
        Some (take (Z.to_nat j') rest ++ x :: drop (Z.to_nat j') rest,
              Move i' j' x)
    | None => None
    end
  else None.

(** Modelled from the spec: [clear] empties the list in a single
    batched change that carries the full old contents. *)
Definition clear (l : list T) : list T * IListChangedArgs T :=
  ([], Replace 0 l []).

End Ops.

End ObservableList.

(* ===================================================================== *)
(** ** OutputAreaModel                                                    *)
(* ===================================================================== *)

Module OutputArea.
Import nbformat.

Record OutputAreaModel : Type := mkOutputArea {
  outputs : list IOutput;
  _clearNext : bool;
  trusted : bool;
  collapsed : bool;
  fixedHeight : bool
}.

(** [new OutputAreaModel()] *)
Definition new : OutputAreaModel := mkOutputArea [] false false false false.

Definition with_outputs (l : list IOutput) (m : OutputAreaModel) :=
  mkOutputArea l (_clearNext m) (trusted m) (collapsed m) (fixedHeight m).

Definition with_clearNext (b : bool) (m : OutputAreaModel) :=
  mkOutputArea (outputs m) b (trusted m) (collapsed m) (fixedHeight m).

(** [clear(wait: boolean = false)] *)
Definition clear (wait : bool) (m : OutputAreaModel) : OutputAreaModel :=
  if wait then with_clearNext true m
  else with_outputs (fst (ObservableList.clear (outputs m))) m.

(** The condition under which [add] consolidates:
    [isStream(output) && lastOutput && isStream(lastOutput)
     && output.name === lastOutput.name]. *)
Definition consolidates (output : IOutput) (lastOutput : option IOutput) : bool :=
  match lastOutput with
  | Some last =>
      isStream output && isStream last && String.eqb (name output) (name last)
  | None => false
  end.

(** The [switch] of [add]: the four kinds that are appended. *)
Definition known_kind (output : IOutput) : bool :=
  String.eqb (output_type output) "stream"
  || String.eqb (output_type output) "execute_result"
  || String.eqb (output_type output) "display_data"
  || String.eqb (output_type output) "error".

(** [add(output: IOutput)].  The assignment to [output.text] writes to
    the object the caller handed in; [output] below is that object as the
    call leaves it, and it is the object the list slot receives. *)
Definition add (output : IOutput) (m : OutputAreaModel) : OutputAreaModel :=
  (* If we received a delayed clear message, then clear now. *)
  let m := if _clearNext m then with_clearNext false (clear false m) else m in
  (* Consolidate outputs if they are stream outputs of the same kind. *)
  let lastOutput := ObservableList.get (outputs m) (-1) in
  if consolidates output lastOutput then
    let last_text := from_option text "" lastOutput in
    let output := with_text (String.append last_text (text output)) output in
    match ObservableList.set (outputs m) (-1) output with
    | Some (l, _) => with_outputs l m
    | None => m
    end
  else if known_kind output then
    with_outputs (fst (ObservableList.add (outputs m) output)) m
  else m.

End OutputArea.

(* ===================================================================== *)
(** ** The cell models (editor, input area, cells)                        *)
(* ===================================================================== *)

Module cells.
Import nbformat.

(** Modelled from the spec: the editor model of ../editor is not among
    the sources.  It holds the text, the mimetype ([None]: the option
    was not given and the editor keeps its own default) and the
    read-only flag the constructor options initialise. *)
Record IEditorModel : Type := mkEditor {
  text : string;
  mimetype : option string;
  readOnly : bool
}.

(** Modelled from the spec: the input area of ../input-area owns one
    editor model and the prompt shown next to it. *)
Record IInputAreaModel : Type := mkInput {
  textEditor : IEditorModel;
  prompt : string
}.

(** Modelled from the spec: the fields only one cell variant has
    (code: output area, execution count, collapsed, scrolled; markdown:
    rendered; raw: format). *)
Inductive CellVariant : Type :=
| Code (output : OutputArea.OutputAreaModel) (executionCount : option Z)
       (collapsed scrolled : option bool)
| Markdown (rendered : option bool)
| Raw (format : option string).

(** Modelled from the spec: the cell classes of ../cells are not among
    the sources.  A cell is a tagged variant over code, markdown and raw
    with the common attributes input, tags, name, trusted, active and
    selected; its read-only state is that of its input's text editor. *)
Record ICellModel : Type := mkCell {
  input : IInputAreaModel;
  tags : option (list string);
  name : option string;
  trusted : bool;
  active : bool;
  selected : bool;
  variant : CellVariant
}.

Definition isCodeCellModel (c : ICellModel) : bool :=
  match variant c with Code _ _ _ _ => true | _ => false end.
Definition isMarkdownCellModel (c : ICellModel) : bool :=
  match variant c with Markdown _ => true | _ => false end.
Definition isRawCellModel (c : ICellModel) : bool :=
  match variant c with Raw _ => true | _ => false end.

(** [cell.type] *)
Definition type (c : ICellModel) : string :=
  match variant c with
  | Code _ _ _ _ => "code"
  | Markdown _ => "markdown"
  | Raw _ => "raw"
  end.

(** [cell.readOnly], read through the input area from the editor. *)
Definition cell_readOnly (c : ICellModel) : bool :=
  readOnly (textEditor (input c)).

Definition cell_text (c : ICellModel) : string :=
  text (textEditor (input c)).

(** Property writes, one function per assignment of the sources. *)
Definition with_input (i : IInputAreaModel) (c : ICellModel) :=
  mkCell i (tags c) (name c) (trusted c) (active c) (selected c) (variant c).
Definition with_tags (t : option (list string)) (c : ICellModel) :=
  mkCell (input c) t (name c) (trusted c) (active c) (selected c) (variant c).
Definition with_name (n : option string) (c : ICellModel) :=
  mkCell (input c) (tags c) n (trusted c) (active c) (selected c) (variant c).
Definition with_trusted (b : bool) (c : ICellModel) :=
  mkCell (input c) (tags c) (name c) b (active c) (selected c) (variant c).
Definition with_active (b : bool) (c : ICellModel) :=
  mkCell (input c) (tags c) (name c) (trusted c) b (selected c) (variant c).
Definition with_variant (v : CellVariant) (c : ICellModel) :=
  mkCell (input c) (tags c) (name c) (trusted c) (active c) (selected c) v.

(** [cell.input.prompt = p] *)
Definition with_prompt (p : string) (c : ICellModel) :=
  with_input (mkInput (textEditor (input c)) p) c.

(** [cell.input.textEditor.text = t] *)
Definition with_cell_text (t : string) (c : ICellModel) :=
  with_input
    (mkInput (mkEditor t (mimetype (textEditor (input c)))
                       (readOnly (textEditor (input c))))
             (prompt (input c))) c.

(** [cell.readOnly = b] *)
Definition with_readOnly (b : bool) (c : ICellModel) :=
  with_input
    (mkInput (mkEditor (text (textEditor (input c)))
                       (mimetype (textEditor (input c))) b)
             (prompt (input c))) c.

(** Writes to the fields of one variant; the guards of the sources make
    sure they reach a cell of that variant only. *)
Definition with_output (o : OutputArea.OutputAreaModel) (c : ICellModel) :=
  match variant c with
  | Code _ n col scr => with_variant (Code o n col scr) c
  | _ => c
  end.
Definition with_executionCount (n : option Z) (c : ICellModel) :=
  match variant c with
  | Code o _ col scr => with_variant (Code o n col scr) c
  | _ => c
  end.
Definition with_collapsed (b : option bool) (c : ICellModel) :=
  match variant c with
  | Code o n _ scr => with_variant (Code o n b scr) c
  | _ => c
  end.
Definition with_scrolled (b : option bool) (c : ICellModel) :=
  match variant c with
  | Code o n col _ => with_variant (Code o n col b) c
  | _ => c
  end.
Definition with_rendered (b : option bool) (c : ICellModel) :=
  match variant c with
  | Markdown _ => with_variant (Markdown b) c
  | _ => c
  end.
Definition with_format (f : option string) (c : ICellModel) :=
  match variant c with
  | Raw _ => with_variant (Raw f) c
  | _ => c
  end.

(** [cell.output.outputs] of a code cell. *)
Definition cell_outputs (c : ICellModel) : list IOutput :=
  match variant c with
  | Code o _ _ _ => OutputArea.outputs o
  | _ => []
  end.

(** Modelled from the spec: [new EditorModel(options)] starts with no
    text and takes mimetype and read-only flag from the options;
    [new InputAreaModel(editor)] wraps the editor. *)
Definition new_EditorModel (mt : option string) (ro : bool) : IEditorModel :=
  mkEditor "" mt ro.
Definition new_InputAreaModel (editor : IEditorModel) : IInputAreaModel :=
  mkInput editor "".

(** Modelled from the spec: [new CodeCellModel(input, output)],
    [new MarkdownCellModel(input)] and [new RawCellModel(input)] own the
    models they are given; every property is still unset. *)
Definition new_CodeCellModel (i : IInputAreaModel)
    (o : OutputArea.OutputAreaModel) : ICellModel :=
  mkCell i None None false false false (Code o None None None).
Definition new_MarkdownCellModel (i : IInputAreaModel) : ICellModel :=
  mkCell i None None false false false (Markdown None).
Definition new_RawCellModel (i : IInputAreaModel) : ICellModel :=
  mkCell i None None false false false (Raw None).

End cells.

(* ===================================================================== *)
(** ** NotebookModel (notebook/model.ts)                                  *)
(* ===================================================================== *)

Module Notebook.
Import cells.
Import nbformat (INotebookMetadata).
Import ObservableList (IListChangedArgs, Add, Move, Remove, Replace, Set_).

(** [type NotebookMode = 'command' | 'edit'] *)
Inductive NotebookMode : Type := command | edit.

(** The part of the session (jupyter-js-services) the model uses. *)
Record INotebookSession : Type := mkSession {
  notebookPath : string;
  isDisposed : bool;
  kernel_name : string
}.

(** The argument of [session.kernel.execute]. *)
Record IExecuteRequest : Type := mkExecuteRequest {
  code : string;
  silent : bool;
  store_history : bool;
  stop_on_error : bool;
  allow_stdin : bool
}.

(** The state of a notebook model.  The properties kept in
    [NotebookModelPrivate] are fields; a property never written is
    [None] where the sources can observe the difference.
    [selectedCellIndex] is the plain object property that
    serialize.ts assigns: the class declares no accessor of that name.
    [executed] logs the requests handed to the kernel and [disposed] the
    cells the model disposed of, most recent first.  The cell list owns
    its cells: the factories return new objects and nothing in the
    sources puts one object into two slots, so the cell of a slot is
    stored in the slot and a write to it is a write to that slot. *)
Record NotebookModel : Type := mkNotebook {
  cells : list ICellModel;
  mode : option NotebookMode;
  defaultMimetype : string;
  readOnly : bool;
  session : option INotebookSession;
  metadata : INotebookMetadata;
  activeCellIndex : option Z;
  dirty : bool;
  selectedCellIndex : option Z;
  executed : list IExecuteRequest;
  disposed : list ICellModel
}.

(** [new NotebookModel(manager)] *)
Definition new (md : INotebookMetadata) : NotebookModel :=
  mkNotebook [] None "text/x-ipython" false None md None false None [] [].

Definition with_cells (l : list ICellModel) (nb : NotebookModel) :=
  mkNotebook l (mode nb) (defaultMimetype nb) (readOnly nb) (session nb)
    (metadata nb) (activeCellIndex nb) (dirty nb) (selectedCellIndex nb)
    (executed nb) (disposed nb).
Definition with_mode (m : option NotebookMode) (nb : NotebookModel) :=
  mkNotebook (cells nb) m (defaultMimetype nb) (readOnly nb) (session nb)
    (metadata nb) (activeCellIndex nb) (dirty nb) (selectedCellIndex nb)
    (executed nb) (disposed nb).
Definition with_readOnly (b : bool) (nb : NotebookModel) :=
  mkNotebook (cells nb) (mode nb) (defaultMimetype nb) b (session nb)
    (metadata nb) (activeCellIndex nb) (dirty nb) (selectedCellIndex nb)
    (executed nb) (disposed nb).
Definition with_session (s : option INotebookSession) (nb : NotebookModel) :=
  mkNotebook (cells nb) (mode nb) (defaultMimetype nb) (readOnly nb) s
    (metadata nb) (activeCellIndex nb) (dirty nb) (selectedCellIndex nb)
    (executed nb) (disposed nb).
Definition with_metadata (md : INotebookMetadata) (nb : NotebookModel) :=
  mkNotebook (cells nb) (mode nb) (defaultMimetype nb) (readOnly nb)
    (session nb) md (activeCellIndex nb) (dirty nb) (selectedCellIndex nb)
    (executed nb) (disposed nb).
Definition with_activeCellIndex (i : option Z) (nb : NotebookModel) :=
  mkNotebook (cells nb) (mode nb) (defaultMimetype nb) (readOnly nb)
    (session nb) (metadata nb) i (dirty nb) (selectedCellIndex nb)
    (executed nb) (disposed nb).
Definition with_dirty (b : bool) (nb : NotebookModel) :=
  mkNotebook (cells nb) (mode nb) (defaultMimetype nb) (readOnly nb)
    (session nb) (metadata nb) (activeCellIndex nb) b (selectedCellIndex nb)
    (executed nb) (disposed nb).
Definition with_selectedCellIndex (i : option Z) (nb : NotebookModel) :=
  mkNotebook (cells nb) (mode nb) (defaultMimetype nb) (readOnly nb)
    (session nb) (metadata nb) (activeCellIndex nb) (dirty nb) i
    (executed nb) (disposed nb).
Definition with_executed (l : list IExecuteRequest) (nb : NotebookModel) :=
  mkNotebook (cells nb) (mode nb) (defaultMimetype nb) (readOnly nb)
    (session nb) (metadata nb) (activeCellIndex nb) (dirty nb)
    (selectedCellIndex nb) l (disposed nb).
Definition with_disposed (l : list ICellModel) (nb : NotebookModel) :=
  mkNotebook (cells nb) (mode nb) (defaultMimetype nb) (readOnly nb)
    (session nb) (metadata nb) (activeCellIndex nb) (dirty nb)
    (selectedCellIndex nb) (executed nb) l.

(** [set readOnly(value)] *)
Definition set_readOnly (value : bool) (nb : NotebookModel) : NotebookModel :=
  let nb := with_readOnly value nb in
  with_cells (cells.with_readOnly value <$> cells nb) nb.

(** [set activeCellIndex(value)] *)
Definition set_activeCellIndex (value : Z) (nb : NotebookModel) : NotebookModel :=
  let value := Z.max value 0 in
  let value := Z.min value (ObservableList.length (cells nb) - 1) in
  let nb := with_activeCellIndex (Some value) nb in
  with_cells
    (imap (fun i cell => with_active (Z.eqb value (Z.of_nat i)) cell) (cells nb))
    nb.

(** [createCodeCell(source?)] *)
Definition createCodeCell (source : option ICellModel) (nb : NotebookModel)
    : ICellModel :=
  let mimetype :=
    match source with
    | Some s => if isCodeCellModel s then mimetype (textEditor (input s))
                else Some (defaultMimetype nb)
    | None => Some (defaultMimetype nb)
    end in
  let editor := new_EditorModel mimetype (readOnly nb) in
  let input := new_InputAreaModel editor in
  let output := OutputArea.new in
  let cell := new_CodeCellModel input output in
  let cell := with_trusted true cell in
  match source with
  | Some s =>
      let cell := with_trusted (trusted s) cell in
      let cell := with_cell_text (cell_text s) cell in
      let cell := with_tags (tags s) cell in
      match variant s with
      | Code sout _ scol sscr =>
          let cell := with_collapsed scol cell in
          let cell := with_scrolled sscr cell in
          with_output
            (OutputArea.with_outputs
               (foldl (fun l o => fst (ObservableList.add l o)) []
                      (OutputArea.outputs sout))
               output) cell
      | _ => cell
      end
  | None => cell
  end.

(** [createMarkdownCell(source?)] *)
Definition createMarkdownCell (source : option ICellModel) (nb : NotebookModel)
    : ICellModel :=
  let editor := new_EditorModel (Some "text/x-ipythongfm") (readOnly nb) in
  let input := new_InputAreaModel editor in
  let cell := new_MarkdownCellModel input in
  let cell := with_trusted true cell in
  match source with
  | Some s =>
      let cell := with_trusted (trusted s) cell in
      let cell := with_cell_text (cell_text s) cell in
      let cell := with_tags (tags s) cell in
      match variant s with
      | Markdown r => with_rendered r cell
      | _ => cell
      end
  | None => cell
  end.

(** [createRawCell(source?)] *)
Definition createRawCell (source : option ICellModel) (nb : NotebookModel)
    : ICellModel :=
  let editor := new_EditorModel None (readOnly nb) in
  let input := new_InputAreaModel editor in
  let cell := new_RawCellModel input in
  let cell := with_trusted true cell in
  match source with
  | Some s =>
      let cell := with_trusted (trusted s) cell in
      let cell := with_cell_text (cell_text s) cell in
      let cell := with_tags (tags s) cell in
      match variant s with
      | Raw f => with_format f cell
      | _ => cell
      end
  | None => cell
  end.

(** Modelled from the spec: [cell.dispose()] disposes of the input and
    output models of the cell; a disposed output area has let go of its
    outputs. *)
Definition dispose (c : ICellModel) : ICellModel :=
  match variant c with
  | Code o n col scr =>
      with_variant (Code (OutputArea.with_outputs [] o) n col scr) c
  | _ => c
  end.

(** [_onCellsChanged(list, change)], the handler connected to
    [cells.changed] by the constructor.  On Add the handler also
    connects [_onCellStateChanged] to the new cell, which reacts to a
    cell's 'mode' property only; nothing below writes that property. *)
Definition _onCellsChanged (change : IListChangedArgs ICellModel)
    (nb : NotebookModel) : NotebookModel :=
  match change with
  | Add newIndex _ => set_activeCellIndex newIndex nb
  | Remove oldIndex oldValue =>
      let nb := with_disposed (dispose oldValue :: disposed nb) nb in
      set_activeCellIndex
        (Z.min oldIndex (ObservableList.length (cells nb) - 1)) nb
  | Replace _ oldValues _ =>
      with_disposed (rev (dispose <$> oldValues) ++ disposed nb) nb
  | _ => nb
  end.

(** The operations of [model.cells], each followed by the handler. *)
Definition emit (r : list ICellModel * IListChangedArgs ICellModel)
    (nb : NotebookModel) : NotebookModel :=
  _onCellsChanged (snd r) (with_cells (fst r) nb).

Definition cells_add (cell : ICellModel) (nb : NotebookModel) :=
  emit (ObservableList.add (cells nb) cell) nb.
Definition cells_insert (i : Z) (cell : ICellModel) (nb : NotebookModel) :=
  match ObservableList.insert (cells nb) i cell with
  | Some r => emit r nb
  | None => nb
  end.
Definition cells_removeAt (i : Z) (nb : NotebookModel) :=
  match ObservableList.removeAt (cells nb) i with
  | Some r => emit r nb
  | None => nb
  end.
Definition cells_clear (nb : NotebookModel) :=
  emit (ObservableList.clear (cells nb)) nb.

(** A text is modelled by the bytes of its UTF-8 form, which tells two
    JavaScript strings apart exactly when their code units do (a string
    with a lone surrogate has no such form and no model).  [chars]
    splits a text into its characters: a byte that starts a character,
    with the continuation bytes (10xxxxxx) behind it. *)
Definition byte (c : ascii) : Z := Z.of_nat (nat_of_ascii c).

Definition continuation (c : ascii) : bool :=
  (128 <=? byte c) && (byte c <? 192).

Definition continues (ch : string) : bool :=
  match ch with
  | String c _ => continuation c
  | EmptyString => false
  end.

Fixpoint chars (s : string) : list string :=
  match s with
  | EmptyString => []
  | String c s' =>
      match chars s' with
      | ch :: rest =>
          if continues ch then String c ch :: rest
          else String c EmptyString :: ch :: rest
      | [] => [String c EmptyString]
      end
  end.

(** The code point a character stands for, where its bytes are the
    UTF-8 form of one. *)
Definition codePoint (ch : string) : option Z :=
  match ch with
  | String a EmptyString =>
      if byte a <? 128 then Some (byte a) else None
  | String a (String b EmptyString) =>
      if (194 <=? byte a) && (byte a <? 224) && continuation b
      then Some ((byte a - 192) * 64 + (byte b - 128))
      else None
  | String a (String b (String c EmptyString)) =>
      let cp := (byte a - 224) * 4096 + (byte b - 128) * 64 + (byte c - 128) in
      if (224 <=? byte a) && (byte a <? 240) && continuation b && continuation c
         && (2048 <=? cp) && negb ((55296 <=? cp) && (cp <=? 57343))
      then Some cp
      else None
  | String a (String b (String c (String d EmptyString))) =>
      let cp := (byte a - 240) * 262144 + (byte b - 128) * 4096
                + (byte c - 128) * 64 + (byte d - 128) in
      if (240 <=? byte a) && (byte a <? 248) && continuation b && continuation c
         && continuation d && (65536 <=? cp) && (cp <=? 1114111)
      then Some cp
      else None
  | _ => None
  end.

(** The code points ECMAScript's [String.prototype.trim] strips: the
    WhiteSpace characters (tab, vertical tab, form feed, space, no-break
    space U+00A0, U+FEFF and the other space separators U+1680,
    U+2000 to U+200A, U+202F, U+205F, U+3000) and the LineTerminator
    characters (line feed, carriage return, U+2028, U+2029).  U+180E,
    which left the space separators with Unicode 6.3, is not among
    them. *)
Definition isWhiteSpace (cp : Z) : bool :=
  ((9 <=? cp) && (cp <=? 13)) || (cp =? 32) || (cp =? 160) || (cp =? 5760)
  || ((8192 <=? cp) && (cp <=? 8202)) || (cp =? 8232) || (cp =? 8233)
  || (cp =? 8239) || (cp =? 8287) || (cp =? 12288) || (cp =? 65279).

Definition isWhiteSpaceChar (ch : string) : bool :=
  match codePoint ch with
  | Some cp => isWhiteSpace cp
  | None => false
  end.

Fixpoint dropWhile {A : Type} (p : A -> bool) (l : list A) : list A :=
  match l with
  | [] => []
  | x :: rest => if p x then dropWhile p rest else l
  end.

Definition trimStart (l : list string) : list string :=
  dropWhile isWhiteSpaceChar l.

Definition trimEnd (l : list string) : list string :=
  rev (dropWhile isWhiteSpaceChar (rev l)).

(** [text.trim()]: the text without the white space at its start and at
    its end. *)
Definition trim (s : string) : string :=
  String.concat "" (trimEnd (trimStart (chars s))).

(** [executeCell(cell)].  The cell is an object of the cell list; the
    function returns it as the call leaves it, next to the notebook.
    The two reply handlers the call installs run later, when the kernel
    answers: see [onIOPub] and [onReply]. *)
Definition executeCell (cell : ICellModel) (nb : NotebookModel)
    : ICellModel * NotebookModel :=
  if readOnly nb then (cell, nb)
  else
    let text := trim (cell_text cell) in
    if String.eqb text "" then (with_prompt "In [ ]:" cell, nb)
    else
      match session nb with
      | None => (cell, nb)
      | Some _ =>
          let cell := with_prompt "In [*]:" cell in
          let exRequest := mkExecuteRequest (cell_text cell) false true true true in
          let nb := with_executed (exRequest :: executed nb) nb in
          let cell :=
            match variant cell with
            | Code o _ _ _ => with_output (OutputArea.clear false o) cell
            | _ => cell
            end in
          (with_trusted true cell, nb)
      end.

(** [ex.onIOPub]: the message content, tagged with the message type, is
    added to the output area of the cell. *)
Definition onIOPub (msg_type : string) (content : option nbformat.IOutput)
    (cell : ICellModel) : ICellModel :=
  match content, variant cell with
  | Some model, Code o _ _ _ =>
      let model :=
        nbformat.mkOutput msg_type (nbformat.name model) (nbformat.text model)
          (nbformat.data model) (nbformat.metadata model)
          (nbformat.execution_count model) (nbformat.ename model)
          (nbformat.evalue model) (nbformat.traceback model) in
      with_output (OutputArea.add model o) cell
  | _, _ => cell
  end.

(** [ex.onReply] *)
Definition onReply (execution_count : option Z) (cell : ICellModel) : ICellModel :=
  with_executionCount execution_count cell.

(** The dispatch of [runActiveCell] on the variant of the active cell,
    which is the object in slot [slot] of the cell list. *)
Definition run_dispatch (cell : ICellModel) (slot : nat) (nb : NotebookModel)
    : NotebookModel :=
  match variant cell with
  | Markdown _ =>
      let cell := with_trusted true cell in
      let cell := with_rendered (Some true) cell in
      with_cells (<[slot := cell]> (cells nb)) nb
  | Code _ _ _ _ =>
      let '(cell, nb) := executeCell cell nb in
      with_cells (<[slot := cell]> (cells nb)) nb
  | Raw _ =>
      let cell := with_trusted true cell in
      with_cells (<[slot := cell]> (cells nb)) nb
  end.

(** [runActiveCell()] *)
Definition runActiveCell (nb : NotebookModel) : NotebookModel :=
  if readOnly nb then nb
  else
    match activeCellIndex nb with
    | None => nb
    | Some index =>
        match ObservableList.get (cells nb) index with
        | None => nb
        | Some cell =>
            let slot := Z.to_nat (ObservableList._norm (cells nb) index) in
            let nb := run_dispatch cell slot nb in
            if Z.eqb index (ObservableList.length (cells nb) - 1) then
              let cell := createCodeCell None nb in
              let nb := cells_add cell nb in
              with_mode (Some edit) nb
            else set_activeCellIndex (index + 1) nb
        end
    end.

End Notebook.

(* ===================================================================== *)
(** ** notebook/serialize.ts                                              *)
(* ===================================================================== *)

Module serialize.
Import nbformat cells.

(** [Array.prototype.join('\n')] on strings. *)
Fixpoint join_lines (l : list string) : string :=
  match l with
  | [] => ""
  | [s] => s
  | s :: rest => String.append s (String (ascii_of_nat 10) (join_lines rest))
  end.

(** [serializeCell(cell)].  The cell object and its metadata object are
    built anew from the model: they hold the keys written here and no
    other. *)
Definition serializeCell (cell : ICellModel) : ICell :=
  let source := Single (cell_text cell) in
  match variant cell with
  | Raw format =>
      IRawCell source (cells.tags cell) (cells.name cell) format [] []
  | Code output executionCount collapsed scrolled =>
      ICodeCell source (cells.tags cell) (cells.name cell)
        collapsed scrolled
        (foldl (fun out o => out ++ [o]) [] (OutputArea.outputs output))
        executionCount [] []
  | Markdown _ =>
      IMarkdownCell source (cells.tags cell) (cells.name cell) [] []
  end.

(** [deserializeCell(data, model)].  The editor of a cell made by the
    notebook reports text changes to [onEditorChanged]; the second
    component tells whether the assignment changed the text.  The
    function is private to the module and [deserialize] hands it a model
    of the variant of [data]: the last case is not reached. *)
Definition deserializeCell (data : ICell) (model : ICellModel)
    : ICellModel * bool :=
  let source :=
    match source data with
    | Single s => s
    | Lines l => join_lines l
    end in
  let changed := negb (String.eqb source (cell_text model)) in
  let model := with_cell_text source model in
  let model := with_tags (metadata_tags data) model in
  let model := with_name (metadata_name data) model in
  let model :=
    match variant model, data with
    | Code _ _ _ _,
      ICodeCell _ _ _ collapsed scrolled outputs execution_count _ _ =>
        let model := with_collapsed collapsed model in
        let model := with_scrolled scrolled model in
        let model := with_executionCount execution_count model in
        foldl (fun m o =>
                 match variant m with
                 | Code area _ _ _ => with_output (OutputArea.add o area) m
                 | _ => m
                 end) model outputs
    | Raw _, IRawCell _ _ _ format _ _ => with_format format model
    | _, _ => model
    end in
  (model, changed).

Section WithVersion.
(** The constants of notebook/nbformat.ts, which is not among the
    sources. *)
Variables MAJOR_VERSION MINOR_VERSION : Z.

(** [serialize(nb)] *)
Definition serialize (nb : Notebook.NotebookModel) : INotebookContent :=
  let cells :=
    foldl (fun cells cell => cells ++ [serializeCell cell]) []
          (Notebook.cells nb) in
  mkContent cells (Notebook.metadata nb) MAJOR_VERSION MINOR_VERSION.
End WithVersion.

(** The body of the [forEach] of [deserialize], for one document cell.
    The three guards are exhaustive on [ICell]: a cell that is neither
    markdown nor code passes [isRawCell]. *)
Definition load_cell (model : Notebook.NotebookModel) (c : ICell)
    : Notebook.NotebookModel :=
  let cell :=
    if isMarkdownCell c then Notebook.createMarkdownCell None model
    else if isCodeCell c then Notebook.createCodeCell None model
    else Notebook.createRawCell None model in
  let '(cell, changed) := deserializeCell c cell in
  let model := if changed then Notebook.with_dirty true model else model in
  Notebook.cells_add cell model.

(** [deserialize(data, model)] *)
Definition deserialize (data : INotebookContent) (model : Notebook.NotebookModel)
    : Notebook.NotebookModel :=
  let model := Notebook.cells_clear model in
  let model := foldl load_cell model (nbformat.cells data) in
  let model :=
    if negb (Z.eqb (ObservableList.length (Notebook.cells model)) 0)
    then Notebook.with_selectedCellIndex (Some 0) model
    else model in
  Notebook.with_metadata (nb_metadata data) model.

End serialize.

(* ===================================================================== *)
(** ** NotebookModel.save (notebook/model.ts)                             *)
(* ===================================================================== *)

Module NotebookSave.
Import nbformat Notebook.

(** How a call that returns a promise ends: it throws before a promise
    exists, or the promise it returns resolves or rejects. *)
Inductive Completion : Type := TypeError | Resolved | Rejected.

(** What a call leaves behind: how it ended, the model, and the calls
    [manager.save(name, { type: 'notebook', content })] it made. *)
Record Outcome : Type := mkOutcome {
  completion : Completion;
  model : NotebookModel;
  persisted : list (string * INotebookContent)
}.

Section WithCollaborators.
Variables MAJOR_VERSION MINOR_VERSION : Z.
(** The contents manager: [true] when the promise of
    [manager.save] resolves, [false] when it rejects. *)
Variable manager_save : string -> INotebookContent -> bool.
(** The answers of the kernel: the display name of the kernel spec
    and the language info, [None] when the request fails. *)
Variable getKernelSpec : option string.
Variable kernelInfo : option string.

(** [_save()].  Reading [notebookPath] of a session that is
    `undefined` throws. *)
Definition _save (nb : NotebookModel) : Outcome :=
  let content := serialize.serialize MAJOR_VERSION MINOR_VERSION nb in
  match session nb with
  | None => mkOutcome TypeError nb []
  | Some s =>
      let name := notebookPath s in
      if manager_save name content
      then mkOutcome Resolved (with_dirty false nb) [(name, content)]
      else mkOutcome Rejected nb [(name, content)]
  end.

(** [save()] *)
Definition save (nb : NotebookModel) : Outcome :=
  match session nb with
  | None => _save nb
  | Some s =>
      if isDisposed s then _save nb
      else
        match getKernelSpec with
        | None => mkOutcome Rejected nb []
        | Some display_name =>
            let md := metadata nb in
            let nb :=
              with_metadata
                (mkMetadata (kernel_name s) display_name (language_info md))
                nb in
            match kernelInfo with
            | None => mkOutcome Rejected nb []
            | Some info =>
                let md := metadata nb in
                let nb :=
                  with_metadata
                    (mkMetadata (kernelspec_name md)
                                (kernelspec_display_name md) info) nb in
                _save nb
            end
        end
  end.
End WithCollaborators.

End NotebookSave.

(* ===================================================================== *)
(** ** NotebookWidget (notebook/widget.ts)                                *)
(* ===================================================================== *)

Module widget.
Import cells.
Import ObservableList (IListChangedArgs, Add, Move, Remove, Replace, Set_).

Inductive WidgetClass : Type :=
| CodeCellWidget | MarkdownCellWidget | RawCellWidget | BlankWidget.

(** A widget object: [id] is its identity (the number of widgets built
    before it), [model] the cell model it was constructed for. *)
Record Widget : Type := mkWidget {
  id : nat;
  class : WidgetClass;
  model : ICellModel
}.

(** The cells layout of a notebook widget: the children of the panel
    layout, the number of widgets constructed so far, and the
    identities of the widgets disposed of. *)
Record Layout : Type := mkLayout {
  children : list Widget;
  constructed : nat;
  disposed : list nat
}.

Definition with_children (l : list Widget) (s : Layout) :=
  mkLayout l (constructed s) (disposed s).

(** [NotebookWidget.createCell(cell)] *)
Definition createCell (cell : ICellModel) (s : Layout) : Widget * Layout :=
  let class :=
    if String.eqb (type cell) "code" then CodeCellWidget
    else if String.eqb (type cell) "markdown" then MarkdownCellWidget
    else if String.eqb (type cell) "raw" then RawCellWidget
    else BlankWidget in
  (mkWidget (constructed s) class cell,
   mkLayout (children s) (S (constructed s)) (disposed s)).

(** [widget.dispose()] *)
Definition dispose (w : Widget) (s : Layout) : Layout :=
  mkLayout (children s) (constructed s) (id w :: disposed s).

(** Modelled from the spec: PanelLayout is the phosphor-panel package,
    an external collaborator.  [childAt] reads the child array, and is
    `undefined` outside of it. *)
Definition childAt (l : list Widget) (i : Z) : option Widget :=
  if (0 <=? i) && (i <? Z.of_nat (length l)) then l !! Z.to_nat i else None.

Definition same (w v : Widget) : bool := Nat.eqb (id w) (id v).

(** [childIndex]: the position of the widget among the children. *)
Fixpoint childIndex (l : list Widget) (w : Widget) : option nat :=
  match l with
  | [] => None
  | v :: rest => if same v w then Some O else S <$> childIndex rest w
  end.

(** Modelled from the spec: [removeChild] takes the widget out of the
    child array; a value that is not a child is left alone. *)
Definition removeChild (l : list Widget) (w : option Widget) : list Widget :=
  match w with
  | None => l
  | Some w =>
      match childIndex l w with
      | Some i => delete i l
      | None => l
      end
  end.

(** Modelled from the spec: [insertChild] clamps the index; a widget
    that is a child already is relocated, any other is inserted.  The
    call writes the parent of the child first, which throws on
    `undefined` ([None]). *)
Definition insertChild (l : list Widget) (index : Z) (child : option Widget)
    : option (list Widget) :=
  match child with
  | None => None
  | Some w =>
      let n := length l in
      let j := Z.to_nat (Z.max 0 (Z.min index (Z.of_nat n))) in
      match childIndex l w with
      | Some i =>
          let j := if Nat.eqb j n then Nat.pred j else j in
          if Nat.eqb i j then Some l
          else
            let rest := delete i l in
            Some (take j rest ++ w :: drop j rest)
      | None => Some (take j l ++ w :: drop j l)
      end
  end.

Definition addChild (l : list Widget) (child : Widget) : option (list Widget) :=
  insertChild l (Z.of_nat (length l)) (Some child).

(** How the handler ends: it returns, or a TypeError leaves it. *)
Inductive Outcome : Type :=
| Returned (s : Layout)
| TypeError (s : Layout).

Definition layout_of (o : Outcome) : Layout :=
  match o with Returned s | TypeError s => s end.

(** The first loop of the Replace case:
    [for (let i = oldValue.length; i > 0; i--)]. *)
Fixpoint remove_old (i : nat) (s : Layout) : Outcome :=
  match i with
  | O => Returned s
  | S i' =>
      let widget := childAt (children s) (Z.of_nat i) in
      let s := with_children (removeChild (children s) widget) s in
      match widget with
      | None => TypeError s
      | Some w => remove_old i' (dispose w s)
      end
  end.

(** The second loop of the Replace case. *)
Fixpoint add_new (newValues : list ICellModel) (s : Layout) : Outcome :=
  match newValues with
  | [] => Returned s
  | v :: rest =>
      let '(w, s) := createCell v s in
      match addChild (children s) w with
      | Some l => add_new rest (with_children l s)
      | None => TypeError s
      end
  end.

(** [onCellsChanged(sender, args)] *)
Definition onCellsChanged (args : IListChangedArgs ICellModel) (s : Layout)
    : Outcome :=
  match args with
  | Add newIndex newValue =>
      let '(w, s) := createCell newValue s in
      match insertChild (children s) newIndex (Some w) with
      | Some l => Returned (with_children l s)
      | None => TypeError s
      end
  | Move oldIndex newIndex _ =>
      match insertChild (children s) newIndex (childAt (children s) oldIndex) with
      | Some l => Returned (with_children l s)
      | None => TypeError s
      end
  | Remove oldIndex _ =>
      let widget := childAt (children s) oldIndex in
      let s := with_children (removeChild (children s) widget) s in
      match widget with
      | None => TypeError s
      | Some w => Returned (dispose w s)
      end
  | Replace _ oldValue newValue =>
      match remove_old (length oldValue) s with
      | Returned s => add_new newValue s
      | TypeError s => TypeError s
      end
  | Set_ newIndex _ newValue =>
      let widget := childAt (children s) newIndex in
      let s := with_children (removeChild (children s) widget) s in
      match widget with
      | None => TypeError s
      | Some w =>
          let s := dispose w s in
          let '(w', s) := createCell newValue s in
          match insertChild (children s) newIndex (Some w') with
          | Some l => Returned (with_children l s)
          | None => TypeError s
          end
      end
  end.

(** The loop of the constructor: one widget per cell of the model. *)
Definition new (cells : list ICellModel) : Layout :=
  foldl (fun s cell =>
           let '(w, s) := createCell cell s in
           match addChild (children s) w with
           | Some l => with_children l s
           | None => s
           end)
        (mkLayout [] O []) cells.

End widget.

(* ===================================================================== *)
(** * Statements and sample data                                          *)
(* ===================================================================== *)

(** The statement of stream consolidation for every output area: the
    last entry is a stream of the channel of the new stream output. *)
Definition consolidation_in_every_state : Prop :=
  forall (m : OutputArea.OutputAreaModel) (l : list nbformat.IOutput)
         (last o : nbformat.IOutput),
    OutputArea.outputs m = l ++ [last] ->
    nbformat.isStream last = true ->
    nbformat.isStream o = true ->
    nbformat.name o = nbformat.name last ->
    OutputArea.outputs (OutputArea.add o m)
    = l ++ [nbformat.with_text
              (String.append (nbformat.text last) (nbformat.text o)) o].

(** The statement of the deferred clear for every output [X]. *)
Definition deferred_clear_keeps_every_output : Prop :=
  forall (m : OutputArea.OutputAreaModel) (X : nbformat.IOutput),
    OutputArea.outputs (OutputArea.add X (OutputArea.clear true m)) = [X].

(** Exactly one cell is active, and it is the cell at [activeCellIndex]. *)
Definition one_active (nb : Notebook.NotebookModel) : Prop :=
  exists i : nat,
    Notebook.activeCellIndex nb = Some (Z.of_nat i)
    /\ (i < length (Notebook.cells nb))%nat
    /\ forall (j : nat) (c : cells.ICellModel),
         Notebook.cells nb !! j = Some c -> (cells.active c = true <-> j = i).

(** The text is empty or made of white space only: every character of
    it is a white space or line terminator character. *)
Definition whitespace_only (s : string) : bool :=
  forallb Notebook.isWhiteSpaceChar (Notebook.chars s).

(** The outputs that [OutputAreaModel.add] stores one by one as they
    come: each is of a known kind and does not consolidate with the one
    before it ([last] is the entry the first one meets). *)
Fixpoint kept_apart (last : option nbformat.IOutput) (l : list nbformat.IOutput)
    : bool :=
  match l with
  | [] => true
  | o :: rest =>
      OutputArea.known_kind o && negb (OutputArea.consolidates o last)
      && kept_apart (Some o) rest
  end.

(** A document cell whose source is one string, whose outputs, for a
    code cell, are kept apart, and which holds no key, in the cell or in
    its metadata, but the ones the serializer reads. *)
Definition plain_cell (c : nbformat.ICell) : bool :=
  match c with
  | nbformat.IRawCell (nbformat.Single _) _ _ _ [] [] => true
  | nbformat.IMarkdownCell (nbformat.Single _) _ _ [] [] => true
  | nbformat.ICodeCell (nbformat.Single _) _ _ _ _ outputs _ [] [] =>
      kept_apart None outputs
  | _ => false
  end.

(** A document of plain cells in the format version the serializer
    writes. *)
Definition plain_document (MAJOR_VERSION MINOR_VERSION : Z)
    (doc : nbformat.INotebookContent) : bool :=
  forallb plain_cell (nbformat.cells doc)
  && (nbformat.nbformat doc =? MAJOR_VERSION)
  && (nbformat.nbformat_minor doc =? MINOR_VERSION).

(** The cell [deserialize] makes for a document cell. *)
Definition loaded (model : Notebook.NotebookModel) (c : nbformat.ICell)
    : cells.ICellModel :=
  fst (serialize.deserializeCell c
         (if nbformat.isMarkdownCell c then Notebook.createMarkdownCell None model
          else if nbformat.isCodeCell c then Notebook.createCodeCell None model
          else Notebook.createRawCell None model)).

(** A document cell whose source is one string. *)
Definition single_source (c : nbformat.ICell) : bool :=
  match nbformat.source c with
  | nbformat.Single _ => true
  | nbformat.Lines _ => false
  end.

(** A document cell whose outputs are all of a known kind. *)
Definition known_outputs (c : nbformat.ICell) : bool :=
  match c with
  | nbformat.ICodeCell _ _ _ _ _ outputs _ _ _ =>
      forallb OutputArea.known_kind outputs
  | _ => true
  end.

(** The round trip stated for every document in the serializer's format
    version whose sources are strings and whose outputs are of the known
    kinds. *)
Definition roundtrip_of_every_document (MAJOR_VERSION MINOR_VERSION : Z) : Prop :=
  forall (doc : nbformat.INotebookContent) (model : Notebook.NotebookModel),
    nbformat.nbformat doc = MAJOR_VERSION ->
    nbformat.nbformat_minor doc = MINOR_VERSION ->
    forallb single_source (nbformat.cells doc) = true ->
    forallb known_outputs (nbformat.cells doc) = true ->
    serialize.serialize MAJOR_VERSION MINOR_VERSION
      (serialize.deserialize doc model) = doc.

Definition sample_metadata : nbformat.INotebookMetadata :=
  nbformat.mkMetadata "python3" "Python 3" "python".

(** A document of a code, a markdown and a raw cell, with tags; the code
    cell holds two stdout chunks one after the other. *)
Definition chunked_document : nbformat.INotebookContent :=
  nbformat.mkContent
    [nbformat.ICodeCell (nbformat.Single "print('a'); print('b')")
       (Some ["demo"]) (Some "first") (Some false) (Some false)
       [nbformat.Stream "stdout" "a"; nbformat.Stream "stdout" "b"] (Some 1)
       [] [];
     nbformat.IMarkdownCell (nbformat.Single "# Title") (Some ["doc"]) None
       [] [];
     nbformat.IRawCell (nbformat.Single "raw text") (Some ["r"]) None
       (Some "text/plain") [] []]
    sample_metadata 4 0.

(** A document of a code, a markdown and a raw cell, with tags and
    outputs that stay apart. *)
Definition sample_document : nbformat.INotebookContent :=
  nbformat.mkContent
    [nbformat.ICodeCell (nbformat.Single "1 + 1")
       (Some ["demo"]) (Some "first") (Some false) (Some true)
       [nbformat.Stream "stdout" "a"; nbformat.Stream "stderr" "b";
        nbformat.ExecuteResult [("text/plain", "2")] (Some 1)] (Some 1)
       [] [];
     nbformat.IMarkdownCell (nbformat.Single "# Title") (Some ["doc"]) None
       [] [];
     nbformat.IRawCell (nbformat.Single "raw text") (Some ["r"]) None
       (Some "text/plain") [] []]
    sample_metadata 4 0.

(** Every child was built before now, and no two children are the same
    widget. *)
Definition well_formed (s : widget.Layout) : Prop :=
  NoDup (widget.id <$> widget.children s)
  /\ Forall (fun w => (widget.id w < widget.constructed s)%nat) (widget.children s).

(** The children stand for the cells of the list, slot by slot. *)
Definition in_sync (l : list cells.ICellModel) (s : widget.Layout) : Prop :=
  widget.model <$> widget.children s = l /\ well_formed s.

(** A new notebook, a notebook of one raw cell, and the notebook loaded
    from [sample_document] (a code, a markdown and a raw cell). *)
Definition empty_notebook : Notebook.NotebookModel :=
  Notebook.new sample_metadata.

Definition raw_notebook : Notebook.NotebookModel :=
  Notebook.cells_add (Notebook.createRawCell None empty_notebook) empty_notebook.

Definition sample_notebook : Notebook.NotebookModel :=
  serialize.deserialize sample_document empty_notebook.

(** A text from the bytes given by their numbers. *)
Definition text_of_bytes (l : list nat) : string :=
  fold_right (fun n s => String (ascii_of_nat n) s) "" l.

(** A code cell whose text is a space, a tab, a line feed, a no-break
    space (U+00A0), a line separator (U+2028) and U+FEFF. *)
Definition blank_code_cell : cells.ICellModel :=
  cells.with_cell_text
    (text_of_bytes [32; 9; 10; 194; 160; 226; 128; 168; 239; 187; 191]%nat)
    (Notebook.createCodeCell None empty_notebook).

(** A call on an output area: [add(output)] or [clear(wait)]. *)
Inductive OutputCall : Type :=
| CallAdd (output : nbformat.IOutput)
| CallClear (wait : bool).

Definition call (m : OutputArea.OutputAreaModel) (c : OutputCall)
    : OutputArea.OutputAreaModel :=
  match c with
  | CallAdd output => OutputArea.add output m
  | CallClear wait => OutputArea.clear wait m
  end.

(** The texts of the outputs of a list, one after the other. *)
Definition all_text (l : list nbformat.IOutput) : string :=
  foldr (fun o acc => String.append (nbformat.text o) acc) "" l.

(** The entry an output appended to [l] meets: the last entry of [l],
    or [p] when [l] is empty. *)
Definition entry_before (p : option nbformat.IOutput) (l : list nbformat.IOutput)
    : option nbformat.IOutput :=
  match last l with
  | Some y => Some y
  | None => p
  end.

(** What a cell says to the reader of a notebook: its type, text, tags
    and name. *)
Definition cell_content (c : cells.ICellModel)
    : string * string * option (list string) * option string :=
  (cells.type c, cells.cell_text c, cells.tags c, cells.name c).

(** The request [executeCell] sends for a source text. *)
Definition execute_request (text : string) : Notebook.IExecuteRequest :=
  Notebook.mkExecuteRequest text false true true true.

(** The text a cell source stands for: the lines of a line array are
    joined by line feeds. *)
Definition source_text (s : nbformat.multilineString) : string :=
  match s with
  | nbformat.Single t => t
  | nbformat.Lines l => serialize.join_lines l
  end.

(** The outputs a new output area holds after they were added to it one
    by one. *)
Definition consolidated (outs : list nbformat.IOutput) : list nbformat.IOutput :=
  OutputArea.outputs (foldl (fun a o => OutputArea.add o a) OutputArea.new outs).

(** A document cell as it comes back from the model: the source as one
    string, the outputs consolidated, and without the keys the
    serializer does not read. *)
Definition normal_cell (c : nbformat.ICell) : nbformat.ICell :=
  match c with
  | nbformat.IRawCell s tags name format _ _ =>
      nbformat.IRawCell (nbformat.Single (source_text s)) tags name format
        [] []
  | nbformat.IMarkdownCell s tags name _ _ =>
      nbformat.IMarkdownCell (nbformat.Single (source_text s)) tags name
        [] []
  | nbformat.ICodeCell s tags name collapsed scrolled outs execution_count _ _ =>
      nbformat.ICodeCell (nbformat.Single (source_text s)) tags name
        collapsed scrolled (consolidated outs) execution_count [] []
  end.

(** A call on the cell list that reports an Add, Remove, Set or Move
    change. *)
Inductive ListCall : Type :=
| DoAdd (cell : cells.ICellModel)
| DoInsert (i : Z) (cell : cells.ICellModel)
| DoRemoveAt (i : Z)
| DoSet (i : Z) (cell : cells.ICellModel)
| DoMove (i j : Z).

Definition list_call (l : list cells.ICellModel) (c : ListCall)
    : option (list cells.ICellModel
              * ObservableList.IListChangedArgs cells.ICellModel) :=
  match c with
  | DoAdd cell => Some (ObservableList.add l cell)
  | DoInsert i cell => ObservableList.insert l i cell
  | DoRemoveAt i => ObservableList.removeAt l i
  | DoSet i cell => ObservableList.set l i cell
  | DoMove i j => ObservableList.move l i j
  end.

(** A cell list with the cells layout of a notebook widget connected to
    its [changed] signal: a call that goes through hands its change to
    [onCellsChanged]; a call that fails reports nothing. *)
Definition connected_call
    (st : list cells.ICellModel * widget.Outcome) (c : ListCall)
    : list cells.ICellModel * widget.Outcome :=
  match list_call (fst st) c with
  | Some (l, change) =>
      (l, widget.onCellsChanged change (widget.layout_of (snd st)))
  | None => st
  end.

(* ===================================================================== *)
(** ** NotebookToolbar (notebook/widget.ts)                               *)
(* ===================================================================== *)

Module toolbar.
Import cells Notebook.

(** The toolbar holds the model and the clipboard: the indices of the
    copied cells and the cells that were cut. *)
Record NotebookToolbar : Type := mkToolbar {
  model : NotebookModel;
  _copied : list Z;
  _cut : list ICellModel
}.

(** [cell.selected || cell.active] *)
Definition marked (c : ICellModel) : bool := selected c || active c.

(** [model.cells.insert(index, cell)] for an index computed from
    [activeCellIndex]: an index that was never set is NaN, which is no
    index of the list. *)
Definition insert_at (index : option Z) (cell : ICellModel) (nb : NotebookModel)
    : NotebookModel :=
  match index with
  | Some i => cells_insert i cell nb
  | None => nb
  end.

(** [insertAbove()] *)
Definition insertAbove (nb : NotebookModel) : NotebookModel :=
  let cell := createCodeCell None nb in
  insert_at (activeCellIndex nb) cell nb.

(** [insertBelow()] *)
Definition insertBelow (nb : NotebookModel) : NotebookModel :=
  let cell := createCodeCell None nb in
  insert_at ((fun i => i + 1) <$> activeCellIndex nb) cell nb.

(** The loop of [copy()], from index [i] on. *)
Fixpoint copy_loop (i : nat) (l : list ICellModel) : list Z :=
  match l with
  | [] => []
  | cell :: rest =>
      if marked cell then Z.of_nat i :: copy_loop (S i) rest
      else copy_loop (S i) rest
  end.

(** [copy()] *)
Definition copy (t : NotebookToolbar) : NotebookToolbar :=
  mkToolbar (model t) (copy_loop O (cells (model t))) [].

(** The loop of [cut()]: [for (let i = 0; i < model.cells.length; i++)],
    the length being read anew in every round.  [cells.remove(cell)]
    takes the cell out of the slot it was read from, and the handler of
    the model disposes of it before it is pushed to [_cut].  The list
    never grows, so the loop is over after as many rounds as the list
    had cells at the start: that is the fuel. *)
Fixpoint cut_loop (fuel i : nat) (nb : NotebookModel) (cut : list ICellModel)
    : NotebookModel * list ICellModel :=
  match fuel with
  | O => (nb, cut)
  | S fuel' =>
      match cells nb !! i with
      | None => (nb, cut)
      | Some cell =>
          if marked cell then
            let nb := cells_removeAt (Z.of_nat i) nb in
            cut_loop fuel' (S i) nb (cut ++ [dispose cell])
          else cut_loop fuel' (S i) nb cut
      end
  end.

(** [cut()] *)
Definition cut (t : NotebookToolbar) : NotebookToolbar :=
  let '(nb, cut) := cut_loop (length (cells (model t))) O (model t) [] in
  mkToolbar nb [] cut.

(** How [paste()] ends: it returns, or reading the type of a copied cell
    that is no longer in the list throws. *)
Inductive Outcome : Type :=
| Returned (t : NotebookToolbar)
| TypeError (t : NotebookToolbar).

(** The cell [paste()] makes from a copied cell: [switch(cell.type)]. *)
Definition pasted (cell : ICellModel) (nb : NotebookModel) : ICellModel :=
  if String.eqb (type cell) "code" then createCodeCell (Some cell) nb
  else if String.eqb (type cell) "markdown" then createMarkdownCell (Some cell) nb
  else createRawCell (Some cell) nb.

(** The loop of [paste()] over the copied cells, read from the list
    before the first of them is inserted. *)
Fixpoint paste_copied (existing : list (option ICellModel)) (index : option Z)
    (nb : NotebookModel) : NotebookModel * bool :=
  match existing with
  | [] => (nb, true)
  | None :: _ => (nb, false)
  | Some cell :: rest =>
      paste_copied rest index (insert_at index (pasted cell nb) nb)
  end.

(** [paste()] *)
Definition paste (t : NotebookToolbar) : Outcome :=
  let nb := model t in
  let index := (fun i => i + 1) <$> activeCellIndex nb in
  match _copied t with
  | _ :: _ =>
      let existing := (fun i => ObservableList.get (cells nb) i) <$> _copied t in
      let '(nb, ok) := paste_copied existing index nb in
      if ok then Returned (mkToolbar nb [] [])
      else TypeError (mkToolbar nb (_copied t) (_cut t))
  | [] =>
      Returned
        (mkToolbar (foldl (fun nb cell => insert_at index cell nb)
                          nb (_cut t)) [] [])
  end.

(** The cell [changeCellType(value)] makes from a cell. *)
Definition retyped (value : string) (cell : ICellModel) (nb : NotebookModel)
    : ICellModel :=
  if String.eqb value "code" then createCodeCell (Some cell) nb
  else if String.eqb value "markdown" then
    with_rendered (Some false) (createMarkdownCell (Some cell) nb)
  else createRawCell (Some cell) nb.

(** The loop of [changeCellType(value)].  Every round that changes a
    cell removes it and inserts the new cell in its slot, so the length
    of the list is the same in every round: that is the fuel. *)
Fixpoint changeCellType_loop (value : string) (fuel i : nat) (nb : NotebookModel)
    : NotebookModel :=
  match fuel with
  | O => nb
  | S fuel' =>
      match cells nb !! i with
      | None => nb
      | Some cell =>
          if negb (selected cell) && negb (active cell) then
            changeCellType_loop value fuel' (S i) nb
          else
            let newCell := retyped value cell nb in
            let nb := cells_removeAt (Z.of_nat i) nb in
            let nb := cells_insert (Z.of_nat i) newCell nb in
            changeCellType_loop value fuel' (S i) nb
      end
  end.


(** [run()].  The cells to run are collected first; [runActiveCell]
    keeps every cell in its slot, so [cells.indexOf(cell)] is the index
    the cell was collected at. *)
Definition run (nb : NotebookModel) : NotebookModel :=
  foldl (fun nb i => runActiveCell (set_activeCellIndex i nb)) nb
        (copy_loop O (cells nb)).

End toolbar.

(** The cell in slot [a] is the active cell, and it is the one cell of
    the list that is active or selected. *)
Definition only_active_marked (nb : Notebook.NotebookModel) (a : nat) : Prop :=
  Notebook.activeCellIndex nb = Some (Z.of_nat a)
  /\ (a < length (Notebook.cells nb))%nat
  /\ forall (j : nat) (c : cells.ICellModel),
       Notebook.cells nb !! j = Some c ->
       cells.selected c = false /\ cells.active c = Nat.eqb j a.


(** The items of a list in the even slots (0, 2, ...) and in the odd
    slots (1, 3, ...). *)
Fixpoint even_slots {A} (l : list A) : list A :=
  match l with
  | [] => []
  | [x] => [x]
  | x :: _ :: rest => x :: even_slots rest
  end.

Fixpoint odd_slots {A} (l : list A) : list A :=
  match l with
  | [] => []
  | [_] => []
  | _ :: y :: rest => y :: odd_slots rest
  end.

(** A toolbar on the sample notebook with the first cell active and
    nothing in the clipboard. *)
Definition sample_toolbar : toolbar.NotebookToolbar :=
  toolbar.mkToolbar (Notebook.set_activeCellIndex 0 sample_notebook) [] [].

(** The sample notebook with every cell selected. *)
Definition selected_notebook : Notebook.NotebookModel :=
  Notebook.with_cells
    ((fun c => cells.mkCell (cells.input c) (cells.tags c) (cells.name c)
                 (cells.trusted c) (cells.active c) true (cells.variant c))
       <$> Notebook.cells sample_notebook)
    sample_notebook.

(* ===================================================================== *)
(** * Properties                                                          *)
(* ===================================================================== *)

(** ** ObservableList *)

(** Turns the boolean index checks among the hypotheses into
    inequalities. *)
Ltac index_bounds :=
  unfold ObservableList._check, ObservableList.length in *;
  repeat match goal with
  | H : _ && _ = true |- _ => apply andb_prop in H as [? ?]
  | H : (_ <=? _) = true |- _ => apply Z.leb_le in H
  | H : (_ <? _) = true |- _ => apply Z.ltb_lt in H
  end.

Section ObservableListFacts.
Context {T : Type}.
Implicit Types (l : list T) (x : T).

Lemma get_last l : ObservableList.get l (-1) = last l.
Proof.
  unfold ObservableList.get, ObservableList._norm, ObservableList._check,
    ObservableList.length.
  destruct l as [|x l] using rev_ind; [reflexivity|].
  rewrite last_snoc, length_app. simpl.
  replace (-1 <? 0) with true by reflexivity.
  destruct (Z.leb_spec 0 (-1 + Z.of_nat (length l + 1))); [|lia].
  destruct (Z.ltb_spec (-1 + Z.of_nat (length l + 1))
                       (Z.of_nat (length l + 1))); [|lia].
  simpl. replace (Z.to_nat (-1 + Z.of_nat (length l + 1))) with (length l) by lia.
  apply list_lookup_middle. reflexivity.
Qed.

Lemma set_last l x y :
  fst <$> ObservableList.set (l ++ [x]) (-1) y = Some (l ++ [y]).
Proof.
  unfold ObservableList.set, ObservableList._norm, ObservableList._check,
    ObservableList.length.
  rewrite length_app. simpl.
  replace (-1 <? 0) with true by reflexivity.
  destruct (Z.leb_spec 0 (-1 + Z.of_nat (length l + 1))); [|lia].
  destruct (Z.ltb_spec (-1 + Z.of_nat (length l + 1))
                       (Z.of_nat (length l + 1))); [|lia].
  simpl. replace (Z.to_nat (-1 + Z.of_nat (length l + 1))) with (length l) by lia.
  rewrite list_lookup_middle by reflexivity. simpl.
  f_equal. rewrite insert_app_r_alt by lia.
  replace (length l - length l)%nat with O by lia. reflexivity.
Qed.
End ObservableListFacts.

(** ** OutputAreaModel: consolidation and deferred clear *)

Section OutputAreaFacts.
Import nbformat OutputArea.

(** With no clear pending, [add] on an area whose last entry
    consolidates with the output rewrites the last slot. *)
Lemma add_consolidate m l last o :
  _clearNext m = false ->
  outputs m = l ++ [last] ->
  consolidates o (Some last) = true ->
  outputs (add o m) = l ++ [with_text (String.append (text last) (text o)) o].
Proof.
  intros Hc Hl Hk. unfold add. rewrite Hc, get_last, Hl, last_snoc, Hk.
  simpl from_option.
  pose proof (set_last l last (with_text (String.append (text last) (text o)) o)) as Hs.
  destruct (ObservableList.set _ _ _) as [[l1 ev]|]; simpl in Hs; [|discriminate].
  injection Hs as ->. reflexivity.
Qed.

(** With no clear pending, an output that does not consolidate is
    appended when its kind is known and dropped otherwise. *)
Lemma add_append m o :
  _clearNext m = false ->
  consolidates o (last (outputs m)) = false ->
  outputs (add o m) = if known_kind o then outputs m ++ [o] else outputs m.
Proof.
  intros Hc Hk. unfold add. rewrite Hc, get_last, Hk.
  destruct (known_kind o); reflexivity.
Qed.

(** A pending clear empties the list before the output is looked at. *)
Lemma add_after_clear m o :
  _clearNext m = true ->
  outputs (add o m) = if known_kind o then [o] else [].
Proof.
  intros Hc. unfold add. rewrite Hc. simpl.
  destruct (known_kind o); reflexivity.
Qed.

Lemma add_clearNext m o : _clearNext (add o m) = false.
Proof.
  unfold add. destruct (_clearNext m) eqn:Hc; simpl.
  - destruct (known_kind o); reflexivity.
  - destruct (consolidates _ _).
    + destruct (ObservableList.set _ _ _) as [[? ?]|]; simpl; assumption.
    + destruct (known_kind o); simpl; assumption.
Qed.
End OutputAreaFacts.

(** C1, counterexample: an area that holds Stream("stdout","a") and has a
    deferred clear pending (add, then clear(true)) ends with the single
    entry Stream("stdout","b") after add(Stream("stdout","b")): the old
    text is gone, not prepended. *)
Lemma consolidation_fails_with_pending_clear :
  let m := OutputArea.clear true
             (OutputArea.add (nbformat.Stream "stdout" "a") OutputArea.new) in
  OutputArea.outputs m = [nbformat.Stream "stdout" "a"]
  /\ OutputArea.outputs (OutputArea.add (nbformat.Stream "stdout" "b") m)
     = [nbformat.Stream "stdout" "b"]
  /\ ~ consolidation_in_every_state.
Proof.
  split; [reflexivity|]. split; [reflexivity|].
  intros H.
  specialize (H (OutputArea.clear true
                   (OutputArea.add (nbformat.Stream "stdout" "a") OutputArea.new))
                [] (nbformat.Stream "stdout" "a") (nbformat.Stream "stdout" "b")
                eq_refl eq_refl eq_refl eq_refl).
  vm_compute in H. discriminate H.
Qed.

(** C1 (amended): in an output area with no deferred clear pending whose
    last entry is a stream of channel n, adding a stream output of
    channel n keeps the length of the list and replaces the last entry by
    the new output with the old text put in front of its text.  From a
    new area, Stream("stdout","a") then Stream("stdout","b") gives the one
    entry Stream("stdout","ab"), and Stream("stdout","a") then
    Stream("stderr","b") gives two entries. *)
Theorem add_stream_consolidates
    (m : OutputArea.OutputAreaModel) (l : list nbformat.IOutput)
    (last o : nbformat.IOutput) :
  OutputArea._clearNext m = false ->
  OutputArea.outputs m = l ++ [last] ->
  nbformat.isStream last = true ->
  nbformat.isStream o = true ->
  nbformat.name o = nbformat.name last ->
  OutputArea.outputs (OutputArea.add o m)
  = l ++ [nbformat.with_text
            (String.append (nbformat.text last) (nbformat.text o)) o]
  /\ length (OutputArea.outputs (OutputArea.add o m))
     = length (OutputArea.outputs m)
  /\ OutputArea.outputs
       (OutputArea.add (nbformat.Stream "stdout" "b")
          (OutputArea.add (nbformat.Stream "stdout" "a") OutputArea.new))
     = [nbformat.Stream "stdout" "ab"]
  /\ OutputArea.outputs
       (OutputArea.add (nbformat.Stream "stderr" "b")
          (OutputArea.add (nbformat.Stream "stdout" "a") OutputArea.new))
     = [nbformat.Stream "stdout" "a"; nbformat.Stream "stderr" "b"].
Proof.
  intros Hc Hl Hlast Ho Hn.
  assert (Hk : OutputArea.consolidates o (Some last) = true).
  { unfold OutputArea.consolidates. rewrite Ho, Hlast, Hn, String.eqb_refl.
    reflexivity. }
  pose proof (add_consolidate m l last o Hc Hl Hk) as Hadd.
  split; [exact Hadd|]. split; [|split; reflexivity].
  rewrite Hadd, Hl, !length_app. reflexivity.
Qed.

Lemma add_stream_consolidates_witness :
  OutputArea.outputs
    (OutputArea.add (nbformat.Stream "stdout" "lo")
       (OutputArea.mkOutputArea
          [nbformat.DisplayData []; nbformat.Stream "stdout" "hel"]
          false true false false))
  = [nbformat.DisplayData []; nbformat.Stream "stdout" "hello"].
Proof.
  exact (proj1 (add_stream_consolidates
                  (OutputArea.mkOutputArea
                     [nbformat.DisplayData []; nbformat.Stream "stdout" "hel"]
                     false true false false)
                  [nbformat.DisplayData []]
                  (nbformat.Stream "stdout" "hel")
                  (nbformat.Stream "stdout" "lo")
                  eq_refl eq_refl eq_refl eq_refl eq_refl)).
Defined.

(** C2, counterexample: a kernel message of type 'status', which the
    I/O handler hands to [add] like any other, is dropped by the switch:
    after clear(true) the list is empty, it does not hold the output. *)
Lemma deferred_clear_drops_unknown_kind :
  let X := nbformat.mkOutput "status" "" "" [] [] None "" "" [] in
  OutputArea.outputs
    (OutputArea.add X
       (OutputArea.clear true
          (OutputArea.add (nbformat.Stream "stdout" "a") OutputArea.new)))
  = []
  /\ ~ deferred_clear_keeps_every_output.
Proof.
  split; [reflexivity|].
  intros H.
  specialize (H OutputArea.new (nbformat.mkOutput "status" "" "" [] [] None "" "" [])).
  vm_compute in H. discriminate H.
Qed.

(** C2 (amended): clear(true) leaves the outputs as they are, and the
    next add(X) removes them all before it looks at X: the list is then
    [X] when the kind of X is one of stream, execute_result, display_data
    and error, and empty when it is any other kind.  clear(false) empties
    the list at once. *)
Theorem clear_wait_then_add
    (m : OutputArea.OutputAreaModel) (X : nbformat.IOutput) :
  OutputArea.outputs (OutputArea.clear true m) = OutputArea.outputs m
  /\ (OutputArea.known_kind X = true ->
      OutputArea.outputs (OutputArea.add X (OutputArea.clear true m)) = [X])
  /\ (OutputArea.known_kind X = false ->
      OutputArea.outputs (OutputArea.add X (OutputArea.clear true m)) = [])
  /\ OutputArea.outputs (OutputArea.clear false m) = [].
Proof.
  split; [reflexivity|].
  pose proof (add_after_clear (OutputArea.clear true m) X eq_refl) as H.
  repeat split.
  - intros Hk. rewrite H, Hk. reflexivity.
  - intros Hk. rewrite H, Hk. reflexivity.
Qed.

Lemma clear_wait_then_add_witness :
  OutputArea.outputs
    (OutputArea.add (nbformat.Error "NameError" "x" [])
       (OutputArea.clear true
          (OutputArea.mkOutputArea [nbformat.Stream "stdout" "old"]
                                   false false false false)))
  = [nbformat.Error "NameError" "x" []].
Proof.
  exact (proj1 (proj2 (clear_wait_then_add
                  (OutputArea.mkOutputArea [nbformat.Stream "stdout" "old"]
                                           false false false false)
                  (nbformat.Error "NameError" "x" []))) eq_refl).
Defined.

(** ** NotebookModel: the active cell *)

Section ActiveCellFacts.
Import cells Notebook.

Lemma set_activeCellIndex_cells value nb :
  Notebook.cells (set_activeCellIndex value nb)
  = imap (fun i cell =>
            with_active
              (Z.eqb (Z.min (Z.max value 0)
                            (ObservableList.length (Notebook.cells nb) - 1))
                     (Z.of_nat i)) cell)
         (Notebook.cells nb).
Proof. reflexivity. Qed.

Lemma set_activeCellIndex_index value nb :
  activeCellIndex (set_activeCellIndex value nb)
  = Some (Z.min (Z.max value 0)
                (ObservableList.length (Notebook.cells nb) - 1)).
Proof. reflexivity. Qed.

Lemma set_activeCellIndex_length value nb :
  length (Notebook.cells (set_activeCellIndex value nb))
  = length (Notebook.cells nb).
Proof. rewrite set_activeCellIndex_cells. apply length_imap. Qed.

Lemma set_activeCellIndex_one_active value nb :
  Notebook.cells nb <> [] -> one_active (set_activeCellIndex value nb).
Proof.
  intros Hne.
  assert (Hlen : (0 < length (Notebook.cells nb))%nat).
  { destruct (Notebook.cells nb); [congruence | simpl; lia]. }
  set (v := Z.min (Z.max value 0)
                  (ObservableList.length (Notebook.cells nb) - 1)).
  assert (Hv : 0 <= v <= Z.of_nat (length (Notebook.cells nb)) - 1).
  { unfold v, ObservableList.length. lia. }
  exists (Z.to_nat v). split; [|split].
  - rewrite set_activeCellIndex_index. fold v. f_equal. lia.
  - rewrite set_activeCellIndex_length. lia.
  - intros j c. rewrite set_activeCellIndex_cells, list_lookup_imap. fold v.
    destruct (Notebook.cells nb !! j) as [c0|] eqn:Hj; simpl; [|discriminate].
    intros [= <-]. simpl.
    destruct (Z.eqb_spec v (Z.of_nat j)); split; intros; try lia; try discriminate.
Qed.

Lemma cells_add_one_active cell nb : one_active (cells_add cell nb).
Proof.
  unfold cells_add, emit, ObservableList.add. simpl.
  apply set_activeCellIndex_one_active. simpl.
  destruct (Notebook.cells nb); discriminate.
Qed.

Lemma cells_insert_one_active i cell r nb :
  ObservableList.insert (Notebook.cells nb) i cell = Some r ->
  one_active (cells_insert i cell nb).
Proof.
  intros Hr. unfold cells_insert. rewrite Hr.
  unfold ObservableList.insert in Hr.
  destruct (_ && _); [|discriminate].
  injection Hr as <-. unfold emit. simpl.
  apply set_activeCellIndex_one_active. simpl.
  destruct (take _ _); discriminate.
Qed.

Lemma cells_removeAt_one_active i r nb :
  ObservableList.removeAt (Notebook.cells nb) i = Some r ->
  fst r <> [] ->
  one_active (cells_removeAt i nb).
Proof.
  intros Hr Hne. unfold cells_removeAt. rewrite Hr.
  unfold ObservableList.removeAt in Hr.
  destruct (ObservableList._check _ _); [|discriminate].
  destruct (_ !! _); [|discriminate].
  injection Hr as <-. unfold emit. simpl in *.
  apply set_activeCellIndex_one_active. exact Hne.
Qed.
End ActiveCellFacts.

(** C4: in a notebook that has a cell after the mutation, exactly one cell
    is active and it is the cell at activeCellIndex, after activeCellIndex
    is set to any value, after a cell is added (appended, or inserted at
    an index of the list) and after a cell is removed.  The setter stores
    the value clamped into [0, length-1] and gives the cell in slot i the
    flag (index == i). *)
Theorem active_cell_invariant (nb : Notebook.NotebookModel) :
  (forall value : Z,
      Notebook.cells nb <> [] ->
      let index := Z.min (Z.max value 0)
                         (ObservableList.length (Notebook.cells nb) - 1) in
      one_active (Notebook.set_activeCellIndex value nb)
      /\ Notebook.activeCellIndex (Notebook.set_activeCellIndex value nb)
         = Some index
      /\ 0 <= index <= ObservableList.length (Notebook.cells nb) - 1
      /\ Notebook.cells (Notebook.set_activeCellIndex value nb)
         = imap (fun i cell => cells.with_active (Z.eqb index (Z.of_nat i)) cell)
                (Notebook.cells nb))
  /\ (forall cell, one_active (Notebook.cells_add cell nb))
  /\ (forall i cell r,
        ObservableList.insert (Notebook.cells nb) i cell = Some r ->
        one_active (Notebook.cells_insert i cell nb))
  /\ (forall i r,
        ObservableList.removeAt (Notebook.cells nb) i = Some r ->
        fst r <> [] ->
        one_active (Notebook.cells_removeAt i nb)).
Proof.
  split; [|split; [|split]].
  - intros value Hne index. split; [|split; [|split]].
    + apply set_activeCellIndex_one_active, Hne.
    + reflexivity.
    + unfold index, ObservableList.length.
      destruct (Notebook.cells nb); [congruence|]. simpl length. lia.
    + reflexivity.
  - intros cell. apply cells_add_one_active.
  - intros i cell r. apply cells_insert_one_active.
  - intros i r. apply cells_removeAt_one_active.
Qed.

Lemma active_cell_invariant_witness :
  one_active (Notebook.set_activeCellIndex 7 sample_notebook)
  /\ one_active (Notebook.cells_insert 1 blank_code_cell sample_notebook)
  /\ one_active (Notebook.cells_removeAt 0 sample_notebook).
Proof.
  split; [|split].
  - apply (proj1 (active_cell_invariant sample_notebook) 7). discriminate.
  - eapply (proj1 (proj2 (proj2 (active_cell_invariant sample_notebook))) 1).
    vm_compute. reflexivity.
  - eapply (proj2 (proj2 (proj2 (active_cell_invariant sample_notebook))) 0).
    + vm_compute. reflexivity.
    + discriminate.
Defined.

(** ** NotebookModel: running the active cell *)

Section RunFacts.
Import cells Notebook.

Lemma get_in_range {T} (l : list T) (i : Z) :
  0 <= i < Z.of_nat (length l) ->
  ObservableList.get l i = l !! Z.to_nat i
  /\ ObservableList._norm l i = i.
Proof.
  intros Hi. unfold ObservableList.get, ObservableList._norm,
    ObservableList._check, ObservableList.length.
  destruct (Z.ltb_spec i 0); [lia|].
  destruct (Z.leb_spec 0 i); [|lia].
  destruct (Z.ltb_spec i (Z.of_nat (length l))); [|lia].
  split; reflexivity.
Qed.

Lemma executeCell_type cell nb : type (fst (executeCell cell nb)) = type cell.
Proof.
  unfold executeCell.
  destruct (readOnly nb); [reflexivity|].
  destruct (String.eqb _ _); [reflexivity|].
  destruct (session nb); [|reflexivity].
  destruct cell as [inp tg nm tr ac se []]; reflexivity.
Qed.

(** What [executeCell] leaves untouched in the notebook. *)
Lemma executeCell_frame cell nb :
  let nb' := snd (executeCell cell nb) in
  Notebook.cells nb' = Notebook.cells nb
  /\ readOnly nb' = readOnly nb
  /\ defaultMimetype nb' = defaultMimetype nb
  /\ mode nb' = mode nb
  /\ activeCellIndex nb' = activeCellIndex nb.
Proof.
  unfold executeCell.
  destruct (readOnly nb) eqn:Hro; [simpl; rewrite Hro; tauto|].
  destruct (String.eqb _ _); [simpl; rewrite Hro; tauto|].
  destruct (session nb); simpl; rewrite ?Hro; tauto.
Qed.

(** What the dispatch of [runActiveCell] leaves untouched. *)
Lemma run_dispatch_frame cell slot nb :
  let nb' := run_dispatch cell slot nb in
  length (Notebook.cells nb') = length (Notebook.cells nb)
  /\ readOnly nb' = readOnly nb
  /\ defaultMimetype nb' = defaultMimetype nb
  /\ mode nb' = mode nb
  /\ activeCellIndex nb' = activeCellIndex nb.
Proof.
  unfold run_dispatch.
  destruct (variant cell); simpl; rewrite ?length_insert; try tauto.
  pose proof (executeCell_frame cell nb) as H.
  destruct (executeCell cell nb) as [c' nb']. simpl in *.
  rewrite length_insert. destruct H as (-> & ? & ? & ? & ?). tauto.
Qed.

Lemma run_dispatch_types cell slot nb :
  Notebook.cells nb !! slot = Some cell ->
  type <$> Notebook.cells (run_dispatch cell slot nb)
  = type <$> Notebook.cells nb.
Proof.
  intros Hs.
  assert (Hins : forall c', type c' = type cell ->
            type <$> <[slot := c']> (Notebook.cells nb)
            = type <$> Notebook.cells nb).
  { intros c' Hc'. rewrite list_fmap_insert, Hc'.
    apply list_insert_id. rewrite list_lookup_fmap, Hs. reflexivity. }
  unfold run_dispatch.
  destruct (variant cell) eqn:Hv; simpl.
  - pose proof (executeCell_type cell nb) as Ht.
    pose proof (executeCell_frame cell nb) as Hf.
    destruct (executeCell cell nb) as [c' nb']. simpl in *.
    destruct Hf as (-> & _). apply Hins, Ht.
  - apply Hins. destruct cell; simpl in Hv; subst; reflexivity.
  - apply Hins. destruct cell; simpl in Hv; subst; reflexivity.
Qed.

(** A code cell made without a source depends on the default mimetype
    and the read-only flag of the notebook only. *)
Lemma createCodeCell_fresh nb :
  createCodeCell None nb
  = mkCell (mkInput (mkEditor "" (Some (defaultMimetype nb)) (readOnly nb)) "")
           None None true false false
           (Code OutputArea.new None None None).
Proof. reflexivity. Qed.

(** Appending a cell makes it the active cell and every other cell
    inactive. *)
Lemma cells_add_cells cell nb :
  Notebook.cells (cells_add cell nb)
  = (with_active false <$> Notebook.cells nb) ++ [with_active true cell]
  /\ activeCellIndex (cells_add cell nb)
     = Some (Z.of_nat (length (Notebook.cells nb)))
  /\ mode (cells_add cell nb) = mode nb.
Proof.
  unfold cells_add, emit, ObservableList.add, _onCellsChanged. cbn [fst snd].
  rewrite set_activeCellIndex_cells, set_activeCellIndex_index.
  change (mode (set_activeCellIndex _ _)) with (mode nb).
  change (Notebook.cells (with_cells ?l _)) with l.
  unfold ObservableList.length. rewrite length_app. simpl length.
  set (n := length (Notebook.cells nb)).
  replace (Z.min (Z.max (Z.of_nat n) 0) (Z.of_nat (n + 1) - 1))
    with (Z.of_nat n) by lia.
  split; [|split; reflexivity].
  rewrite imap_app. simpl. fold n.
  replace (n + 0)%nat with n by lia. rewrite Z.eqb_refl. f_equal.
  rewrite <- imap_const. apply imap_ext. intros i x Hx. simpl.
  apply lookup_lt_Some in Hx. fold n in Hx.
  destruct (Z.eqb_spec (Z.of_nat n) (Z.of_nat i)); [lia|reflexivity].
Qed.

Lemma runActiveCell_last nb :
  readOnly nb = false ->
  Notebook.cells nb <> [] ->
  activeCellIndex nb = Some (ObservableList.length (Notebook.cells nb) - 1) ->
  exists nb1,
    runActiveCell nb
    = with_mode (Some edit) (cells_add (createCodeCell None nb) nb1)
    /\ length (Notebook.cells nb1) = length (Notebook.cells nb)
    /\ type <$> Notebook.cells nb1 = type <$> Notebook.cells nb
    /\ (forall cell,
          Notebook.cells nb = [cell] -> isRawCellModel cell = true ->
          Notebook.cells nb1 = [with_trusted true cell]).
Proof.
  intros Hro Hne Hidx.
  assert (Hlen : (0 < length (Notebook.cells nb))%nat).
  { destruct (Notebook.cells nb); [congruence | simpl; lia]. }
  set (index := ObservableList.length (Notebook.cells nb) - 1) in *.
  assert (Hrange : 0 <= index < Z.of_nat (length (Notebook.cells nb))).
  { unfold index, ObservableList.length. lia. }
  destruct (get_in_range (Notebook.cells nb) index Hrange) as [Hget Hnorm].
  destruct (lookup_lt_is_Some_2 (Notebook.cells nb) (Z.to_nat index)) as [cell Hcell];
    [lia|].
  pose proof (run_dispatch_frame cell (Z.to_nat index) nb) as Hframe.
  pose proof (run_dispatch_types cell (Z.to_nat index) nb Hcell) as Htypes.
  exists (run_dispatch cell (Z.to_nat index) nb).
  simpl in Hframe. destruct Hframe as (Hl & Hr & Hd & _ & _).
  split; [|split; [exact Hl|split; [exact Htypes|]]].
  - unfold runActiveCell. rewrite Hro, Hidx. fold index.
    rewrite Hget, Hcell, Hnorm.
    replace (index =? ObservableList.length
               (Notebook.cells (run_dispatch cell (Z.to_nat index) nb)) - 1)
      with true.
    + rewrite !createCodeCell_fresh, Hr, Hd. reflexivity.
    + symmetry. apply Z.eqb_eq. unfold ObservableList.length.
      rewrite Hl. reflexivity.
  - intros c Hc Hv. rewrite Hc in Hcell, Hrange. simpl in Hrange.
    assert (Z.to_nat index = O) as Hz by lia. rewrite Hz in *.
    simpl in Hcell. injection Hcell as Heq. subst cell.
    unfold run_dispatch. unfold isRawCellModel in Hv.
    destruct (variant c); try discriminate. simpl. rewrite Hc. reflexivity.
Qed.

Lemma runActiveCell_inner index nb :
  readOnly nb = false ->
  activeCellIndex nb = Some index ->
  0 <= index < ObservableList.length (Notebook.cells nb) - 1 ->
  exists nb1,
    runActiveCell nb = set_activeCellIndex (index + 1) nb1
    /\ length (Notebook.cells nb1) = length (Notebook.cells nb)
    /\ mode nb1 = mode nb.
Proof.
  intros Hro Hidx Hrange. unfold ObservableList.length in Hrange.
  destruct (get_in_range (Notebook.cells nb) index) as [Hget Hnorm]; [lia|].
  destruct (lookup_lt_is_Some_2 (Notebook.cells nb) (Z.to_nat index)) as [cell Hcell];
    [lia|].
  pose proof (run_dispatch_frame cell (Z.to_nat index) nb) as Hframe.
  simpl in Hframe. destruct Hframe as (Hl & _ & _ & Hm & _).
  exists (run_dispatch cell (Z.to_nat index) nb).
  split; [|split; assumption].
  unfold runActiveCell. rewrite Hro, Hidx, Hget, Hcell, Hnorm.
  replace (index =? ObservableList.length
             (Notebook.cells (run_dispatch cell (Z.to_nat index) nb)) - 1)
    with false; [reflexivity|].
  symmetry. apply Z.eqb_neq. unfold ObservableList.length. rewrite Hl. lia.
Qed.
End RunFacts.

(** C5: in a notebook that is not read-only and whose active cell is the
    last cell, runActiveCell appends one new code cell (empty text, no
    outputs) behind the cells that were there, makes it the active cell
    and sets the mode to Edit; a notebook of one raw cell becomes a
    notebook of two cells, the second a code cell, with mode Edit and
    activeCellIndex 1.  When the active cell is not the last cell,
    activeCellIndex goes up by one and no cell is added. *)
Theorem runActiveCell_appends_or_advances (nb : Notebook.NotebookModel) :
  Notebook.readOnly nb = false ->
  (Notebook.cells nb <> [] ->
   Notebook.activeCellIndex nb
   = Some (ObservableList.length (Notebook.cells nb) - 1) ->
   exists old : list cells.ICellModel,
     Notebook.cells (Notebook.runActiveCell nb)
     = old ++ [cells.with_active true (Notebook.createCodeCell None nb)]
     /\ length old = length (Notebook.cells nb)
     /\ cells.type <$> old = cells.type <$> Notebook.cells nb
     /\ Forall (fun c => cells.active c = false) old
     /\ cells.type (Notebook.createCodeCell None nb) = "code"
     /\ cells.cell_text (Notebook.createCodeCell None nb) = ""
     /\ cells.cell_outputs (Notebook.createCodeCell None nb) = []
     /\ Notebook.mode (Notebook.runActiveCell nb) = Some Notebook.edit
     /\ Notebook.activeCellIndex (Notebook.runActiveCell nb)
        = Some (ObservableList.length (Notebook.cells nb)))
  /\ (forall cell : cells.ICellModel,
        Notebook.cells nb = [cell] ->
        cells.isRawCellModel cell = true ->
        Notebook.activeCellIndex nb = Some 0 ->
        Notebook.cells (Notebook.runActiveCell nb)
        = [cells.with_active false (cells.with_trusted true cell);
           cells.with_active true (Notebook.createCodeCell None nb)]
        /\ Notebook.mode (Notebook.runActiveCell nb) = Some Notebook.edit
        /\ Notebook.activeCellIndex (Notebook.runActiveCell nb) = Some 1)
  /\ (forall index : Z,
        Notebook.activeCellIndex nb = Some index ->
        0 <= index < ObservableList.length (Notebook.cells nb) - 1 ->
        Notebook.activeCellIndex (Notebook.runActiveCell nb) = Some (index + 1)
        /\ length (Notebook.cells (Notebook.runActiveCell nb))
           = length (Notebook.cells nb)
        /\ Notebook.mode (Notebook.runActiveCell nb) = Notebook.mode nb).
Proof.
  intros Hro. split; [|split].
  - intros Hne Hidx.
    destruct (runActiveCell_last nb Hro Hne Hidx) as (nb1 & -> & Hl & Ht & _).
    destruct (cells_add_cells (Notebook.createCodeCell None nb) nb1)
      as (Hc & Hi & _).
    exists (cells.with_active false <$> Notebook.cells nb1).
    split; [exact Hc|]. split; [rewrite length_fmap; exact Hl|].
    split; [rewrite <- list_fmap_compose; exact Ht|].
    split; [apply Forall_fmap, Forall_true; reflexivity|].
    do 4 (split; [reflexivity|]).
    cbn [Notebook.with_mode Notebook.activeCellIndex]. rewrite Hi.
    unfold ObservableList.length. rewrite Hl. reflexivity.
  - intros cell Hc Hraw Hidx.
    assert (Hne : Notebook.cells nb <> []) by (rewrite Hc; discriminate).
    assert (Hidx' : Notebook.activeCellIndex nb
                    = Some (ObservableList.length (Notebook.cells nb) - 1)).
    { rewrite Hidx, Hc. reflexivity. }
    destruct (runActiveCell_last nb Hro Hne Hidx') as (nb1 & -> & Hl & _ & H1).
    specialize (H1 cell Hc Hraw).
    destruct (cells_add_cells (Notebook.createCodeCell None nb) nb1)
      as (Hcs & Hi & _).
    cbn [Notebook.with_mode Notebook.activeCellIndex Notebook.cells Notebook.mode].
    rewrite Hcs, Hi, H1. repeat split; reflexivity.
  - intros index Hidx Hrange.
    destruct (runActiveCell_inner index nb Hro Hidx Hrange) as (nb1 & -> & Hl & Hm).
    rewrite set_activeCellIndex_index, set_activeCellIndex_length.
    unfold ObservableList.length in *. rewrite Hl.
    split; [f_equal; lia|]. split; [reflexivity|exact Hm].
Qed.

Lemma runActiveCell_appends_or_advances_witness :
  length (Notebook.cells (Notebook.runActiveCell raw_notebook)) = 2%nat
  /\ cells.type <$> Notebook.cells (Notebook.runActiveCell raw_notebook)
     = ["raw"; "code"]
  /\ Notebook.mode (Notebook.runActiveCell raw_notebook) = Some Notebook.edit
  /\ Notebook.activeCellIndex (Notebook.runActiveCell raw_notebook) = Some 1.
Proof.
  destruct (proj1 (proj2 (runActiveCell_appends_or_advances raw_notebook eq_refl))
              (cells.with_active true (Notebook.createRawCell None empty_notebook))
              eq_refl eq_refl eq_refl) as (Hc & Hm & Hi).
  rewrite Hc, Hm, Hi. repeat split; reflexivity.
Defined.

(** ** NotebookModel: executing a cell with no source *)

(** The characters of a text, put together again, are the text. *)
Lemma chars_concat s : String.concat "" (Notebook.chars s) = s.
Proof.
  induction s as [|c s IH]; [reflexivity|]. cbn [Notebook.chars].
  destruct (Notebook.chars s) as [|ch rest]; [simpl in *; congruence|].
  destruct (Notebook.continues ch).
  - rewrite <- IH. destruct rest; reflexivity.
  - rewrite <- IH. reflexivity.
Qed.

Lemma dropWhile_all {A} (p : A -> bool) (l : list A) :
  forallb p l = true -> Notebook.dropWhile p l = [].
Proof.
  induction l as [|x l IH]; simpl; [reflexivity|].
  intros [Hx Hl]%andb_prop. rewrite Hx. apply IH, Hl.
Qed.

Lemma trim_whitespace_only s :
  whitespace_only s = true -> Notebook.trim s = "".
Proof.
  unfold whitespace_only, Notebook.trim, Notebook.trimStart, Notebook.trimEnd.
  intros Hws. rewrite (dropWhile_all _ _ Hws). reflexivity.
Qed.

(** C9: in a notebook that is not read-only, executeCell on a code cell
    whose text is empty or white space only sets the prompt of the cell
    to 'In [ ]:' and returns: no request goes to the session and the
    outputs of the cell are the ones it had. *)
Theorem executeCell_blank_source
    (nb : Notebook.NotebookModel) (cell : cells.ICellModel) :
  Notebook.readOnly nb = false ->
  cells.isCodeCellModel cell = true ->
  whitespace_only (cells.cell_text cell) = true ->
  Notebook.executeCell cell nb = (cells.with_prompt "In [ ]:" cell, nb)
  /\ cells.prompt (cells.input (fst (Notebook.executeCell cell nb))) = "In [ ]:"
  /\ Notebook.executed (snd (Notebook.executeCell cell nb)) = Notebook.executed nb
  /\ cells.cell_outputs (fst (Notebook.executeCell cell nb))
     = cells.cell_outputs cell.
Proof.
  intros Hro _ Hws.
  assert (H : Notebook.executeCell cell nb = (cells.with_prompt "In [ ]:" cell, nb)).
  { unfold Notebook.executeCell.
    rewrite Hro, (trim_whitespace_only _ Hws). reflexivity. }
  rewrite H. repeat split; reflexivity.
Qed.

Lemma executeCell_blank_source_witness :
  Notebook.executeCell blank_code_cell empty_notebook
  = (cells.with_prompt "In [ ]:" blank_code_cell, empty_notebook).
Proof.
  exact (proj1 (executeCell_blank_source empty_notebook blank_code_cell
                  eq_refl eq_refl ltac:(vm_compute; reflexivity))).
Defined.

(** ** NotebookModel: the read-only cascade *)

Section ReadOnlyFacts.
Import cells Notebook.

Lemma createCodeCell_readOnly source nb :
  cell_readOnly (createCodeCell source nb) = readOnly nb.
Proof.
  unfold createCodeCell.
  destruct source as [[inp tg nm tr ac se []]|]; reflexivity.
Qed.

Lemma createMarkdownCell_readOnly source nb :
  cell_readOnly (createMarkdownCell source nb) = readOnly nb.
Proof.
  unfold createMarkdownCell.
  destruct source as [[inp tg nm tr ac se []]|]; reflexivity.
Qed.

Lemma createRawCell_readOnly source nb :
  cell_readOnly (createRawCell source nb) = readOnly nb.
Proof.
  unfold createRawCell.
  destruct source as [[inp tg nm tr ac se []]|]; reflexivity.
Qed.

Lemma set_activeCellIndex_readOnly value nb :
  readOnly (set_activeCellIndex value nb) = readOnly nb
  /\ cell_readOnly <$> Notebook.cells (set_activeCellIndex value nb)
     = cell_readOnly <$> Notebook.cells nb.
Proof.
  split; [reflexivity|]. rewrite set_activeCellIndex_cells.
  rewrite fmap_imap. rewrite <- imap_const. apply imap_ext. reflexivity.
Qed.

Lemma cells_add_readOnly cell nb :
  readOnly (cells_add cell nb) = readOnly nb
  /\ cell_readOnly <$> Notebook.cells (cells_add cell nb)
     = (cell_readOnly <$> Notebook.cells nb) ++ [cell_readOnly cell].
Proof.
  unfold cells_add, emit, ObservableList.add, _onCellsChanged. cbn [fst snd].
  destruct (set_activeCellIndex_readOnly
              (ObservableList.length (Notebook.cells nb))
              (with_cells (Notebook.cells nb ++ [cell]) nb)) as [-> ->].
  split; [reflexivity|]. cbn [Notebook.cells with_cells].
  rewrite fmap_app. reflexivity.
Qed.
End ReadOnlyFacts.

(** C10: setting readOnly of a notebook to true makes every cell of the
    cell list read-only, and a cell made by createCodeCell,
    createMarkdownCell or createRawCell (with or without a source cell)
    while the notebook is read-only is read-only as well, also once it is
    added to the list. *)
Theorem readOnly_cascade (nb : Notebook.NotebookModel) :
  let nb' := Notebook.set_readOnly true nb in
  Notebook.readOnly nb' = true
  /\ length (Notebook.cells nb') = length (Notebook.cells nb)
  /\ Forall (fun c => cells.cell_readOnly c = true) (Notebook.cells nb')
  /\ (forall (later : Notebook.NotebookModel) (source : option cells.ICellModel),
        Notebook.readOnly later = true ->
        cells.cell_readOnly (Notebook.createCodeCell source later) = true
        /\ cells.cell_readOnly (Notebook.createMarkdownCell source later) = true
        /\ cells.cell_readOnly (Notebook.createRawCell source later) = true)
  /\ (forall source : option cells.ICellModel,
        let later := Notebook.cells_add (Notebook.createCodeCell source nb') nb' in
        Notebook.readOnly later = true
        /\ Forall (fun c => cells.cell_readOnly c = true) (Notebook.cells later)).
Proof.
  intros nb'.
  assert (Hall : Forall (fun c => cells.cell_readOnly c = true) (Notebook.cells nb')).
  { unfold nb', Notebook.set_readOnly. cbn [Notebook.cells Notebook.with_cells].
    apply Forall_fmap, Forall_true. reflexivity. }
  split; [reflexivity|]. split; [apply length_fmap|]. split; [exact Hall|].
  split.
  - intros later source Hro.
    rewrite createCodeCell_readOnly, createMarkdownCell_readOnly,
      createRawCell_readOnly. auto.
  - intros source later.
    destruct (cells_add_readOnly (Notebook.createCodeCell source nb') nb')
      as [Hr Hc].
    split; [exact Hr|].
    apply (proj1 (Forall_fmap cells.cell_readOnly (fun b => b = true) _)).
    fold later in Hc. rewrite Hc. apply Forall_app. split.
    + apply Forall_fmap. exact Hall.
    + constructor; [apply createCodeCell_readOnly | constructor].
Qed.

Lemma readOnly_cascade_witness :
  cells.cell_readOnly
    (Notebook.createMarkdownCell None
       (Notebook.set_readOnly true sample_notebook)) = true.
Proof.
  exact (proj1 (proj2 (proj1 (proj2 (proj2 (proj2
           (readOnly_cascade sample_notebook))))
           (Notebook.set_readOnly true sample_notebook) None eq_refl))).
Defined.

(** ** NotebookModel: save *)

(** With a session that is disposed, the same branch of save() does
    reach the contents manager: the notebook is serialized and saved
    under the path of the session, dirty is cleared when the manager
    succeeds and the model is left as it is when the manager fails. *)
Lemma save_with_disposed_session
    (MAJOR_VERSION MINOR_VERSION : Z)
    (manager_save : string -> nbformat.INotebookContent -> bool)
    (getKernelSpec kernelInfo : option string)
    (nb : Notebook.NotebookModel) (s : Notebook.INotebookSession) :
  Notebook.session nb = Some s ->
  Notebook.isDisposed s = true ->
  let content := serialize.serialize MAJOR_VERSION MINOR_VERSION nb in
  let call := [(Notebook.notebookPath s, content)] in
  NotebookSave.save MAJOR_VERSION MINOR_VERSION manager_save
                    getKernelSpec kernelInfo nb
  = if manager_save (Notebook.notebookPath s) content
    then NotebookSave.mkOutcome NotebookSave.Resolved
           (Notebook.with_dirty false nb) call
    else NotebookSave.mkOutcome NotebookSave.Rejected nb call.
Proof.
  intros Hs Hd. unfold NotebookSave.save, NotebookSave._save.
  rewrite Hs, Hd. reflexivity.
Qed.

(** C8: with no session attached, save() goes straight to _save(), which
    reads notebookPath of the missing session: the call throws, the
    contents manager is never asked to save, and the dirty flag is the
    one the notebook had. *)
Theorem save_without_session_throws
    (MAJOR_VERSION MINOR_VERSION : Z)
    (manager_save : string -> nbformat.INotebookContent -> bool)
    (getKernelSpec kernelInfo : option string)
    (nb : Notebook.NotebookModel) :
  Notebook.session nb = None ->
  NotebookSave.save MAJOR_VERSION MINOR_VERSION manager_save
                    getKernelSpec kernelInfo nb
  = NotebookSave.mkOutcome NotebookSave.TypeError nb [].
Proof.
  intros Hs. unfold NotebookSave.save, NotebookSave._save. rewrite Hs. reflexivity.
Qed.

Lemma save_without_session_throws_witness :
  NotebookSave.save 4 0 (fun _ _ => true) (Some "Python 3") (Some "python")
                    sample_notebook
  = NotebookSave.mkOutcome NotebookSave.TypeError sample_notebook [].
Proof.
  exact (save_without_session_throws 4 0 (fun _ _ => true)
           (Some "Python 3") (Some "python") sample_notebook eq_refl).
Defined.

(** ** serialize.ts: loading and storing a document *)

Section SerializeFacts.
Import nbformat cells.

Lemma foldl_snoc {A B} (f : A -> B) (l : list A) (acc : list B) :
  foldl (fun out x => out ++ [f x]) acc l = acc ++ (f <$> l).
Proof.
  revert acc. induction l as [|x l IH]; intros acc; simpl.
  - rewrite app_nil_r. reflexivity.
  - rewrite IH, <- app_assoc. reflexivity.
Qed.

Lemma foldl_push {A} (l : list A) (acc : list A) :
  foldl (fun out x => out ++ [x]) acc l = acc ++ l.
Proof.
  revert acc. induction l as [|x l IH]; intros acc; simpl.
  - rewrite app_nil_r. reflexivity.
  - rewrite IH, <- app_assoc. reflexivity.
Qed.

(** Outputs that are kept apart land in the area in order. *)
Lemma add_kept_apart l : forall area,
  OutputArea._clearNext area = false ->
  kept_apart (last (OutputArea.outputs area)) l = true ->
  foldl (fun a o => OutputArea.add o a) area l
  = OutputArea.with_outputs (OutputArea.outputs area ++ l) area.
Proof.
  induction l as [|o l IH]; intros area Hc Hk; simpl.
  - rewrite app_nil_r. destruct area; reflexivity.
  - simpl in Hk. apply andb_prop in Hk as [Hk Hrest].
    apply andb_prop in Hk as [Hkind Hno]. apply negb_true_iff in Hno.
    assert (Hadd : OutputArea.add o area
                   = OutputArea.with_outputs (OutputArea.outputs area ++ [o]) area).
    { unfold OutputArea.add. rewrite Hc, get_last, Hno, Hkind. reflexivity. }
    rewrite Hadd, IH.
    + simpl. rewrite <- app_assoc. reflexivity.
    + exact Hc.
    + simpl. rewrite last_snoc. exact Hrest.
Qed.

(** The loop of [deserializeCell] over the outputs works on the output
    area of the code cell. *)
Lemma deserialize_outputs l : forall (m : ICellModel) area n col scr,
  variant m = Code area n col scr ->
  foldl (fun m o =>
           match variant m with
           | Code area _ _ _ => with_output (OutputArea.add o area) m
           | _ => m
           end) m l
  = with_output (foldl (fun a o => OutputArea.add o a) area l) m.
Proof.
  induction l as [|o l IH]; intros m area n col scr Hv; simpl.
  - unfold with_output. rewrite Hv. destruct m; simpl in *. subst. reflexivity.
  - rewrite Hv.
    rewrite (IH (with_output (OutputArea.add o area) m)
                (OutputArea.add o area) n col scr).
    + unfold with_output. rewrite Hv. simpl. reflexivity.
    + unfold with_output. rewrite Hv. reflexivity.
Qed.

Lemma serializeCell_with_active b cell :
  serialize.serializeCell (with_active b cell) = serialize.serializeCell cell.
Proof. reflexivity. Qed.

Lemma load_cell_cells model c :
  Notebook.cells (serialize.load_cell model c)
  = (with_active false <$> Notebook.cells model)
      ++ [with_active true (loaded model c)]
  /\ Notebook.activeCellIndex (serialize.load_cell model c)
     = Some (Z.of_nat (length (Notebook.cells model)))
  /\ Notebook.metadata (serialize.load_cell model c) = Notebook.metadata model.
Proof.
  unfold serialize.load_cell, loaded.
  destruct (serialize.deserializeCell c _) as [cell changed]. cbn [fst].
  destruct changed.
  - destruct (cells_add_cells cell (Notebook.with_dirty true model)) as (-> & -> & _).
    repeat split; reflexivity.
  - destruct (cells_add_cells cell model) as (-> & -> & _).
    repeat split; reflexivity.
Qed.

(** A plain document cell comes back from the cell made for it. *)
Lemma serializeCell_loaded model c :
  plain_cell c = true -> serialize.serializeCell (loaded model c) = c.
Proof.
  intros Hp. unfold loaded.
  destruct c as [[s|ls] tg nm fmt [|m ms] [|o os]
                 | [s|ls] tg nm [|m ms] [|o os]
                 | [s|ls] tg nm col scr outs ec [|m ms] [|o os]];
    try discriminate Hp; try reflexivity.
  simpl in Hp.
  change (isMarkdownCell (ICodeCell (Single s) tg nm col scr outs ec [] []))
    with false.
  change (isCodeCell (ICodeCell (Single s) tg nm col scr outs ec [] []))
    with true.
  cbv iota. rewrite createCodeCell_fresh.
  unfold serialize.deserializeCell. cbn -[foldl OutputArea.add].
  rewrite deserialize_outputs
    with (area := OutputArea.new) (n := ec) (col := col) (scr := scr)
    by reflexivity.
  rewrite add_kept_apart by (try reflexivity; exact Hp).
  unfold serialize.serializeCell. cbn -[foldl].
  rewrite foldl_push. reflexivity.
Qed.

Lemma load_cells_serialized l : forall model,
  forallb plain_cell l = true ->
  serialize.serializeCell <$> Notebook.cells (foldl serialize.load_cell model l)
  = (serialize.serializeCell <$> Notebook.cells model) ++ l
  /\ Notebook.metadata (foldl serialize.load_cell model l) = Notebook.metadata model.
Proof.
  induction l as [|c l IH]; intros model Hp; simpl.
  - rewrite app_nil_r. split; reflexivity.
  - simpl in Hp. apply andb_prop in Hp as [Hc Hl].
    destruct (IH (serialize.load_cell model c) Hl) as [-> ->].
    destruct (load_cell_cells model c) as (-> & _ & ->).
    split; [|reflexivity].
    rewrite fmap_app, <- list_fmap_compose. simpl.
    rewrite serializeCell_with_active, (serializeCell_loaded model c Hc).
    rewrite <- app_assoc. reflexivity.
Qed.

Lemma load_cells_length l : forall model,
  length (Notebook.cells (foldl serialize.load_cell model l))
  = (length (Notebook.cells model) + length l)%nat.
Proof.
  induction l as [|c l IH]; intros model; simpl; [lia|].
  rewrite IH. destruct (load_cell_cells model c) as (-> & _).
  rewrite length_app, length_fmap. simpl. lia.
Qed.

(** After a document is loaded the active cell is the last one. *)
Lemma load_cells_active l c model :
  let m := foldl serialize.load_cell model (l ++ [c]) in
  Notebook.activeCellIndex m
  = Some (Z.of_nat (length (Notebook.cells model) + length l))
  /\ exists old x,
       Notebook.cells m = (with_active false <$> old) ++ [with_active true x]
       /\ length old = (length (Notebook.cells model) + length l)%nat.
Proof.
  intros m. unfold m. rewrite foldl_app. cbn [foldl].
  destruct (load_cell_cells (foldl serialize.load_cell model l) c) as (-> & -> & _).
  rewrite load_cells_length. split; [reflexivity|].
  eexists _, _. split; [reflexivity|]. apply load_cells_length.
Qed.
End SerializeFacts.

(** C6, counterexample: the two stdout chunks of the code cell of
    [chunked_document] are consolidated while the cell is loaded, and the
    document that comes back holds the single output
    Stream("stdout","ab"). *)
Lemma roundtrip_merges_stream_chunks :
  (nbformat.cells
     (serialize.serialize 4 0
        (serialize.deserialize chunked_document (Notebook.new sample_metadata))))
    !! O
  = Some (nbformat.ICodeCell (nbformat.Single "print('a'); print('b')")
            (Some ["demo"]) (Some "first") (Some false) (Some false)
            [nbformat.Stream "stdout" "ab"] (Some 1) [] [])
  /\ ~ roundtrip_of_every_document 4 0.
Proof.
  split; [reflexivity|].
  intros H.
  specialize (H chunked_document (Notebook.new sample_metadata)
                eq_refl eq_refl eq_refl eq_refl).
  vm_compute in H. discriminate H.
Qed.

(** Whatever the model holds, a serialized cell has the keys the
    serializer writes and no other. *)
Lemma serializeCell_other_keys cell :
  nbformat.metadata_other (serialize.serializeCell cell) = []
  /\ nbformat.other (serialize.serializeCell cell) = [].
Proof.
  unfold serialize.serializeCell. destruct (cells.variant cell); split; reflexivity.
Qed.

(** A document with a cell that holds a key the serializer does not
    read, in the cell or in its metadata, does not come back from the
    round trip: the key is lost. *)
Lemma roundtrip_loses_other_keys
    (MAJOR_VERSION MINOR_VERSION : Z)
    (doc : nbformat.INotebookContent) (model : Notebook.NotebookModel) :
  Exists (fun c => nbformat.metadata_other c <> [] \/ nbformat.other c <> [])
         (nbformat.cells doc) ->
  serialize.serialize MAJOR_VERSION MINOR_VERSION
    (serialize.deserialize doc model) <> doc.
Proof.
  intros Hex Heq.
  assert (Hall : Forall (fun c => nbformat.metadata_other c = []
                                  /\ nbformat.other c = [])
                        (nbformat.cells doc)).
  { rewrite <- Heq. unfold serialize.serialize. rewrite foldl_snoc.
    cbn [nbformat.cells app]. apply Forall_fmap, Forall_forall.
    intros cell _. apply serializeCell_other_keys. }
  apply Exists_exists in Hex. destruct Hex as (c & Hin & Hc).
  rewrite Forall_forall in Hall. destruct (Hall c Hin) as [Hm Ho].
  destruct Hc as [Hc|Hc]; [apply Hc, Hm|apply Hc, Ho].
Qed.

(** C6 (amended): for every document in the format version the
    serializer writes, whose cells hold no key, in the cell or in its
    metadata, but the ones the serializer reads, whose cell sources are
    single strings and whose code cells hold outputs of the known kinds
    with no stream output right behind a stream output of the same
    channel, loading the document into a notebook model and serializing
    the model gives the document back field for field, the outputs of
    every code cell in order. *)
Theorem serialize_deserialize_plain
    (MAJOR_VERSION MINOR_VERSION : Z)
    (doc : nbformat.INotebookContent) (model : Notebook.NotebookModel) :
  plain_document MAJOR_VERSION MINOR_VERSION doc = true ->
  serialize.serialize MAJOR_VERSION MINOR_VERSION
    (serialize.deserialize doc model) = doc.
Proof.
  unfold plain_document. intros [[Hcells Hmaj]%andb_prop Hmin]%andb_prop.
  apply Z.eqb_eq in Hmaj, Hmin.
  unfold serialize.serialize, serialize.deserialize.
  rewrite foldl_snoc.
  destruct (load_cells_serialized (nbformat.cells doc)
              (Notebook.cells_clear model) Hcells) as [Hc Hm].
  destruct (negb _);
    cbn [Notebook.cells Notebook.metadata Notebook.with_metadata
         Notebook.with_selectedCellIndex];
    rewrite Hc; destruct doc; simpl in *; subst; reflexivity.
Qed.

Lemma serialize_deserialize_plain_witness :
  serialize.serialize 4 0
    (serialize.deserialize sample_document (Notebook.new sample_metadata))
  = sample_document.
Proof.
  apply (serialize_deserialize_plain 4 0 sample_document
           (Notebook.new sample_metadata)).
  reflexivity.
Defined.

(** C7: after deserialize has loaded a document of two or more cells,
    the active cell is the last cell, the one added last, and the first
    cell is not active; the assignment to selectedCellIndex that ends
    the function reaches a property the model does not read. *)
Theorem deserialize_leaves_last_cell_active
    (first last_ : nbformat.ICell) (between : list nbformat.ICell)
    (md : nbformat.INotebookMetadata) (major minor : Z)
    (model : Notebook.NotebookModel) :
  let doc := nbformat.mkContent (first :: between ++ [last_]) md major minor in
  let m := serialize.deserialize doc model in
  Notebook.activeCellIndex m = Some (Z.of_nat (length between) + 1)
  /\ length (Notebook.cells m) = (length between + 2)%nat
  /\ cells.active <$> Notebook.cells m !! O = Some false
  /\ cells.active <$> last (Notebook.cells m) = Some true
  /\ Notebook.selectedCellIndex m = Some 0.
Proof.
  intros doc m. unfold m, serialize.deserialize, doc.
  cbn [nbformat.cells nbformat.nb_metadata].
  change (first :: between ++ [last_]) with ((first :: between) ++ [last_]).
  destruct (load_cells_active (first :: between) last_ (Notebook.cells_clear model))
    as (Hidx & old & x & Hcells & Hlen).
  cbv zeta in Hidx, Hcells.
  set (loaded_model := foldl serialize.load_cell (Notebook.cells_clear model)
                             ((first :: between) ++ [last_])) in *.
  assert (Hl : length (Notebook.cells loaded_model) = (length between + 2)%nat).
  { rewrite Hcells, length_app, length_fmap, Hlen. simpl. lia. }
  assert (Hne : negb (ObservableList.length (Notebook.cells loaded_model) =? 0) = true).
  { unfold ObservableList.length. rewrite Hl.
    apply negb_true_iff, Z.eqb_neq. lia. }
  rewrite Hne.
  cbn [Notebook.cells Notebook.activeCellIndex Notebook.selectedCellIndex
       Notebook.with_metadata Notebook.with_selectedCellIndex].
  split; [rewrite Hidx; simpl; f_equal; lia|].
  split; [exact Hl|].
  rewrite Hcells. split; [|split; [|reflexivity]].
  - destruct old as [|o old]; [simpl in Hlen; lia|]. reflexivity.
  - rewrite last_snoc. reflexivity.
Qed.

(** The failing input of C7: a document of two markdown cells, loaded
    into a new notebook model. *)
Lemma deserialize_two_cells_activates_second :
  let doc := nbformat.mkContent
               [nbformat.IMarkdownCell (nbformat.Single "one") None None [] [];
                nbformat.IMarkdownCell (nbformat.Single "two") None None [] []]
               sample_metadata 4 0 in
  let m := serialize.deserialize doc (Notebook.new sample_metadata) in
  Notebook.activeCellIndex m = Some 1
  /\ cells.active <$> Notebook.cells m = [false; true].
Proof. split; reflexivity. Qed.

(** ** NotebookWidget: the cells layout and the cell list *)

Section ListFacts.
Context {A : Type}.
Implicit Types (l : list A) (x : A).

Lemma insert_perm (j : nat) x l : take j l ++ x :: drop j l ≡ₚ x :: l.
Proof. rewrite <- Permutation_middle, take_drop. reflexivity. Qed.

Lemma take_delete_insert (j : nat) x l :
  (j < length l)%nat ->
  take j (delete j l) ++ x :: drop j (delete j l) = <[j := x]> l.
Proof.
  revert j. induction l as [|y l IH]; intros [|j] Hj; simpl in *; try lia.
  - rewrite drop_0. reflexivity.
  - f_equal. apply IH. lia.
Qed.
End ListFacts.

Section WidgetFacts.
Import cells widget.
Import ObservableList (Add, Move, Remove, Replace, Set_).

Lemma childIndex_fresh l w :
  Forall (fun v => (id v < id w)%nat) l -> childIndex l w = None.
Proof.
  induction 1 as [|v l Hv _ IH]; simpl; [reflexivity|].
  unfold same. destruct (Nat.eqb_spec (id v) (id w)); [lia|].
  rewrite IH. reflexivity.
Qed.

Lemma childIndex_lookup l : forall j w,
  NoDup (id <$> l) -> l !! j = Some w -> childIndex l w = Some j.
Proof.
  induction l as [|v l IH]; intros j w Hnd Hj; [discriminate|].
  rewrite fmap_cons in Hnd. apply NoDup_cons in Hnd as [Hv Hnd].
  destruct j as [|j]; simpl in *.
  - injection Hj as ->. unfold same. rewrite Nat.eqb_refl. reflexivity.
  - unfold same. destruct (Nat.eqb_spec (id v) (id w)) as [He|_].
    + exfalso. apply Hv. rewrite He. apply list_elem_of_fmap.
      exists w. split; [reflexivity|]. eapply list_elem_of_lookup_2, Hj.
    + rewrite (IH j w Hnd Hj). reflexivity.
Qed.

Lemma childAt_inside l (i : Z) :
  0 <= i < Z.of_nat (length l) -> childAt l i = l !! Z.to_nat i.
Proof.
  intros Hi. unfold childAt.
  destruct (Z.leb_spec 0 i); [|lia].
  destruct (Z.ltb_spec i (Z.of_nat (length l))); [|lia]. reflexivity.
Qed.

Lemma childAt_outside l (i : Z) :
  Z.of_nat (length l) <= i -> childAt l i = None.
Proof.
  intros Hi. unfold childAt.
  destruct (Z.ltb_spec i (Z.of_nat (length l))); [lia|].
  rewrite andb_false_r. reflexivity.
Qed.

Lemma well_formed_delete j s :
  well_formed s -> well_formed (with_children (delete j (children s)) s).
Proof.
  intros [Hnd Hlt]. split; cbn [children constructed with_children].
  - rewrite list_fmap_delete. eapply sublist_NoDup; [exact Hnd|]. apply sublist_delete.
  - apply Forall_delete, Hlt.
Qed.

Lemma well_formed_dispose w s : well_formed s -> well_formed (dispose w s).
Proof. intros H. exact H. Qed.

(** A widget built just now is no child yet: [insertChild] puts it in
    the clamped slot. *)
Lemma insert_created cell (j : nat) s :
  well_formed s ->
  (j <= length (children s))%nat ->
  exists w,
    let s' := with_children (take j (children s) ++ w :: drop j (children s))
                            (snd (createCell cell s)) in
    fst (createCell cell s) = w
    /\ model w = cell
    /\ insertChild (children s) (Z.of_nat j) (Some w) = Some (children s')
    /\ well_formed s'
    /\ disposed s' = disposed s.
Proof.
  intros [Hnd Hlt] Hj. exists (fst (createCell cell s)). cbv zeta.
  unfold createCell. cbn [fst snd children constructed with_children disposed model].
  set (w := mkWidget (constructed s) _ cell).
  split; [reflexivity|]. split; [reflexivity|]. split; [|split; [|reflexivity]].
  - unfold insertChild. rewrite childIndex_fresh by exact Hlt.
    replace (Z.to_nat (Z.max 0 (Z.min (Z.of_nat j) (Z.of_nat (length (children s))))))
      with j by lia.
    reflexivity.
  - unfold well_formed. cbn [children constructed with_children]. split.
    + rewrite insert_perm, fmap_cons. apply NoDup_cons. split; [|exact Hnd].
      intros Hin. apply list_elem_of_fmap in Hin as (v & Hv & Hin).
      rewrite Forall_forall in Hlt. specialize (Hlt v Hin). simpl in Hv. lia.
    + rewrite insert_perm. constructor; [simpl; lia|].
      eapply Forall_impl; [exact Hlt|]. simpl. lia.
Qed.

(** The loop of the constructor builds one child per cell. *)
Lemma new_in_sync l : in_sync l (new l).
Proof.
  unfold new.
  assert (H : forall s acc, in_sync acc s ->
            in_sync (acc ++ l)
              (foldl (fun s cell =>
                        let '(w, s) := createCell cell s in
                        match addChild (children s) w with
                        | Some l => with_children l s
                        | None => s
                        end) s l)).
  { induction l as [|c l IH]; intros s acc Hs; cbn [foldl].
    - rewrite app_nil_r. exact Hs.
    - destruct Hs as [Hm Hwf].
      destruct (insert_created c (length (children s)) s Hwf (le_n _))
        as (w & Hw & Hmw & Hins & Hwf' & _).
      cbv zeta in Hw, Hins, Hwf'.
      destruct (createCell c s) as [w0 s0] eqn:Hc. cbn [fst snd] in *. subst w0.
      assert (Hch : children s0 = children s).
      { unfold createCell in Hc. injection Hc as _ <-. reflexivity. }
      unfold addChild. rewrite Hch, Hins.
      replace (acc ++ c :: l) with ((acc ++ [c]) ++ l)
        by (rewrite <- app_assoc; reflexivity).
      apply IH. split; [|exact Hwf'].
      cbn [children with_children].
      rewrite firstn_all, drop_all, fmap_app, Hm. simpl. rewrite Hmw.
      reflexivity. }
  apply (H (mkLayout [] O []) []). split; [reflexivity|].
  split; constructor.
Qed.

(** An Add change, such as [insert] and [add] report, puts one new
    widget in the slot of the new cell. *)
Lemma onCellsChanged_insert l (i : Z) cell r s :
  in_sync l s ->
  ObservableList.insert l i cell = Some r ->
  exists s',
    onCellsChanged (snd r) s = Returned s'
    /\ in_sync (fst r) s'
    /\ disposed s' = disposed s.
Proof.
  intros [Hm Hwf] Hr. unfold ObservableList.insert in Hr.
  set (j := ObservableList._norm l i) in *.
  destruct ((0 <=? j) && (j <=? ObservableList.length l)) eqn:Hck; [|discriminate].
  injection Hr as <-. cbn [fst snd].
  assert (Hlen : length (children s) = length l)
    by (rewrite <- Hm, length_fmap; reflexivity).
  assert (Hj : 0 <= j <= Z.of_nat (length l)).
  { unfold ObservableList.length in Hck.
    apply andb_prop in Hck as [?%Z.leb_le ?%Z.leb_le]. lia. }
  destruct (insert_created cell (Z.to_nat j) s Hwf) as (w & Hw & Hmw & Hins & Hwf' & Hd);
    [lia|].
  cbv zeta in Hins, Hwf', Hd. rewrite Z2Nat.id in Hins by lia.
  destruct (createCell cell s) as [w0 s0] eqn:Hc. cbn [fst snd] in *. subst w0.
  assert (Hch : children s0 = children s).
  { unfold createCell in Hc. injection Hc as _ <-. reflexivity. }
  exists (with_children
            (take (Z.to_nat j) (children s) ++ w :: drop (Z.to_nat j) (children s))
            s0).
  unfold onCellsChanged. rewrite Hc, Hch, Hins.
  split; [reflexivity|]. split; [|exact Hd].
  split; [|exact Hwf'].
  cbn [children with_children].
  rewrite fmap_app, fmap_cons, fmap_take, fmap_drop, Hm, Hmw. reflexivity.
Qed.

(** A Remove change takes out the widget of the removed cell and
    disposes of it. *)
Lemma onCellsChanged_removeAt l (i : Z) r s :
  in_sync l s ->
  ObservableList.removeAt l i = Some r ->
  exists s' w,
    onCellsChanged (snd r) s = Returned s'
    /\ in_sync (fst r) s'
    /\ disposed s' = id w :: disposed s
    /\ constructed s' = constructed s.
Proof.
  intros [Hm Hwf] Hr. unfold ObservableList.removeAt in Hr.
  set (j := ObservableList._norm l i) in *.
  destruct (ObservableList._check l j) eqn:Hck; [|discriminate].
  destruct (l !! Z.to_nat j) as [old|] eqn:Hold; [|discriminate].
  injection Hr as <-. cbn [fst snd].
  assert (Hlen : length (children s) = length l)
    by (rewrite <- Hm, length_fmap; reflexivity).
  index_bounds.
  destruct (lookup_lt_is_Some_2 (children s) (Z.to_nat j)) as [w Hw]; [lia|].
  exists (dispose w (with_children (delete (Z.to_nat j) (children s)) s)), w.
  unfold onCellsChanged. rewrite childAt_inside by lia. rewrite Hw.
  unfold removeChild. rewrite (childIndex_lookup _ _ _ (proj1 Hwf) Hw).
  split; [reflexivity|]. split; [|split; reflexivity].
  split; [|apply well_formed_dispose, well_formed_delete, Hwf].
  cbn [children dispose with_children]. rewrite list_fmap_delete, Hm. reflexivity.
Qed.

(** A Set change disposes of the widget in the slot and puts a new
    widget for the new cell there. *)
Lemma onCellsChanged_set l (i : Z) cell r s :
  in_sync l s ->
  ObservableList.set l i cell = Some r ->
  exists s',
    onCellsChanged (snd r) s = Returned s'
    /\ in_sync (fst r) s'.
Proof.
  intros [Hm Hwf] Hr. unfold ObservableList.set in Hr.
  set (j := ObservableList._norm l i) in *.
  destruct (ObservableList._check l j) eqn:Hck; [|discriminate].
  destruct (l !! Z.to_nat j) as [old|] eqn:Hold; [|discriminate].
  injection Hr as <-. cbn [fst snd].
  assert (Hlen : length (children s) = length l)
    by (rewrite <- Hm, length_fmap; reflexivity).
  index_bounds.
  destruct (lookup_lt_is_Some_2 (children s) (Z.to_nat j)) as [w Hw]; [lia|].
  set (s1 := dispose w (with_children (delete (Z.to_nat j) (children s)) s)).
  assert (Hwf1 : well_formed s1)
    by apply well_formed_dispose, well_formed_delete, Hwf.
  assert (Hlen1 : (Z.to_nat j <= length (children s1))%nat).
  { unfold s1. cbn [children dispose with_children].
    rewrite length_delete by (rewrite Hw; eauto). lia. }
  destruct (insert_created cell (Z.to_nat j) s1 Hwf1 Hlen1)
    as (w' & Hw' & Hmw & Hins & Hwf' & _).
  cbv zeta in Hins, Hwf'. rewrite Z2Nat.id in Hins by lia.
  destruct (createCell cell s1) as [w0 s0] eqn:Hc. cbn [fst snd] in *. subst w0.
  assert (Hch : children s0 = children s1).
  { unfold createCell in Hc. injection Hc as _ <-. reflexivity. }
  exists (with_children
            (take (Z.to_nat j) (children s1) ++ w' :: drop (Z.to_nat j) (children s1))
            s0).
  unfold onCellsChanged. rewrite childAt_inside by lia. rewrite Hw.
  unfold removeChild. rewrite (childIndex_lookup _ _ _ (proj1 Hwf) Hw).
  fold s1. rewrite Hc, Hch, Hins. split; [reflexivity|]. split; [|exact Hwf'].
  cbn [children with_children]. unfold s1. cbn [children dispose with_children].
  rewrite take_delete_insert by lia.
  rewrite list_fmap_insert, Hm, Hmw. reflexivity.
Qed.

(** A Move change relocates the widget of the moved cell; no widget is
    built and none is disposed of. *)
Lemma onCellsChanged_move l (i j : Z) r s :
  in_sync l s ->
  ObservableList.move l i j = Some r ->
  exists s',
    onCellsChanged (snd r) s = Returned s'
    /\ in_sync (fst r) s'
    /\ constructed s' = constructed s
    /\ disposed s' = disposed s
    /\ children s' ≡ₚ children s.
Proof.
  intros [Hm Hwf] Hr. unfold ObservableList.move in Hr.
  set (i' := ObservableList._norm l i) in *.
  set (j' := ObservableList._norm l j) in *.
  destruct (ObservableList._check l i' && ObservableList._check l j') eqn:Hck;
    [|discriminate].
  destruct (l !! Z.to_nat i') as [x|] eqn:Hx; [|discriminate].
  injection Hr as <-. cbn [fst snd].
  assert (Hlen : length (children s) = length l)
    by (rewrite <- Hm, length_fmap; reflexivity).
  index_bounds.
  destruct (lookup_lt_is_Some_2 (children s) (Z.to_nat i')) as [w Hw]; [lia|].
  assert (Hmw : model w = x).
  { rewrite <- Hm, list_lookup_fmap, Hw in Hx. injection Hx as Hx. exact Hx. }
  unfold onCellsChanged. rewrite childAt_inside by lia. rewrite Hw.
  unfold insertChild. rewrite (childIndex_lookup _ _ _ (proj1 Hwf) Hw).
  replace (Z.to_nat (Z.max 0 (Z.min j' (Z.of_nat (length (children s))))))
    with (Z.to_nat j') by lia.
  destruct (Nat.eqb_spec (Z.to_nat j') (length (children s))) as [He|_]; [lia|].
  destruct (Nat.eqb_spec (Z.to_nat i') (Z.to_nat j')) as [He|Hne].
  - exists (with_children (children s) s).
    split; [reflexivity|]. split; [|repeat split; reflexivity].
    split; [|destruct s; exact Hwf].
    cbn [children with_children]. rewrite <- He.
    rewrite take_delete_insert by lia.
    rewrite list_insert_id by exact Hx. exact Hm.
  - eexists. split; [reflexivity|].
    cbn [children with_children constructed disposed].
    assert (Hp : take (Z.to_nat j') (delete (Z.to_nat i') (children s))
                   ++ w :: drop (Z.to_nat j') (delete (Z.to_nat i') (children s))
                 ≡ₚ children s).
    { rewrite insert_perm. symmetry. apply delete_Permutation. exact Hw. }
    split; [|repeat split; try reflexivity; exact Hp].
    split.
    + cbn [children with_children].
      rewrite fmap_app, fmap_cons, fmap_take, fmap_drop, list_fmap_delete, Hm, Hmw.
      reflexivity.
    + destruct Hwf as [Hnd Hlt]. unfold well_formed.
      cbn [children constructed with_children]. split.
      * rewrite Hp. exact Hnd.
      * rewrite Hp. exact Hlt.
Qed.

(** The change [clear] reports on a list that has a cell: the first
    loop of the Replace case starts one slot behind the last child. *)
Lemma onCellsChanged_clear l s :
  in_sync l s ->
  l <> [] ->
  onCellsChanged (snd (ObservableList.clear l)) s
  = TypeError (with_children (children s) s).
Proof.
  intros [Hm _] Hne. unfold ObservableList.clear, onCellsChanged. cbn [snd].
  assert (Hlen : length (children s) = length l)
    by (rewrite <- Hm, length_fmap; reflexivity).
  destruct l as [|c l]; [congruence|]. cbn [length remove_old].
  rewrite childAt_outside by (rewrite Hlen; simpl; lia).
  reflexivity.
Qed.
End WidgetFacts.

(** A Replace change for the first of three cells, the old batch being
    that cell and the new batch empty: the loop of the handler takes out
    the widget in slot 1, the widget of the second cell, and the widget
    of the replaced cell stays in the layout. *)
Lemma onCellsChanged_replace_takes_wrong_widget :
  let l := Notebook.cells sample_notebook in
  let change := ObservableList.Replace 0 (take 1 l) [] in
  let s := widget.layout_of (widget.onCellsChanged change (widget.new l)) in
  cells.type <$> l = ["code"; "markdown"; "raw"]
  /\ cells.type <$> (widget.model <$> widget.children s) = ["code"; "raw"]
  /\ widget.disposed s = [1%nat].
Proof. vm_compute. repeat split; reflexivity. Qed.

(** C3: the change that [clear] reports on the cell list of a notebook
    with cells leaves the handler of a notebook widget by a TypeError in
    the first round of the Replace loop, before any child is removed:
    the layout keeps one child per old cell while the cell list is
    empty. *)
Theorem onCellsChanged_replace_out_of_sync
    (cell : cells.ICellModel) (rest : list cells.ICellModel) :
  let cells := cell :: rest in
  let layout := widget.new cells in
  let result := widget.onCellsChanged (snd (ObservableList.clear cells)) layout in
  fst (ObservableList.clear cells) = []
  /\ result = widget.TypeError layout
  /\ length (widget.children (widget.layout_of result)) = S (length rest).
Proof.
  intros cells layout result.
  pose proof (new_in_sync cells) as Hs. fold layout in Hs.
  assert (Hr : result = widget.TypeError layout).
  { unfold result. rewrite (onCellsChanged_clear cells layout Hs) by discriminate.
    destruct layout; reflexivity. }
  split; [reflexivity|]. split; [exact Hr|].
  rewrite Hr. cbn [widget.layout_of].
  destruct Hs as [Hm _]. rewrite <- (length_fmap widget.model), Hm. reflexivity.
Qed.

(* ===================================================================== *)
(** * Further properties                                                  *)
(* ===================================================================== *)

(** ** OutputAreaModel: what a sequence of calls keeps *)

Section OutputAreaInvariants.
Import nbformat OutputArea.

Lemma append_assoc (a b c : string) :
  String.append (String.append a b) c = String.append a (String.append b c).
Proof. induction a as [|x a IH]; simpl; [reflexivity|]. rewrite IH. reflexivity. Qed.

Lemma append_empty_r (a : string) : String.append a "" = a.
Proof. induction a as [|x a IH]; simpl; [reflexivity|]. rewrite IH. reflexivity. Qed.

Lemma all_text_snoc l o :
  all_text (l ++ [o]) = String.append (all_text l) (text o).
Proof.
  induction l as [|x l IH]; simpl.
  - apply append_empty_r.
  - rewrite IH, append_assoc. reflexivity.
Qed.

Lemma entry_before_cons p a l : entry_before (Some a) l = entry_before p (a :: l).
Proof.
  unfold entry_before. destruct l as [|b l]; [reflexivity|].
  change (last (a :: b :: l)) with (last (b :: l)).
  destruct (last (b :: l)) eqn:Hl; [reflexivity|].
  apply last_None in Hl. discriminate.
Qed.

Lemma kept_apart_snoc l : forall p x,
  kept_apart p (l ++ [x])
  = kept_apart p l
    && (known_kind x && negb (consolidates x (entry_before p l))).
Proof.
  induction l as [|a l IH]; intros p x.
  - simpl. unfold entry_before. simpl. rewrite andb_true_r. reflexivity.
  - change (kept_apart p ((a :: l) ++ [x]))
      with (known_kind a && negb (consolidates a p) && kept_apart (Some a) (l ++ [x])).
    rewrite IH, (entry_before_cons p a l). simpl. rewrite andb_assoc. reflexivity.
Qed.

(** Whether an output consolidates depends on its kind and channel only. *)
Lemma consolidates_with_text t o q :
  consolidates (with_text t o) q = consolidates o q.
Proof. reflexivity. Qed.

Lemma consolidates_same_channel a b q :
  isStream a = true -> isStream b = true -> name a = name b ->
  consolidates a q = consolidates b q.
Proof.
  intros Ha Hb Hn. unfold consolidates. destruct q as [y|]; [|reflexivity].
  rewrite Ha, Hb, Hn. reflexivity.
Qed.

Lemma consolidates_inv o last :
  consolidates o (Some last) = true ->
  isStream o = true /\ isStream last = true /\ name o = name last.
Proof.
  unfold consolidates. intros [[Ho Hl]%andb_prop Hn]%andb_prop.
  apply String.eqb_eq in Hn. auto.
Qed.

Lemma stream_known o : isStream o = true -> known_kind o = true.
Proof. unfold isStream, known_kind. intros ->. reflexivity. Qed.

(** The three ways [add] ends when no clear is pending. *)
Lemma add_cases m o :
  _clearNext m = false ->
  (exists l last,
      outputs m = l ++ [last]
      /\ consolidates o (Some last) = true
      /\ outputs (add o m)
         = l ++ [with_text (String.append (text last) (text o)) o])
  \/ (consolidates o (last (outputs m)) = false
      /\ known_kind o = true
      /\ outputs (add o m) = outputs m ++ [o])
  \/ (consolidates o (last (outputs m)) = false
      /\ known_kind o = false
      /\ outputs (add o m) = outputs m).
Proof.
  intros Hc.
  destruct (consolidates o (last (outputs m))) eqn:Hk.
  - left. destruct (outputs m) as [|x l'] eqn:Hl using rev_ind.
    + simpl in Hk. discriminate.
    + clear IHl'. rewrite last_snoc in Hk. exists l', x.
      split; [reflexivity|]. split; [exact Hk|].
      apply add_consolidate; assumption.
  - right. pose proof (add_append m o Hc Hk) as Ha.
    destruct (known_kind o); [left|right]; auto.
Qed.

Lemma add_keeps_apart m o :
  kept_apart None (outputs m) = true ->
  kept_apart None (outputs (add o m)) = true.
Proof.
  intros Hk. destruct (_clearNext m) eqn:Hc.
  - rewrite (add_after_clear m o Hc).
    destruct (known_kind o) eqn:Hkn; [|reflexivity].
    simpl. rewrite Hkn. reflexivity.
  - destruct (add_cases m o Hc)
      as [(l & x & Hl & Hcons & ->) | [(Hno & Hkn & ->) | (_ & _ & ->)]].
    + rewrite Hl, kept_apart_snoc in Hk.
      apply andb_prop in Hk as [Hkl [_ Hx]%andb_prop].
      apply consolidates_inv in Hcons as (Ho & Hx' & Hn).
      rewrite kept_apart_snoc, Hkl, consolidates_with_text.
      rewrite (consolidates_same_channel o x _ Ho Hx' Hn), Hx.
      rewrite (stream_known (with_text _ o)) by exact Ho. reflexivity.
    + rewrite kept_apart_snoc, Hk, Hkn.
      unfold entry_before. destruct (last (outputs m)); rewrite Hno; reflexivity.
    + exact Hk.
Qed.
End OutputAreaInvariants.

(** X1: whatever sequence of add and clear calls a new output area
    receives, every entry of its list is of a known kind and no stream
    entry stands right behind a stream entry of the same channel. *)
Theorem outputs_stay_apart (calls : list OutputCall) :
  kept_apart None (OutputArea.outputs (foldl call OutputArea.new calls)) = true.
Proof.
  assert (H : forall m, kept_apart None (OutputArea.outputs m) = true ->
              kept_apart None (OutputArea.outputs (foldl call m calls)) = true).
  { induction calls as [|c calls IH]; intros m Hm; [exact Hm|].
    simpl. apply IH. destruct c as [o|[|]]; simpl.
    - apply add_keeps_apart, Hm.
    - exact Hm.
    - reflexivity. }
  apply H. reflexivity.
Qed.

(** X2: with no clear pending, adding an output of a known kind puts its
    text behind the texts already in the list: consolidation loses no
    text and keeps the order of arrival. *)
Theorem add_conserves_text (m : OutputArea.OutputAreaModel) (o : nbformat.IOutput) :
  OutputArea._clearNext m = false ->
  OutputArea.known_kind o = true ->
  all_text (OutputArea.outputs (OutputArea.add o m))
  = String.append (all_text (OutputArea.outputs m)) (nbformat.text o).
Proof.
  intros Hc Hkn.
  destruct (add_cases m o Hc)
    as [(l & x & Hl & _ & ->) | [(_ & _ & ->) | (_ & Hu & _)]].
  - rewrite Hl, !all_text_snoc, append_assoc. reflexivity.
  - apply all_text_snoc.
  - congruence.
Qed.

Lemma add_conserves_text_witness :
  all_text
    (OutputArea.outputs
       (OutputArea.add (nbformat.Stream "stdout" "lo")
          (OutputArea.mkOutputArea
             [nbformat.Stream "stderr" "warn: "; nbformat.Stream "stdout" "hel"]
             false false false false)))
  = "warn: hello".
Proof.
  exact (add_conserves_text
           (OutputArea.mkOutputArea
              [nbformat.Stream "stderr" "warn: "; nbformat.Stream "stdout" "hel"]
              false false false false)
           (nbformat.Stream "stdout" "lo") eq_refl eq_refl).
Defined.

(** X3: with no clear pending, add leaves every entry but the last as it
    is, never shortens the list and lengthens it by one entry at most;
    an output of an unknown kind changes nothing. *)
Theorem add_touches_last_slot_only
    (m : OutputArea.OutputAreaModel) (o : nbformat.IOutput) :
  OutputArea._clearNext m = false ->
  (forall i : nat,
      (i + 1 < length (OutputArea.outputs m))%nat ->
      OutputArea.outputs (OutputArea.add o m) !! i = OutputArea.outputs m !! i)
  /\ (length (OutputArea.outputs m)
      <= length (OutputArea.outputs (OutputArea.add o m))
      <= length (OutputArea.outputs m) + 1)%nat
  /\ (OutputArea.known_kind o = false ->
      OutputArea.outputs (OutputArea.add o m) = OutputArea.outputs m).
Proof.
  intros Hc.
  destruct (add_cases m o Hc)
    as [(l & x & Hl & Hcons & ->) | [(_ & Hkn & ->) | (_ & _ & ->)]].
  - rewrite Hl. split; [|split].
    + intros i Hi. rewrite length_app in Hi. simpl in Hi.
      rewrite !lookup_app_l by lia. reflexivity.
    + rewrite !length_app. simpl. lia.
    + intros Hu. apply consolidates_inv in Hcons as (Ho & _).
      rewrite (stream_known o Ho) in Hu. discriminate.
  - split; [|split].
    + intros i Hi. rewrite lookup_app_l by lia. reflexivity.
    + rewrite length_app. simpl. lia.
    + congruence.
  - split; [|split]; [reflexivity|lia|reflexivity].
Qed.

Lemma add_touches_last_slot_only_witness :
  OutputArea.outputs
    (OutputArea.add (nbformat.Stream "stdout" "b")
       (OutputArea.mkOutputArea
          [nbformat.DisplayData []; nbformat.Stream "stdout" "a"]
          false false false false)) !! O
  = Some (nbformat.DisplayData []).
Proof.
  exact (proj1 (add_touches_last_slot_only
                  (OutputArea.mkOutputArea
                     [nbformat.DisplayData []; nbformat.Stream "stdout" "a"]
                     false false false false)
                  (nbformat.Stream "stdout" "b") eq_refl) O ltac:(simpl; lia)).
Defined.

(** X4: a deferred clear is applied once.  After clear(true), a sequence
    of one or more outputs leaves the list that the same sequence leaves
    in a new output area, whatever the area held before. *)
Theorem deferred_clear_applies_once
    (m : OutputArea.OutputAreaModel) (o : nbformat.IOutput)
    (rest : list nbformat.IOutput) :
  OutputArea.outputs
    (foldl (fun a x => OutputArea.add x a) (OutputArea.clear true m) (o :: rest))
  = OutputArea.outputs
      (foldl (fun a x => OutputArea.add x a) OutputArea.new (o :: rest)).
Proof.
  assert (Hstep : forall x a b,
            OutputArea.outputs a = OutputArea.outputs b ->
            OutputArea._clearNext a = OutputArea._clearNext b ->
            OutputArea.outputs (OutputArea.add x a)
            = OutputArea.outputs (OutputArea.add x b)).
  { intros x a b Ho Hc. unfold OutputArea.add. rewrite <- Hc.
    destruct (OutputArea._clearNext a); simpl.
    - destruct (OutputArea.known_kind x); reflexivity.
    - rewrite <- Ho. destruct (OutputArea.consolidates x _).
      + destruct (ObservableList.set _ _ _) as [[? ?]|]; [reflexivity|exact Ho].
      + destruct (OutputArea.known_kind x); simpl; rewrite ?Ho; reflexivity. }
  assert (Hall : forall l a b,
            OutputArea.outputs a = OutputArea.outputs b ->
            OutputArea._clearNext a = OutputArea._clearNext b ->
            OutputArea.outputs (foldl (fun a x => OutputArea.add x a) a l)
            = OutputArea.outputs (foldl (fun a x => OutputArea.add x a) b l)).
  { induction l as [|x l IH]; intros a b Ho Hc; [exact Ho|].
    cbn [foldl]. apply IH; [apply Hstep; assumption|].
    rewrite !add_clearNext. reflexivity. }
  cbn [foldl]. apply Hall.
  - rewrite (add_after_clear (OutputArea.clear true m) o eq_refl).
    unfold OutputArea.add. simpl. destruct (OutputArea.known_kind o); reflexivity.
  - rewrite !add_clearNext. reflexivity.
Qed.

(** ** NotebookModel: removing and inserting cells *)

Section CellListFacts.
Import cells Notebook.

Lemma removeAt_in_range {T} (l : list T) (j : Z) :
  0 <= j < Z.of_nat (length l) ->
  exists old,
    l !! Z.to_nat j = Some old
    /\ ObservableList.removeAt l j
       = Some (delete (Z.to_nat j) l, ObservableList.Remove j old).
Proof.
  intros Hj.
  destruct (lookup_lt_is_Some_2 l (Z.to_nat j)) as [old Hold]; [lia|].
  exists old. split; [exact Hold|].
  unfold ObservableList.removeAt, ObservableList._norm, ObservableList._check,
    ObservableList.length.
  destruct (Z.ltb_spec j 0); [lia|].
  destruct (Z.leb_spec 0 j); [|lia].
  destruct (Z.ltb_spec j (Z.of_nat (length l))); [|lia].
  simpl. rewrite Hold. reflexivity.
Qed.

Lemma insert_in_range {T} (l : list T) (j : Z) (x : T) :
  0 <= j <= Z.of_nat (length l) ->
  ObservableList.insert l j x
  = Some (take (Z.to_nat j) l ++ x :: drop (Z.to_nat j) l, ObservableList.Add j x).
Proof.
  intros Hj.
  unfold ObservableList.insert, ObservableList._norm, ObservableList.length.
  destruct (Z.ltb_spec j 0); [lia|].
  destruct (Z.leb_spec 0 j); [|lia].
  destruct (Z.leb_spec j (Z.of_nat (length l))); [|lia]. reflexivity.
Qed.

Lemma cells_insert_cells (j : Z) cell nb :
  0 <= j <= Z.of_nat (length (Notebook.cells nb)) ->
  Notebook.cells (cells_insert j cell nb)
  = (with_active false <$> take (Z.to_nat j) (Notebook.cells nb))
      ++ with_active true cell
      :: (with_active false <$> drop (Z.to_nat j) (Notebook.cells nb))
  /\ activeCellIndex (cells_insert j cell nb) = Some j.
Proof.
  intros Hj. unfold cells_insert. rewrite insert_in_range by exact Hj.
  unfold emit, _onCellsChanged. cbn [fst snd].
  rewrite set_activeCellIndex_cells, set_activeCellIndex_index.
  change (Notebook.cells (with_cells ?l _)) with l.
  unfold ObservableList.length. rewrite length_app, length_take. simpl length.
  rewrite length_drop.
  set (n := length (Notebook.cells nb)) in *.
  replace (Z.min (Z.max j 0)
             (Z.of_nat (Z.to_nat j `min` n + S (n - Z.to_nat j)) - 1))
    with j by lia.
  split; [|reflexivity].
  rewrite imap_app, imap_cons. f_equal; [|f_equal].
  - rewrite <- imap_const. apply imap_ext. intros i x Hx. simpl.
    apply lookup_lt_Some in Hx. rewrite length_take in Hx.
    destruct (Z.eqb_spec j (Z.of_nat i)); [lia|reflexivity].
  - rewrite length_take. fold n.
    replace (Z.of_nat (Z.to_nat j `min` n + 0)) with j by lia.
    rewrite Z.eqb_refl. reflexivity.
  - rewrite <- imap_const. apply imap_ext. intros i x Hx. simpl.
    rewrite length_take.
    destruct (Z.eqb_spec j (Z.of_nat (Z.to_nat j `min` length (Notebook.cells nb) + S i)));
      [lia|reflexivity].
Qed.
End CellListFacts.

(** The notebook after the cell at index j is removed. *)
Lemma cells_removeAt_cells (nb : Notebook.NotebookModel) (j : Z) :
  0 <= j < ObservableList.length (Notebook.cells nb) ->
  let index := Z.min j (ObservableList.length (Notebook.cells nb) - 2) in
  let nb' := Notebook.cells_removeAt j nb in
  Notebook.activeCellIndex nb' = Some index
  /\ Notebook.cells nb'
     = imap (fun i cell => cells.with_active (Z.eqb index (Z.of_nat i)) cell)
            (delete (Z.to_nat j) (Notebook.cells nb))
  /\ exists old,
       Notebook.cells nb !! Z.to_nat j = Some old
       /\ Notebook.disposed nb' = Notebook.dispose old :: Notebook.disposed nb.
Proof.
  intros Hj index nb'. unfold ObservableList.length in *.
  destruct (removeAt_in_range (Notebook.cells nb) j Hj) as (old & Hold & Hr).
  unfold nb', Notebook.cells_removeAt. rewrite Hr.
  unfold Notebook.emit, Notebook._onCellsChanged. cbn [fst snd].
  rewrite set_activeCellIndex_cells, set_activeCellIndex_index.
  cbn [Notebook.cells Notebook.with_cells Notebook.with_disposed].
  unfold ObservableList.length.
  rewrite length_delete by (rewrite Hold; eauto).
  set (n := length (Notebook.cells nb)) in *.
  replace (Z.min (Z.max (Z.min j (Z.of_nat (n - 1) - 1)) 0) (Z.of_nat (n - 1) - 1))
    with index by (unfold index; lia).
  split; [reflexivity|]. split; [reflexivity|].
  exists old. split; [exact Hold|reflexivity].
Qed.


(** X5: removing the cell at index j activates the cell that followed
    it, or the new last cell when the removed cell was the last one,
    whichever cell was active before; the removed cell is disposed of.
    When the only cell is removed activeCellIndex becomes -1. *)
Theorem removeAt_activates_neighbour (nb : Notebook.NotebookModel) (j : Z) :
  0 <= j < ObservableList.length (Notebook.cells nb) ->
  let index := Z.min j (ObservableList.length (Notebook.cells nb) - 2) in
  let nb' := Notebook.cells_removeAt j nb in
  Notebook.activeCellIndex nb' = Some index
  /\ Notebook.cells nb'
     = imap (fun i cell => cells.with_active (Z.eqb index (Z.of_nat i)) cell)
            (delete (Z.to_nat j) (Notebook.cells nb))
  /\ exists old,
       Notebook.cells nb !! Z.to_nat j = Some old
       /\ Notebook.disposed nb' = Notebook.dispose old :: Notebook.disposed nb.
Proof. apply cells_removeAt_cells. Qed.

Lemma removeAt_activates_neighbour_witness :
  Notebook.activeCellIndex (Notebook.cells_removeAt 2 sample_notebook) = Some 1
  /\ Notebook.activeCellIndex (Notebook.cells_removeAt 0 raw_notebook) = Some (-1).
Proof.
  split.
  - exact (proj1 (removeAt_activates_neighbour sample_notebook 2
                    ltac:(vm_compute; split; [discriminate|reflexivity]))).
  - exact (proj1 (removeAt_activates_neighbour raw_notebook 0
                    ltac:(vm_compute; split; [discriminate|reflexivity]))).
Defined.

(** X6: a cell inserted at an index of the list lands at that index and
    is the active cell; the cells before and behind it keep their order
    and are not active. *)
Theorem cells_insert_activates_new_cell
    (nb : Notebook.NotebookModel) (j : Z) (cell : cells.ICellModel) :
  0 <= j <= ObservableList.length (Notebook.cells nb) ->
  Notebook.cells (Notebook.cells_insert j cell nb)
  = (cells.with_active false <$> take (Z.to_nat j) (Notebook.cells nb))
      ++ cells.with_active true cell
      :: (cells.with_active false <$> drop (Z.to_nat j) (Notebook.cells nb))
  /\ Notebook.activeCellIndex (Notebook.cells_insert j cell nb) = Some j.
Proof. intros Hj. apply cells_insert_cells. exact Hj. Qed.

Lemma cells_insert_activates_new_cell_witness :
  Notebook.activeCellIndex (Notebook.cells_insert 1 blank_code_cell sample_notebook)
  = Some 1.
Proof.
  exact (proj2 (cells_insert_activates_new_cell sample_notebook 1 blank_code_cell
                  ltac:(vm_compute; split; discriminate))).
Defined.

(** ** NotebookModel: what running a cell leaves alone *)

Section RunInvariants.
Import cells Notebook.

Lemma get_lookup {T} (l : list T) (i : Z) (x : T) :
  ObservableList.get l i = Some x ->
  l !! Z.to_nat (ObservableList._norm l i) = Some x.
Proof.
  unfold ObservableList.get. destruct (ObservableList._check _ _); [auto|discriminate].
Qed.

Lemma get_empty {T} (i : Z) : ObservableList.get (@nil T) i = None.
Proof.
  unfold ObservableList.get. destruct (ObservableList._check _ _); reflexivity.
Qed.

Lemma cell_content_with_active b c : cell_content (with_active b c) = cell_content c.
Proof. reflexivity. Qed.

Lemma executeCell_content cell nb :
  cell_content (fst (executeCell cell nb)) = cell_content cell.
Proof.
  unfold executeCell.
  destruct (readOnly nb); [reflexivity|].
  destruct (String.eqb _ _); [reflexivity|].
  destruct (session nb); [|reflexivity].
  destruct cell as [inp tg nm tr ac se []]; reflexivity.
Qed.

(** What [executeCell] does to the request log. *)
Lemma executeCell_executed cell nb :
  executed (snd (executeCell cell nb)) = executed nb
  \/ (readOnly nb = false
      /\ trim (cell_text cell) <> ""
      /\ session nb <> None
      /\ executed (snd (executeCell cell nb))
         = execute_request (cell_text cell) :: executed nb).
Proof.
  unfold executeCell.
  destruct (readOnly nb) eqn:Hro; [left; reflexivity|].
  destruct (String.eqb_spec (trim (cell_text cell)) ""); [left; reflexivity|].
  destruct (session nb) eqn:Hs; [|left; reflexivity].
  right. repeat split; try assumption; discriminate.
Qed.

Lemma run_dispatch_content cell slot nb :
  Notebook.cells nb !! slot = Some cell ->
  cell_content <$> Notebook.cells (run_dispatch cell slot nb)
  = cell_content <$> Notebook.cells nb.
Proof.
  intros Hs.
  assert (Hins : forall c', cell_content c' = cell_content cell ->
            cell_content <$> <[slot := c']> (Notebook.cells nb)
            = cell_content <$> Notebook.cells nb).
  { intros c' Hc'. rewrite list_fmap_insert, Hc'.
    apply list_insert_id. rewrite list_lookup_fmap, Hs. reflexivity. }
  unfold run_dispatch.
  destruct (variant cell) eqn:Hv; simpl.
  - pose proof (executeCell_content cell nb) as Ht.
    pose proof (executeCell_frame cell nb) as Hf.
    destruct (executeCell cell nb) as [c' nb']. simpl in *.
    destruct Hf as (-> & _). apply Hins, Ht.
  - apply Hins. destruct cell; simpl in Hv; subst; reflexivity.
  - apply Hins. destruct cell; simpl in Hv; subst; reflexivity.
Qed.

(** The request log and the disposed cells after the dispatch. *)
Lemma run_dispatch_logs cell slot nb :
  disposed (run_dispatch cell slot nb) = disposed nb
  /\ (executed (run_dispatch cell slot nb) = executed nb
      \/ (isCodeCellModel cell = true
          /\ readOnly nb = false
          /\ trim (cell_text cell) <> ""
          /\ session nb <> None
          /\ executed (run_dispatch cell slot nb)
             = execute_request (cell_text cell) :: executed nb)).
Proof.
  unfold run_dispatch, isCodeCellModel.
  destruct (variant cell) eqn:Hv; simpl; [|split; [reflexivity|left; reflexivity]..].
  pose proof (executeCell_executed cell nb) as He.
  assert (Hd : disposed (snd (executeCell cell nb)) = disposed nb).
  { unfold executeCell. destruct (readOnly nb); [reflexivity|].
    destruct (String.eqb _ _); [reflexivity|].
    destruct (session nb); reflexivity. }
  destruct (executeCell cell nb) as [c' nb']. simpl in *.
  split; [exact Hd|].
  destruct He as [He | (? & ? & ? & He)]; [left; exact He|right; auto].
Qed.

(** [runActiveCell] as the dispatch followed by the step to the next
    cell, for a notebook that has an active cell. *)
Lemma runActiveCell_unfold nb index cell :
  readOnly nb = false ->
  activeCellIndex nb = Some index ->
  ObservableList.get (Notebook.cells nb) index = Some cell ->
  let nb1 := run_dispatch cell
               (Z.to_nat (ObservableList._norm (Notebook.cells nb) index)) nb in
  runActiveCell nb
  = if Z.eqb index (ObservableList.length (Notebook.cells nb1) - 1)
    then with_mode (Some edit) (cells_add (createCodeCell None nb1) nb1)
    else set_activeCellIndex (index + 1) nb1.
Proof.
  intros Hro Hi Hg. unfold runActiveCell. rewrite Hro, Hi, Hg. reflexivity.
Qed.

(** [runActiveCell] does nothing when the notebook is read-only or has
    no cell at the active index. *)
Lemma runActiveCell_idle nb :
  readOnly nb = true
  \/ activeCellIndex nb = None
  \/ (exists index, activeCellIndex nb = Some index
                    /\ ObservableList.get (Notebook.cells nb) index = None) ->
  runActiveCell nb = nb.
Proof.
  unfold runActiveCell. intros [-> | [Hn | (index & Hi & Hg)]].
  - reflexivity.
  - destruct (readOnly nb); [reflexivity|]. rewrite Hn. reflexivity.
  - destruct (readOnly nb); [reflexivity|]. rewrite Hi, Hg. reflexivity.
Qed.

Lemma runActiveCell_cases nb :
  runActiveCell nb = nb
  \/ exists index cell nb1,
       readOnly nb = false
       /\ ObservableList.get (Notebook.cells nb) index = Some cell
       /\ nb1 = run_dispatch cell
                  (Z.to_nat (ObservableList._norm (Notebook.cells nb) index)) nb
       /\ (runActiveCell nb
           = with_mode (Some edit) (cells_add (createCodeCell None nb1) nb1)
           \/ runActiveCell nb = set_activeCellIndex (index + 1) nb1).
Proof.
  destruct (readOnly nb) eqn:Hro.
  { left. apply runActiveCell_idle. auto. }
  destruct (activeCellIndex nb) as [index|] eqn:Hi.
  2:{ left. apply runActiveCell_idle. auto. }
  destruct (ObservableList.get (Notebook.cells nb) index) as [cell|] eqn:Hg.
  2:{ left. apply runActiveCell_idle. eauto. }
  right. exists index, cell. eexists. split; [reflexivity|].
  split; [exact Hg|]. split; [reflexivity|].
  rewrite (runActiveCell_unfold nb index cell Hro Hi Hg). cbv zeta.
  destruct (Z.eqb _ _); auto.
Qed.
End RunInvariants.

(** X7: runActiveCell never removes, reorders or edits a cell: the cells
    the notebook had keep their slot, type, text, tags and name; one
    cell at most is added, behind them; nothing is disposed of. *)
Theorem runActiveCell_keeps_cells (nb : Notebook.NotebookModel) :
  let nb' := Notebook.runActiveCell nb in
  cell_content <$> take (length (Notebook.cells nb)) (Notebook.cells nb')
  = cell_content <$> Notebook.cells nb
  /\ (length (Notebook.cells nb) <= length (Notebook.cells nb')
      <= length (Notebook.cells nb) + 1)%nat
  /\ Notebook.disposed nb' = Notebook.disposed nb.
Proof.
  intros nb'. unfold nb'.
  destruct (runActiveCell_cases nb)
    as [-> | (index & cell & nb1 & Hro & Hg & Hnb1 & Hrun)].
  { rewrite firstn_all. split; [reflexivity|]. split; [lia|reflexivity]. }
  apply get_lookup in Hg.
  pose proof (run_dispatch_content cell _ nb Hg) as Hc.
  pose proof (run_dispatch_frame cell
                (Z.to_nat (ObservableList._norm (Notebook.cells nb) index)) nb) as Hf.
  destruct (run_dispatch_logs cell
              (Z.to_nat (ObservableList._norm (Notebook.cells nb) index)) nb)
    as [Hd _].
  rewrite <- Hnb1 in Hc, Hf, Hd. cbv zeta in Hf. destruct Hf as (Hl & _).
  destruct Hrun as [-> | ->].
  - destruct (cells_add_cells (Notebook.createCodeCell None nb1) nb1) as (Hcs & _).
    cbn [Notebook.cells Notebook.with_mode Notebook.disposed].
    rewrite Hcs. split; [|split].
    + rewrite <- Hl, <- (length_fmap (cells.with_active false)), take_app_length.
      rewrite <- list_fmap_compose. rewrite <- Hc. apply list_fmap_ext.
      intros i x _. reflexivity.
    + rewrite length_app, length_fmap. simpl. lia.
    + exact Hd.
  - rewrite set_activeCellIndex_cells. split; [|split].
    + rewrite <- Hl, <- (length_imap (fun i cell0 =>
                  cells.with_active
                    (Z.min (Z.max (index + 1) 0)
                       (ObservableList.length (Notebook.cells nb1) - 1)
                     =? Z.of_nat i) cell0) (Notebook.cells nb1)), firstn_all.
      rewrite fmap_imap, <- Hc, <- imap_const. apply imap_ext. reflexivity.
    + rewrite length_imap. lia.
    + exact Hd.
Qed.

(** X8: runActiveCell hands the kernel one request at most, and only
    when the notebook is not read-only, has a session, and the active
    cell is a code cell whose text is not blank; the request carries the
    text of the cell as it stands, untrimmed. *)
Theorem runActiveCell_requests (nb : Notebook.NotebookModel) :
  Notebook.executed (Notebook.runActiveCell nb) = Notebook.executed nb
  \/ exists index cell,
       Notebook.activeCellIndex nb = Some index
       /\ ObservableList.get (Notebook.cells nb) index = Some cell
       /\ cells.isCodeCellModel cell = true
       /\ Notebook.readOnly nb = false
       /\ Notebook.trim (cells.cell_text cell) <> ""
       /\ Notebook.session nb <> None
       /\ Notebook.executed (Notebook.runActiveCell nb)
          = execute_request (cells.cell_text cell) :: Notebook.executed nb.
Proof.
  destruct (Notebook.readOnly nb) eqn:Hro.
  { left. rewrite runActiveCell_idle; auto. }
  destruct (Notebook.activeCellIndex nb) as [index|] eqn:Hi.
  2:{ left. rewrite runActiveCell_idle; auto. }
  destruct (ObservableList.get (Notebook.cells nb) index) as [cell|] eqn:Hg.
  2:{ left. rewrite runActiveCell_idle; eauto. }
  rewrite (runActiveCell_unfold nb index cell Hro Hi Hg). cbv zeta.
  set (nb1 := Notebook.run_dispatch cell _ nb).
  assert (He : Notebook.executed
                 (if index =? ObservableList.length (Notebook.cells nb1) - 1
                  then Notebook.with_mode (Some Notebook.edit)
                         (Notebook.cells_add (Notebook.createCodeCell None nb1) nb1)
                  else Notebook.set_activeCellIndex (index + 1) nb1)
               = Notebook.executed nb1).
  { destruct (index =? _); reflexivity. }
  rewrite He.
  destruct (run_dispatch_logs cell
              (Z.to_nat (ObservableList._norm (Notebook.cells nb) index)) nb)
    as [_ [Hsame | (Hcode & _ & Ht & Hs & Hreq)]].
  - left. exact Hsame.
  - right. exists index, cell. repeat split; assumption.
Qed.

(** X9: once the cell list is cleared, runActiveCell has no cell to run
    and adds none: the notebook stays empty, whatever activeCellIndex
    was left behind by the clear. *)
Theorem runActiveCell_after_clear (nb : Notebook.NotebookModel) :
  Notebook.cells (Notebook.cells_clear nb) = []
  /\ Notebook.activeCellIndex (Notebook.cells_clear nb) = Notebook.activeCellIndex nb
  /\ Notebook.runActiveCell (Notebook.cells_clear nb) = Notebook.cells_clear nb.
Proof.
  split; [reflexivity|]. split; [reflexivity|].
  apply runActiveCell_idle.
  destruct (Notebook.activeCellIndex nb) as [index|] eqn:Hi.
  - right. right. exists index. split; [exact Hi|]. apply get_empty.
  - right. left. exact Hi.
Qed.

(** ** NotebookModel: saving and copying *)

Section SaveFacts.
Import cells Notebook.

Lemma serialize_cells MAJOR_VERSION MINOR_VERSION nb :
  serialize.serialize MAJOR_VERSION MINOR_VERSION nb
  = nbformat.mkContent (serialize.serializeCell <$> Notebook.cells nb)
      (metadata nb) MAJOR_VERSION MINOR_VERSION.
Proof. unfold serialize.serialize. rewrite foldl_snoc. reflexivity. Qed.

Lemma serializeCell_with_readOnly b cell :
  serialize.serializeCell (cells.with_readOnly b cell) = serialize.serializeCell cell.
Proof. destruct cell as [inp tg nm tr ac se []]; reflexivity. Qed.

(** Appending to a list with its [add], item by item. *)
Lemma foldl_list_add {T} (l acc : list T) :
  foldl (fun l o => fst (ObservableList.add l o)) acc l = acc ++ l.
Proof. apply foldl_push. Qed.

(** The ways save() ends: [nb2] is the model with the metadata as the
    kernel answers left it. *)
Lemma save_outcomes
    (MAJOR_VERSION MINOR_VERSION : Z)
    (manager_save : string -> nbformat.INotebookContent -> bool)
    (getKernelSpec kernelInfo : option string) (nb : NotebookModel) :
  let r := NotebookSave.save MAJOR_VERSION MINOR_VERSION manager_save
             getKernelSpec kernelInfo nb in
  exists nb2,
    (Notebook.cells nb2 = Notebook.cells nb /\ dirty nb2 = dirty nb)
    /\ ((r = NotebookSave.mkOutcome NotebookSave.TypeError nb2 []
         /\ session nb = None)
        \/ r = NotebookSave.mkOutcome NotebookSave.Rejected nb2 []
        \/ exists s,
             session nb = Some s
             /\ (r = NotebookSave.mkOutcome NotebookSave.Resolved
                       (with_dirty false nb2)
                       [(notebookPath s,
                         serialize.serialize MAJOR_VERSION MINOR_VERSION nb2)]
                 \/ r = NotebookSave.mkOutcome NotebookSave.Rejected nb2
                          [(notebookPath s,
                            serialize.serialize MAJOR_VERSION MINOR_VERSION nb2)])).
Proof.
  intros r. unfold r, NotebookSave.save, NotebookSave._save.
  destruct (session nb) as [s|] eqn:Hs.
  2:{ exists nb. split; [split; reflexivity|]. left. split; reflexivity. }
  destruct (isDisposed s).
  { exists nb. split; [split; reflexivity|]. right. right. exists s.
    split; [reflexivity|]. destruct (manager_save _ _); [left|right]; reflexivity. }
  destruct getKernelSpec as [display_name|].
  2:{ exists nb. split; [split; reflexivity|]. right. left. reflexivity. }
  destruct kernelInfo as [info|].
  2:{ eexists. split; [|right; left; reflexivity]. split; reflexivity. }
  eexists. split; [|right; right; exists s; split; [reflexivity|]].
  2:{ cbn [session with_metadata]. rewrite ?Hs.
      destruct (manager_save _ _); [left|right]; reflexivity. }
  split; reflexivity.
Qed.
End SaveFacts.

(** X10: save() never touches the cell list and asks the contents
    manager at most once; what it hands over is the serialization of the
    model as the call leaves it (refreshed metadata included), under the
    path of the session.  The dirty flag is cleared when the save
    resolves and is left as it was otherwise. *)
Theorem save_persists_what_it_leaves
    (MAJOR_VERSION MINOR_VERSION : Z)
    (manager_save : string -> nbformat.INotebookContent -> bool)
    (getKernelSpec kernelInfo : option string)
    (nb : Notebook.NotebookModel) :
  let r := NotebookSave.save MAJOR_VERSION MINOR_VERSION manager_save
             getKernelSpec kernelInfo nb in
  Notebook.cells (NotebookSave.model r) = Notebook.cells nb
  /\ (length (NotebookSave.persisted r) <= 1)%nat
  /\ (forall path content,
        (path, content) ∈ NotebookSave.persisted r ->
        content = serialize.serialize MAJOR_VERSION MINOR_VERSION
                    (NotebookSave.model r)
        /\ Notebook.notebookPath <$> Notebook.session nb = Some path)
  /\ (NotebookSave.completion r = NotebookSave.Resolved ->
      Notebook.dirty (NotebookSave.model r) = false
      /\ NotebookSave.persisted r <> [])
  /\ (NotebookSave.completion r <> NotebookSave.Resolved ->
      Notebook.dirty (NotebookSave.model r) = Notebook.dirty nb).
Proof.
  intros r.
  destruct (save_outcomes MAJOR_VERSION MINOR_VERSION manager_save
              getKernelSpec kernelInfo nb)
    as (nb2 & (Hc & Hd) & [[Hr _] | [Hr | (s & Hs & [Hr | Hr])]]);
    fold r in Hr; rewrite Hr; cbn [NotebookSave.model NotebookSave.persisted
      NotebookSave.completion Notebook.cells Notebook.dirty Notebook.with_dirty].
  - split; [exact Hc|]. split; [simpl; lia|]. split; [intros ? ? []%not_elem_of_nil|].
    split; [discriminate|]. intros _. exact Hd.
  - split; [exact Hc|]. split; [simpl; lia|]. split; [intros ? ? []%not_elem_of_nil|].
    split; [discriminate|]. intros _. exact Hd.
  - split; [exact Hc|]. split; [simpl; lia|]. split; [|split].
    + intros path content Hin%list_elem_of_singleton. injection Hin as -> ->.
      rewrite Hs. split; reflexivity.
    + intros _. split; [reflexivity|discriminate].
    + intros H. congruence.
  - split; [exact Hc|]. split; [simpl; lia|]. split; [|split].
    + intros path content Hin%list_elem_of_singleton. injection Hin as -> ->.
      rewrite Hs. split; reflexivity.
    + discriminate.
    + intros _. exact Hd.
Qed.

Lemma save_persists_what_it_leaves_witness :
  let nb := Notebook.with_session
              (Some (Notebook.mkSession "demo.ipynb" false "python3"))
              sample_notebook in
  let r := NotebookSave.save 4 0 (fun _ _ => true)
             (Some "Python 3.5") (Some "python") nb in
  Notebook.dirty (NotebookSave.model r) = false
  /\ NotebookSave.persisted r <> [].
Proof.
  exact (proj1 (proj2 (proj2 (proj2
           (save_persists_what_it_leaves 4 0 (fun _ _ => true)
              (Some "Python 3.5") (Some "python")
              (Notebook.with_session
                 (Some (Notebook.mkSession "demo.ipynb" false "python3"))
                 sample_notebook))))) eq_refl).
Defined.

(** X11: the serialized notebook does not depend on the view state of
    the model: selecting another cell, switching read-only on or off,
    changing the mode or the dirty flag leave it as it is. *)
Theorem serialize_ignores_view_state
    (MAJOR_VERSION MINOR_VERSION : Z) (nb : Notebook.NotebookModel)
    (value : Z) (ro d : bool) (m : option Notebook.NotebookMode) :
  serialize.serialize MAJOR_VERSION MINOR_VERSION
    (Notebook.set_activeCellIndex value nb)
  = serialize.serialize MAJOR_VERSION MINOR_VERSION nb
  /\ serialize.serialize MAJOR_VERSION MINOR_VERSION (Notebook.set_readOnly ro nb)
     = serialize.serialize MAJOR_VERSION MINOR_VERSION nb
  /\ serialize.serialize MAJOR_VERSION MINOR_VERSION
       (Notebook.with_mode m (Notebook.with_dirty d nb))
     = serialize.serialize MAJOR_VERSION MINOR_VERSION nb.
Proof.
  rewrite !serialize_cells. split; [|split].
  - rewrite set_activeCellIndex_cells, fmap_imap.
    cbn [Notebook.metadata Notebook.set_activeCellIndex
         Notebook.with_cells Notebook.with_activeCellIndex].
    f_equal. rewrite <- imap_const. apply imap_ext. reflexivity.
  - unfold Notebook.set_readOnly.
    cbn [Notebook.metadata Notebook.cells Notebook.with_cells Notebook.with_readOnly].
    f_equal. rewrite <- list_fmap_compose. apply list_fmap_ext.
    intros i x _. apply serializeCell_with_readOnly.
  - reflexivity.
Qed.

(** X12: createCodeCell with a code cell as its source copies the text,
    the tags, collapsed, scrolled and the outputs, entry by entry and
    without consolidating them; the copy has no name and no execution
    count, whatever the source has. *)
Theorem createCodeCell_copies_code_cell
    (nb : Notebook.NotebookModel)
    (input : cells.IInputAreaModel) (tags : option (list string))
    (name : option string) (trusted active selected : bool)
    (output : OutputArea.OutputAreaModel) (executionCount : option Z)
    (collapsed scrolled : option bool) :
  let source := cells.mkCell input tags name trusted active selected
                  (cells.Code output executionCount collapsed scrolled) in
  let copy := Notebook.createCodeCell (Some source) nb in
  serialize.serializeCell copy
  = nbformat.ICodeCell (nbformat.Single (cells.cell_text source)) tags None
      collapsed scrolled (OutputArea.outputs output) None [] []
  /\ cells.trusted copy = trusted
  /\ cells.mimetype (cells.textEditor (cells.input copy))
     = cells.mimetype (cells.textEditor input)
  /\ cells.active copy = false.
Proof.
  intros source copy. unfold copy, source, Notebook.createCodeCell.
  cbn -[foldl ObservableList.add]. rewrite foldl_list_add.
  unfold serialize.serializeCell. cbn -[foldl]. rewrite foldl_push.
  repeat split; reflexivity.
Qed.

(** X13: making a markdown (or raw) cell from a cell and a code cell from
    that one again keeps the text, the tags and the trust of the cell
    and nothing else: the result is a new code cell of the notebook's
    default mimetype with those three set, without outputs. *)
Theorem type_change_and_back (nb : Notebook.NotebookModel) (source : cells.ICellModel) :
  let expected :=
    cells.with_tags (cells.tags source)
      (cells.with_cell_text (cells.cell_text source)
         (cells.with_trusted (cells.trusted source)
            (Notebook.createCodeCell None nb))) in
  Notebook.createCodeCell (Some (Notebook.createMarkdownCell (Some source) nb)) nb
  = expected
  /\ Notebook.createCodeCell (Some (Notebook.createRawCell (Some source) nb)) nb
     = expected
  /\ cells.cell_outputs expected = [].
Proof.
  destruct source as [inp tg nm tr ac se [o n c s | r | f]];
    repeat split; reflexivity.
Qed.

(** ** serialize.ts: what loading a document leaves in the model *)

Section LoadFacts.
Import nbformat cells.

Lemma fold_add_keeps_apart l : forall area,
  kept_apart None (OutputArea.outputs area) = true ->
  kept_apart None
    (OutputArea.outputs (foldl (fun a o => OutputArea.add o a) area l)) = true.
Proof.
  induction l as [|o l IH]; intros area Hk; [exact Hk|].
  cbn [foldl]. apply IH, add_keeps_apart, Hk.
Qed.

Lemma consolidated_apart outs : kept_apart None (consolidated outs) = true.
Proof. apply fold_add_keeps_apart. reflexivity. Qed.

Lemma consolidated_idempotent outs : consolidated (consolidated outs) = consolidated outs.
Proof.
  unfold consolidated at 1.
  rewrite add_kept_apart; [reflexivity|reflexivity|apply consolidated_apart].
Qed.

Lemma normal_cell_idempotent c : normal_cell (normal_cell c) = normal_cell c.
Proof. destruct c; simpl; rewrite ?consolidated_idempotent; reflexivity. Qed.

(** The cell made for a document cell, field by field. *)
Lemma loaded_cell model c :
  loaded model c
  = mkCell
      (mkInput
         (mkEditor (source_text (source c))
            (if isMarkdownCell c then Some "text/x-ipythongfm"
             else if isCodeCell c then Some (Notebook.defaultMimetype model)
             else None)
            (Notebook.readOnly model)) "")
      (metadata_tags c) (metadata_name c) true false false
      match c with
      | IRawCell _ _ _ format _ _ => Raw format
      | IMarkdownCell _ _ _ _ _ => Markdown None
      | ICodeCell _ _ _ collapsed scrolled outs execution_count _ _ =>
          Code (foldl (fun a o => OutputArea.add o a) OutputArea.new outs)
               execution_count collapsed scrolled
      end.
Proof.
  unfold loaded.
  destruct c as [s tg nm fmt mo ot | s tg nm mo ot
                 | s tg nm col scr outs ec mo ot].
  - destruct s; reflexivity.
  - destruct s; reflexivity.
  - change (isMarkdownCell (ICodeCell s tg nm col scr outs ec mo ot)) with false.
    change (isCodeCell (ICodeCell s tg nm col scr outs ec mo ot)) with true.
    cbv iota. rewrite createCodeCell_fresh.
    unfold serialize.deserializeCell. cbn -[foldl OutputArea.add source_text].
    rewrite deserialize_outputs
      with (area := OutputArea.new) (n := ec) (col := col) (scr := scr)
      by reflexivity.
    destruct s; reflexivity.
Qed.

Lemma serializeCell_loaded_any model c :
  serialize.serializeCell (loaded model c) = normal_cell c.
Proof.
  rewrite loaded_cell. unfold serialize.serializeCell.
  destruct c as [s tg nm fmt | s tg nm | s tg nm col scr outs ec];
    cbn -[foldl source_text]; rewrite ?foldl_push; reflexivity.
Qed.

Lemma load_cells_normal l : forall model,
  serialize.serializeCell <$> Notebook.cells (foldl serialize.load_cell model l)
  = (serialize.serializeCell <$> Notebook.cells model) ++ (normal_cell <$> l)
  /\ Notebook.metadata (foldl serialize.load_cell model l) = Notebook.metadata model.
Proof.
  induction l as [|c l IH]; intros model; cbn [foldl].
  - rewrite app_nil_r. split; reflexivity.
  - destruct (IH (serialize.load_cell model c)) as [-> ->].
    destruct (load_cell_cells model c) as (-> & _ & ->).
    split; [|reflexivity].
    rewrite fmap_app, <- list_fmap_compose, fmap_cons. simpl.
    rewrite serializeCell_with_active, serializeCell_loaded_any.
    rewrite <- app_assoc. reflexivity.
Qed.

Lemma serialize_deserialize MAJOR_VERSION MINOR_VERSION doc model :
  serialize.serialize MAJOR_VERSION MINOR_VERSION (serialize.deserialize doc model)
  = mkContent (normal_cell <$> nbformat.cells doc) (nb_metadata doc)
      MAJOR_VERSION MINOR_VERSION.
Proof.
  rewrite serialize_cells. unfold serialize.deserialize.
  destruct (load_cells_normal (nbformat.cells doc) (Notebook.cells_clear model))
    as [Hc _].
  destruct (negb _);
    cbn [Notebook.cells Notebook.metadata Notebook.with_metadata
         Notebook.with_selectedCellIndex];
    rewrite Hc; reflexivity.
Qed.

(** The dirty flag and the disposed cells while a document is loaded. *)
Lemma load_cell_flags model c :
  Notebook.dirty (serialize.load_cell model c)
  = Notebook.dirty model || negb (String.eqb (source_text (source c)) "")
  /\ Notebook.disposed (serialize.load_cell model c) = Notebook.disposed model
  /\ Notebook.readOnly (serialize.load_cell model c) = Notebook.readOnly model
  /\ Notebook.defaultMimetype (serialize.load_cell model c)
     = Notebook.defaultMimetype model.
Proof.
  unfold serialize.load_cell.
  assert (Hch : snd (serialize.deserializeCell c
                       (if isMarkdownCell c then Notebook.createMarkdownCell None model
                        else if isCodeCell c then Notebook.createCodeCell None model
                        else Notebook.createRawCell None model))
                = negb (String.eqb (source_text (source c)) "")).
  { destruct c as [[s|ls] tg nm fmt | [s|ls] tg nm | [s|ls] tg nm col scr outs ec];
      reflexivity. }
  destruct (serialize.deserializeCell c _) as [cell changed]. cbn [snd] in Hch.
  subst changed.
  destruct (negb _); cbn; rewrite ?orb_true_r, ?orb_false_r; repeat split; reflexivity.
Qed.

Lemma load_cells_flags l : forall model,
  Notebook.dirty (foldl serialize.load_cell model l)
  = Notebook.dirty model
    || existsb (fun c => negb (String.eqb (source_text (source c)) "")) l
  /\ Notebook.disposed (foldl serialize.load_cell model l) = Notebook.disposed model
  /\ Notebook.readOnly (foldl serialize.load_cell model l) = Notebook.readOnly model
  /\ Notebook.defaultMimetype (foldl serialize.load_cell model l)
     = Notebook.defaultMimetype model.
Proof.
  induction l as [|c l IH]; intros model; cbn [foldl existsb].
  - rewrite orb_false_r. repeat split; reflexivity.
  - destruct (IH (serialize.load_cell model c)) as (-> & -> & -> & ->).
    destruct (load_cell_flags model c) as (-> & -> & -> & ->).
    rewrite orb_assoc. repeat split; reflexivity.
Qed.

(** The cells after a document is loaded, but for their active flags. *)
Lemma load_cells_loaded l : forall model,
  with_active false <$> Notebook.cells (foldl serialize.load_cell model l)
  = (with_active false <$> Notebook.cells model)
      ++ (loaded model <$> l).
Proof.
  induction l as [|c l IH]; intros model; cbn [foldl].
  - rewrite app_nil_r. reflexivity.
  - rewrite IH. destruct (load_cell_cells model c) as (-> & _).
    rewrite fmap_app, <- list_fmap_compose, fmap_cons, <- app_assoc. simpl.
    f_equal. f_equal.
    + rewrite loaded_cell. reflexivity.
    + apply list_fmap_ext. intros i x _. rewrite !loaded_cell.
      destruct (load_cell_flags model c) as (_ & _ & -> & ->). reflexivity.
Qed.
End LoadFacts.

(** X14: what deserialize leaves to serialize depends on the document
    only, not on what the model held before: each cell comes back with
    its source as one string (a line array joined by line feeds), for
    a code cell its outputs consolidated, and without the keys the
    serializer does not read; the metadata is the document's. *)
Theorem deserialize_forgets_the_model
    (MAJOR_VERSION MINOR_VERSION : Z) (doc : nbformat.INotebookContent)
    (model other : Notebook.NotebookModel) :
  serialize.serialize MAJOR_VERSION MINOR_VERSION (serialize.deserialize doc model)
  = serialize.serialize MAJOR_VERSION MINOR_VERSION (serialize.deserialize doc other)
  /\ serialize.serialize MAJOR_VERSION MINOR_VERSION (serialize.deserialize doc model)
     = nbformat.mkContent (normal_cell <$> nbformat.cells doc)
         (nbformat.nb_metadata doc) MAJOR_VERSION MINOR_VERSION.
Proof. rewrite !serialize_deserialize. split; reflexivity. Qed.

(** X15: a document that was loaded and serialized once round-trips from
    then on: loading it into any model and serializing again gives the
    same document. *)
Theorem roundtrip_stabilises
    (MAJOR_VERSION MINOR_VERSION : Z) (doc : nbformat.INotebookContent)
    (model other : Notebook.NotebookModel) :
  let once := serialize.serialize MAJOR_VERSION MINOR_VERSION
                (serialize.deserialize doc model) in
  serialize.serialize MAJOR_VERSION MINOR_VERSION (serialize.deserialize once other)
  = once.
Proof.
  intros once. unfold once. rewrite !serialize_deserialize.
  cbn [nbformat.cells nbformat.nb_metadata]. f_equal.
  rewrite <- list_fmap_compose. apply list_fmap_ext.
  intros i c _. apply normal_cell_idempotent.
Qed.

(** X16: loading a document marks the notebook dirty as soon as one of
    its cells has a source that is not empty: the text written into the
    editor of a cell made by the notebook counts as an edit. *)
Theorem deserialize_marks_dirty
    (doc : nbformat.INotebookContent) (model : Notebook.NotebookModel) :
  Notebook.dirty (serialize.deserialize doc model)
  = Notebook.dirty model
    || existsb (fun c => negb (String.eqb (source_text (nbformat.source c)) ""))
               (nbformat.cells doc).
Proof.
  unfold serialize.deserialize.
  destruct (load_cells_flags (nbformat.cells doc) (Notebook.cells_clear model))
    as (Hd & _).
  destruct (negb _);
    cbn [Notebook.dirty Notebook.with_metadata Notebook.with_selectedCellIndex];
    rewrite Hd; reflexivity.
Qed.

(** X17: deserialize disposes of every cell the model held and makes one
    cell per document cell, in order: a cell of the type of the document
    cell, trusted, not selected, read-only as the notebook is, with the
    document cell's text, tags and name. *)
Theorem deserialize_replaces_cells
    (doc : nbformat.INotebookContent) (model : Notebook.NotebookModel) :
  let m := serialize.deserialize doc model in
  cells.with_active false <$> Notebook.cells m
  = loaded model <$> nbformat.cells doc
  /\ cell_content <$> Notebook.cells m
     = (fun c => (nbformat.cell_type c, source_text (nbformat.source c),
                  nbformat.metadata_tags c, nbformat.metadata_name c))
         <$> nbformat.cells doc
  /\ Forall (fun c => cells.trusted c = true
                      /\ cells.selected c = false
                      /\ cells.cell_readOnly c = Notebook.readOnly model)
            (Notebook.cells m)
  /\ Notebook.disposed m
     = rev (Notebook.dispose <$> Notebook.cells model) ++ Notebook.disposed model.
Proof.
  intros m.
  assert (Hcells : cells.with_active false <$> Notebook.cells m
                   = loaded model <$> nbformat.cells doc).
  { unfold m, serialize.deserialize.
    pose proof (load_cells_loaded (nbformat.cells doc) (Notebook.cells_clear model))
      as Hl.
    destruct (negb _);
      cbn [Notebook.cells Notebook.with_metadata Notebook.with_selectedCellIndex];
      rewrite Hl; reflexivity. }
  split; [exact Hcells|]. split; [|split].
  - transitivity (cell_content <$> (cells.with_active false <$> Notebook.cells m)).
    + rewrite <- list_fmap_compose. apply list_fmap_ext. reflexivity.
    + rewrite Hcells, <- list_fmap_compose. apply list_fmap_ext.
      intros i c _. simpl. rewrite loaded_cell.
      destruct c; reflexivity.
  - apply (Forall_fmap (cells.with_active false)
             (fun c => cells.trusted c = true /\ cells.selected c = false
                       /\ cells.cell_readOnly c = Notebook.readOnly model)).
    rewrite Hcells. apply Forall_fmap, Forall_true.
    intros c. simpl. rewrite loaded_cell. repeat split; reflexivity.
  - unfold m, serialize.deserialize.
    destruct (load_cells_flags (nbformat.cells doc) (Notebook.cells_clear model))
      as (_ & Hd & _).
    destruct (negb _);
      cbn [Notebook.disposed Notebook.with_metadata Notebook.with_selectedCellIndex];
      rewrite Hd; reflexivity.
Qed.

(** ** NotebookWidget: the layout over a sequence of list calls *)

Section WidgetTrace.
Import cells widget.

Lemma add_as_insert {T} (l : list T) (x : T) :
  ObservableList.insert l (ObservableList.length l) x
  = Some (ObservableList.add l x).
Proof.
  unfold ObservableList.length. rewrite insert_in_range by lia.
  unfold ObservableList.add, ObservableList.length.
  rewrite Nat2Z.id, firstn_all, drop_all. reflexivity.
Qed.

(** The Remove case, with the widget it takes out. *)
Lemma onCellsChanged_removeAt_slot l (i : Z) r s :
  in_sync l s ->
  ObservableList.removeAt l i = Some r ->
  exists s' w,
    onCellsChanged (snd r) s = Returned s'
    /\ in_sync (fst r) s'
    /\ children s !! Z.to_nat (ObservableList._norm l i) = Some w
    /\ children s' = delete (Z.to_nat (ObservableList._norm l i)) (children s)
    /\ disposed s' = id w :: disposed s
    /\ constructed s' = constructed s.
Proof.
  intros [Hm Hwf] Hr. unfold ObservableList.removeAt in Hr.
  set (j := ObservableList._norm l i) in *.
  destruct (ObservableList._check l j) eqn:Hck; [|discriminate].
  destruct (l !! Z.to_nat j) as [old|] eqn:Hold; [|discriminate].
  injection Hr as <-. cbn [fst snd].
  assert (Hlen : length (children s) = length l)
    by (rewrite <- Hm, length_fmap; reflexivity).
  index_bounds.
  destruct (lookup_lt_is_Some_2 (children s) (Z.to_nat j)) as [w Hw]; [lia|].
  exists (dispose w (with_children (delete (Z.to_nat j) (children s)) s)), w.
  unfold onCellsChanged. rewrite childAt_inside by lia. rewrite Hw.
  unfold removeChild. rewrite (childIndex_lookup _ _ _ (proj1 Hwf) Hw).
  split; [reflexivity|]. split; [|repeat split; reflexivity].
  split; [|apply well_formed_dispose, well_formed_delete, Hwf].
  cbn [children dispose with_children]. rewrite list_fmap_delete, Hm. reflexivity.
Qed.

Lemma connected_call_in_sync l s c :
  in_sync l s ->
  exists s',
    connected_call (l, Returned s) c = (fst (connected_call (l, Returned s) c),
                                        Returned s')
    /\ in_sync (fst (connected_call (l, Returned s) c)) s'.
Proof.
  intros Hs. unfold connected_call. cbn [fst snd layout_of].
  destruct c as [cell | i cell | i | i cell | i j]; cbn [list_call].
  - destruct (onCellsChanged_insert l (ObservableList.length l) cell
                (ObservableList.add l cell) s Hs (add_as_insert l cell))
      as (s' & Hr & Hs' & _).
    exists s'. destruct (ObservableList.add l cell) as [l' ch]. cbn [fst snd] in *.
    rewrite Hr. split; [reflexivity|exact Hs'].
  - destruct (ObservableList.insert l i cell) as [[l' ch]|] eqn:Hi.
    + destruct (onCellsChanged_insert l i cell (l', ch) s Hs Hi) as (s' & Hr & Hs' & _).
      exists s'. cbn [fst snd] in *. rewrite Hr. split; [reflexivity|exact Hs'].
    + exists s. split; [reflexivity|exact Hs].
  - destruct (ObservableList.removeAt l i) as [[l' ch]|] eqn:Hi.
    + destruct (onCellsChanged_removeAt l i (l', ch) s Hs Hi)
        as (s' & w & Hr & Hs' & _).
      exists s'. cbn [fst snd] in *. rewrite Hr. split; [reflexivity|exact Hs'].
    + exists s. split; [reflexivity|exact Hs].
  - destruct (ObservableList.set l i cell) as [[l' ch]|] eqn:Hi.
    + destruct (onCellsChanged_set l i cell (l', ch) s Hs Hi) as (s' & Hr & Hs').
      exists s'. cbn [fst snd] in *. rewrite Hr. split; [reflexivity|exact Hs'].
    + exists s. split; [reflexivity|exact Hs].
  - destruct (ObservableList.move l i j) as [[l' ch]|] eqn:Hi.
    + destruct (onCellsChanged_move l i j (l', ch) s Hs Hi) as (s' & Hr & Hs' & _).
      exists s'. cbn [fst snd] in *. rewrite Hr. split; [reflexivity|exact Hs'].
    + exists s. split; [reflexivity|exact Hs].
Qed.

Lemma connected_calls_in_sync calls : forall l s,
  in_sync l s ->
  exists l' s',
    foldl connected_call (l, Returned s) calls = (l', Returned s')
    /\ in_sync l' s'.
Proof.
  induction calls as [|c calls IH]; intros l s Hs; cbn [foldl].
  - exists l, s. split; [reflexivity|exact Hs].
  - destruct (connected_call_in_sync l s c Hs) as (s1 & Heq & Hs1).
    rewrite Heq. apply IH, Hs1.
Qed.
End WidgetTrace.

(** X18: a notebook widget built over a cell list follows every
    sequence of add, insert, removeAt, set and move calls on the list:
    the handler returns each time, and afterwards the layout holds one
    widget per cell, each built for the cell in its slot, and no widget
    twice. *)
Theorem widget_follows_list_calls
    (l : list cells.ICellModel) (calls : list ListCall) :
  exists l' s',
    foldl connected_call (l, widget.Returned (widget.new l)) calls
    = (l', widget.Returned s')
    /\ widget.model <$> widget.children s' = l'
    /\ length (widget.children s') = length l'
    /\ NoDup (widget.id <$> widget.children s').
Proof.
  destruct (connected_calls_in_sync calls l (widget.new l) (new_in_sync l))
    as (l' & s' & Heq & Hm & Hnd & _).
  exists l', s'. split; [exact Heq|]. split; [exact Hm|].
  split; [rewrite <- Hm, length_fmap; reflexivity|exact Hnd].
Qed.

(** X19: a Move change relocates the widget of the moved cell: the
    layout holds the same widgets as before, no widget is built and none
    is disposed of. *)
Theorem move_builds_no_widget
    (l : list cells.ICellModel) (i j : Z)
    (r : list cells.ICellModel * ObservableList.IListChangedArgs cells.ICellModel)
    (s : widget.Layout) :
  in_sync l s ->
  ObservableList.move l i j = Some r ->
  exists s',
    widget.onCellsChanged (snd r) s = widget.Returned s'
    /\ widget.model <$> widget.children s' = fst r
    /\ widget.children s' ≡ₚ widget.children s
    /\ widget.constructed s' = widget.constructed s
    /\ widget.disposed s' = widget.disposed s.
Proof.
  intros Hs Hr.
  destruct (onCellsChanged_move l i j r s Hs Hr) as (s' & Ho & [Hm _] & Hc & Hd & Hp).
  exists s'. auto.
Qed.

Lemma move_builds_no_widget_witness :
  exists s',
    widget.onCellsChanged
      (ObservableList.Move 0 2 (Notebook.createCodeCell None empty_notebook))
      (widget.new [Notebook.createCodeCell None empty_notebook;
                   Notebook.createMarkdownCell None empty_notebook;
                   Notebook.createRawCell None empty_notebook])
    = widget.Returned s'
    /\ widget.id <$> widget.children s' = [1%nat; 2%nat; 0%nat].
Proof.
  destruct (move_builds_no_widget
              [Notebook.createCodeCell None empty_notebook;
               Notebook.createMarkdownCell None empty_notebook;
               Notebook.createRawCell None empty_notebook] 0 2
              ([Notebook.createMarkdownCell None empty_notebook;
                Notebook.createRawCell None empty_notebook;
                Notebook.createCodeCell None empty_notebook],
               ObservableList.Move 0 2 (Notebook.createCodeCell None empty_notebook))
              _ (new_in_sync _) eq_refl) as (s' & Ho & _).
  exists s'. split; [exact Ho|].
  vm_compute in Ho. injection Ho as <-. reflexivity.
Defined.

(** X20: a Remove change takes the widget of the removed cell out of the
    layout and disposes of that widget and of no other; no widget is
    built. *)
Theorem remove_disposes_one_widget
    (l : list cells.ICellModel) (i : Z)
    (r : list cells.ICellModel * ObservableList.IListChangedArgs cells.ICellModel)
    (s : widget.Layout) :
  in_sync l s ->
  ObservableList.removeAt l i = Some r ->
  exists s' w,
    widget.onCellsChanged (snd r) s = widget.Returned s'
    /\ widget.model <$> widget.children s' = fst r
    /\ widget.children s !! Z.to_nat (ObservableList._norm l i) = Some w
    /\ widget.children s' = delete (Z.to_nat (ObservableList._norm l i))
                                   (widget.children s)
    /\ widget.disposed s' = widget.id w :: widget.disposed s
    /\ widget.constructed s' = widget.constructed s.
Proof.
  intros Hs Hr.
  destruct (onCellsChanged_removeAt_slot l i r s Hs Hr)
    as (s' & w & Ho & [Hm _] & Hw & Hch & Hd & Hc).
  exists s', w. auto 10.
Qed.

Lemma remove_disposes_one_widget_witness :
  exists s',
    widget.onCellsChanged
      (ObservableList.Remove 1 (Notebook.createMarkdownCell None empty_notebook))
      (widget.new [Notebook.createCodeCell None empty_notebook;
                   Notebook.createMarkdownCell None empty_notebook;
                   Notebook.createRawCell None empty_notebook])
    = widget.Returned s'
    /\ widget.disposed s' = [1%nat].
Proof.
  destruct (remove_disposes_one_widget
              [Notebook.createCodeCell None empty_notebook;
               Notebook.createMarkdownCell None empty_notebook;
               Notebook.createRawCell None empty_notebook] 1
              ([Notebook.createCodeCell None empty_notebook;
                Notebook.createRawCell None empty_notebook],
               ObservableList.Remove 1 (Notebook.createMarkdownCell None empty_notebook))
              _ (new_in_sync _) eq_refl) as (s' & w & Ho & _).
  exists s'. split; [exact Ho|].
  vm_compute in Ho. injection Ho as <-. reflexivity.
Defined.

(** ** NotebookToolbar: cut, copy and paste *)

Section ToolbarFacts.
Import cells Notebook toolbar.

Lemma cells_removeAt_length (i : nat) nb :
  (length (Notebook.cells (cells_removeAt (Z.of_nat i) nb))
   <= length (Notebook.cells nb))%nat.
Proof.
  unfold cells_removeAt.
  destruct (ObservableList.removeAt _ _) as [[l ch]|] eqn:Hr; [|lia].
  unfold ObservableList.removeAt in Hr.
  destruct (ObservableList._check _ _); [|discriminate].
  destruct (_ !! _) eqn:Hl; [|discriminate]. injection Hr as <- <-.
  unfold emit, _onCellsChanged. cbn [fst snd].
  rewrite set_activeCellIndex_length. cbn [Notebook.cells with_cells with_disposed].
  rewrite length_delete by eauto. lia.
Qed.

(** The fuel of [cut_loop] does not end the loop early: more fuel gives
    the same result. *)
Lemma cut_loop_fuel fuel : forall i nb cut extra,
  (length (Notebook.cells nb) <= i + fuel)%nat ->
  cut_loop (fuel + extra) i nb cut = cut_loop fuel i nb cut.
Proof.
  induction fuel as [|fuel IH]; intros i nb cut extra Hlen.
  - destruct extra; [reflexivity|]. simpl.
    rewrite lookup_ge_None_2 by lia. reflexivity.
  - simpl. destruct (Notebook.cells nb !! i) as [cell|]; [|reflexivity].
    destruct (marked cell).
    + apply IH. pose proof (cells_removeAt_length i nb). lia.
    + apply IH. lia.
Qed.

Lemma cut_loop_skip k : forall fuel i nb cut,
  (forall j c, (i <= j < i + k)%nat -> Notebook.cells nb !! j = Some c ->
               marked c = false) ->
  (i + k <= length (Notebook.cells nb))%nat ->
  cut_loop (k + fuel) i nb cut = cut_loop fuel (i + k) nb cut.
Proof.
  induction k as [|k IH]; intros fuel i nb cut Hun Hlen.
  - rewrite Nat.add_0_r. reflexivity.
  - cbn [Nat.add cut_loop].
    destruct (lookup_lt_is_Some_2 (Notebook.cells nb) i) as [c Hc]; [lia|].
    rewrite Hc, (Hun i c) by (lia || exact Hc).
    rewrite IH; [f_equal; lia| |lia].
    intros j x Hj. apply Hun. lia.
Qed.

Lemma cut_loop_rest fuel : forall i nb cut,
  (forall j c, (i <= j)%nat -> Notebook.cells nb !! j = Some c -> marked c = false) ->
  cut_loop fuel i nb cut = (nb, cut).
Proof.
  induction fuel as [|fuel IH]; intros i nb cut Hun; [reflexivity|].
  simpl. destruct (Notebook.cells nb !! i) as [c|] eqn:Hc; [|reflexivity].
  rewrite (Hun i c) by (lia || exact Hc).
  apply IH. intros j x Hj. apply Hun. lia.
Qed.

Lemma only_active_marked_marks nb a j c :
  only_active_marked nb a ->
  Notebook.cells nb !! j = Some c -> marked c = Nat.eqb j a.
Proof.
  intros (_ & _ & Hf) Hc. destruct (Hf j c Hc) as [Hs Ha].
  unfold marked. rewrite Hs, Ha. reflexivity.
Qed.

(** After the one marked cell is removed, no cell behind its slot is
    marked. *)
Lemma removed_marked_rest nb a :
  only_active_marked nb a ->
  forall j c,
    (a < j)%nat ->
    Notebook.cells (cells_removeAt (Z.of_nat a) nb) !! j = Some c ->
    marked c = false.
Proof.
  intros (Hi & Ha & Hf) j c Hj Hc.
  destruct (cells_removeAt_cells nb (Z.of_nat a)) as (_ & Hcells & _).
  { unfold ObservableList.length. lia. }
  cbv zeta in Hcells. rewrite Hcells, list_lookup_imap in Hc.
  destruct (delete (Z.to_nat (Z.of_nat a)) (Notebook.cells nb) !! j) as [x|] eqn:Hx;
    [|discriminate].
  injection Hc as <-.
  assert (Hin : exists k, Notebook.cells nb !! k = Some x).
  { apply list_elem_of_lookup_1.
    eapply elem_of_sublist; [eapply list_elem_of_lookup_2, Hx|apply sublist_delete]. }
  destruct Hin as [k Hk]. destruct (Hf k x Hk) as [Hs _].
  unfold marked. cbn [selected active with_active]. rewrite Hs. simpl.
  apply Z.eqb_neq. unfold ObservableList.length. lia.
Qed.

Lemma cut_only_active nb a c :
  only_active_marked nb a ->
  Notebook.cells nb !! a = Some c ->
  cut_loop (length (Notebook.cells nb)) O nb []
  = (cells_removeAt (Z.of_nat a) nb, [dispose c]).
Proof.
  intros Hm Hc. pose proof Hm as (_ & Ha & _).
  replace (length (Notebook.cells nb))
    with (a + S (length (Notebook.cells nb) - S a))%nat by lia.
  rewrite cut_loop_skip; [|intros j x Hj Hx|lia].
  2:{ rewrite (only_active_marked_marks nb a j x Hm Hx).
      apply Nat.eqb_neq. lia. }
  cbn [Nat.add cut_loop]. rewrite Hc.
  rewrite (only_active_marked_marks nb a a c Hm Hc), Nat.eqb_refl.
  apply cut_loop_rest. intros j x Hj. apply removed_marked_rest; [exact Hm|lia].
Qed.
End ToolbarFacts.

(** X21: when the active cell is the one marked cell of the notebook,
    cut() removes that cell and no other, so that the list gets one
    cell shorter, and holds the removed cell, disposed of, in the
    clipboard. *)
Theorem cut_takes_the_active_cell
    (t : toolbar.NotebookToolbar) (a : nat) (c : cells.ICellModel) :
  only_active_marked (toolbar.model t) a ->
  Notebook.cells (toolbar.model t) !! a = Some c ->
  toolbar.cut t
  = toolbar.mkToolbar (Notebook.cells_removeAt (Z.of_nat a) (toolbar.model t))
      [] [Notebook.dispose c]
  /\ length (Notebook.cells (toolbar.model (toolbar.cut t)))
     = (length (Notebook.cells (toolbar.model t)) - 1)%nat.
Proof.
  intros Hm Hc.
  assert (Hcut : toolbar.cut t
                 = toolbar.mkToolbar
                     (Notebook.cells_removeAt (Z.of_nat a) (toolbar.model t))
                     [] [Notebook.dispose c]).
  { unfold toolbar.cut. rewrite (cut_only_active _ a c Hm Hc). reflexivity. }
  split; [exact Hcut|]. rewrite Hcut. cbn [toolbar.model].
  destruct Hm as (_ & Ha & _).
  destruct (cells_removeAt_cells (toolbar.model t) (Z.of_nat a)) as (_ & -> & _).
  { unfold ObservableList.length. lia. }
  rewrite length_imap, length_delete by (rewrite Nat2Z.id, Hc; eauto). reflexivity.
Qed.

Lemma cut_takes_the_active_cell_witness :
  length (Notebook.cells (toolbar.model (toolbar.cut sample_toolbar)))
  = (length (Notebook.cells (toolbar.model sample_toolbar)) - 1)%nat.
Proof.
  refine (proj2 (cut_takes_the_active_cell sample_toolbar 0
                   (default blank_code_cell
                      (Notebook.cells (toolbar.model sample_toolbar) !! 0%nat))
                   _ _)).
  - split; [vm_compute; reflexivity|split; [vm_compute; lia|]].
    intros j x Hj.
    destruct j as [|[|[|j]]]; vm_compute in Hj; try discriminate;
      injection Hj as <-; split; vm_compute; reflexivity.
  - vm_compute. reflexivity.
Defined.

Section PasteFacts.
Import cells Notebook toolbar.

Lemma with_active_twice b b' c :
  with_active b (with_active b' c) = with_active b c.
Proof. reflexivity. Qed.

Lemma with_active_same c : with_active (active c) c = c.
Proof. destruct c. reflexivity. Qed.

(** Writing the active flag of every cell wipes the flags written
    before. *)
Lemma strip_imap (g : nat -> bool) (l : list ICellModel) :
  with_active false <$> imap (fun i cell => with_active (g i) cell) l
  = with_active false <$> l.
Proof.
  apply list_eq. intros i.
  rewrite !list_lookup_fmap, list_lookup_imap.
  destruct (l !! i); reflexivity.
Qed.

Lemma strip_removeAt nb (a : nat) :
  (a < length (Notebook.cells nb))%nat ->
  with_active false <$> Notebook.cells (cells_removeAt (Z.of_nat a) nb)
  = with_active false <$> delete a (Notebook.cells nb).
Proof.
  intros Ha.
  destruct (cells_removeAt_cells nb (Z.of_nat a)) as (_ & -> & _).
  { unfold ObservableList.length. lia. }
  rewrite strip_imap, Nat2Z.id. reflexivity.
Qed.

Lemma removeAt_length nb (a : nat) :
  (a < length (Notebook.cells nb))%nat ->
  length (Notebook.cells (cells_removeAt (Z.of_nat a) nb))
  = (length (Notebook.cells nb) - 1)%nat.
Proof.
  intros Ha.
  rewrite <- (length_fmap (with_active false)), strip_removeAt by exact Ha.
  rewrite length_fmap, length_delete; [reflexivity|].
  apply lookup_lt_is_Some_2. exact Ha.
Qed.
End PasteFacts.

(** X22: cut() followed by paste() does not put the cut cell back in its
    slot unless it was the last cell: with the active cell as the one
    marked cell in slot a of n cells, the cell comes back at index
    min(a, n-2) + 1, that is behind the cell that followed it, and it is
    the active cell there.  The cell that comes back is the one the
    model disposed of when it was removed. *)
Theorem cut_then_paste
    (t : toolbar.NotebookToolbar) (a : nat) (c : cells.ICellModel) :
  only_active_marked (toolbar.model t) a ->
  Notebook.cells (toolbar.model t) !! a = Some c ->
  let l := Notebook.cells (toolbar.model t) in
  let k := Z.to_nat (Z.min (Z.of_nat a) (Z.of_nat (length l) - 2) + 1) in
  exists nb,
    toolbar.paste (toolbar.cut t) = toolbar.Returned (toolbar.mkToolbar nb [] [])
    /\ Notebook.cells nb
       = (cells.with_active false <$> take k (delete a l))
           ++ cells.with_active true (Notebook.dispose c)
           :: (cells.with_active false <$> drop k (delete a l))
    /\ Notebook.activeCellIndex nb = Some (Z.of_nat k).
Proof.
  intros Hm Hc l k. subst l k. pose proof Hm as (_ & Ha & _).
  unfold toolbar.cut. rewrite (cut_only_active _ a c Hm Hc).
  unfold toolbar.paste.
  cbn [toolbar.model toolbar._copied toolbar._cut foldl].
  destruct (cells_removeAt_cells (toolbar.model t) (Z.of_nat a)) as (Hi & _ & _).
  { unfold ObservableList.length. lia. }
  cbv zeta in Hi. rewrite Hi. cbn [fmap option_fmap option_map toolbar.insert_at].
  eexists. split; [reflexivity|].
  pose proof (removeAt_length (toolbar.model t) a Ha) as Hlen.
  pose proof (strip_removeAt (toolbar.model t) a Ha) as Hstrip.
  unfold ObservableList.length.
  set (l := Notebook.cells (toolbar.model t)) in *.
  destruct (cells_insert_cells
              (Z.min (Z.of_nat a) (Z.of_nat (length l) - 2) + 1)
              (Notebook.dispose c)
              (Notebook.cells_removeAt (Z.of_nat a) (toolbar.model t)))
    as [Hcells Hidx].
  { rewrite Hlen. lia. }
  rewrite Hcells, Hidx. split; [|f_equal; lia].
  rewrite !fmap_take, !fmap_drop, Hstrip. reflexivity.
Qed.

Lemma cut_then_paste_witness :
  exists nb,
    toolbar.paste (toolbar.cut sample_toolbar)
    = toolbar.Returned (toolbar.mkToolbar nb [] [])
    /\ Notebook.activeCellIndex nb = Some 1.
Proof.
  destruct (cut_then_paste sample_toolbar 0
              (default blank_code_cell
                 (Notebook.cells (toolbar.model sample_toolbar) !! 0%nat)))
    as (nb & Hp & _ & Hi).
  - split; [vm_compute; reflexivity|split; [vm_compute; lia|]].
    intros j x Hj.
    destruct j as [|[|[|j]]]; vm_compute in Hj; try discriminate;
      injection Hj as <-; split; vm_compute; reflexivity.
  - vm_compute. reflexivity.
  - exists nb. split; [exact Hp|]. vm_compute in Hi. exact Hi.
Defined.

Section CopyFacts.
Import cells Notebook toolbar.




Lemma paste_copied_missing pre : forall rest index nb,
  exists nb', paste_copied ((Some <$> pre) ++ None :: rest) index nb = (nb', false).
Proof.
  induction pre as [|c pre IH]; intros rest index nb.
  - exists nb. reflexivity.
  - simpl. apply IH.
Qed.
End CopyFacts.



(** X24: paste() throws when one of the copied indices is no slot of the
    list any more (reading the type of the missing cell); the clipboard
    is then left as it was. *)
Theorem paste_of_missing_cell_throws (t : toolbar.NotebookToolbar) :
  Exists (fun i => ObservableList.get (Notebook.cells (toolbar.model t)) i = None)
         (toolbar._copied t) ->
  exists nb,
    toolbar.paste t
    = toolbar.TypeError (toolbar.mkToolbar nb (toolbar._copied t) (toolbar._cut t)).
Proof.
  intros Hex. unfold toolbar.paste.
  destruct (toolbar._copied t) as [|i is_] eqn:Hcop.
  { inversion Hex. }
  set (get := fun i => ObservableList.get (Notebook.cells (toolbar.model t)) i).
  assert (Hsplit : exists pre rest,
             get <$> (i :: is_) = (Some <$> pre) ++ None :: rest).
  { clear Hcop. induction Hex as [x xs Hx|x xs Hx IH].
    - exists [], (get <$> xs). simpl. unfold get at 1. rewrite Hx. reflexivity.
    - destruct IH as (pre & rest & Heq).
      destruct (get x) as [c|] eqn:Hgx.
      + exists (c :: pre), rest. simpl. rewrite Hgx. f_equal. exact Heq.
      + exists [], (get <$> xs). simpl. rewrite Hgx. reflexivity. }
  destruct Hsplit as (pre & rest & Heq). rewrite Heq.
  destruct (paste_copied_missing pre rest
              ((fun i => i + 1) <$> Notebook.activeCellIndex (toolbar.model t))
              (toolbar.model t)) as [nb Hnb].
  rewrite Hnb. exists nb. reflexivity.
Qed.

Lemma paste_of_missing_cell_throws_witness :
  exists nb,
    toolbar.paste (toolbar.mkToolbar empty_notebook [0] [])
    = toolbar.TypeError (toolbar.mkToolbar nb [0] []).
Proof.
  apply (paste_of_missing_cell_throws (toolbar.mkToolbar empty_notebook [0] [])).
  apply Exists_cons_hd. vm_compute. reflexivity.
Defined.

Section RetypeFacts.
Import cells Notebook toolbar.




Lemma retype_length nb (i : nat) new :
  (i < length (Notebook.cells nb))%nat ->
  length (Notebook.cells
            (cells_insert (Z.of_nat i) new (cells_removeAt (Z.of_nat i) nb)))
  = length (Notebook.cells nb).
Proof.
  intros Hi. pose proof (removeAt_length nb i Hi) as Hlen.
  destruct (cells_insert_cells (Z.of_nat i) new (cells_removeAt (Z.of_nat i) nb))
    as [Hcells _]; [rewrite Hlen; lia|].
  rewrite Hcells, length_app, length_fmap, length_take. simpl.
  rewrite length_fmap, length_drop, Hlen. lia.
Qed.

(** The fuel of [changeCellType_loop] does not end the loop early: more
    fuel gives the same result. *)
Lemma changeCellType_loop_fuel value fuel : forall i nb extra,
  (length (Notebook.cells nb) <= i + fuel)%nat ->
  changeCellType_loop value (fuel + extra) i nb
  = changeCellType_loop value fuel i nb.
Proof.
  induction fuel as [|fuel IH]; intros i nb extra Hlen.
  - destruct extra; [reflexivity|]. simpl.
    rewrite lookup_ge_None_2 by lia. reflexivity.
  - simpl. destruct (Notebook.cells nb !! i) as [cell|] eqn:Hc; [|reflexivity].
    destruct (negb (selected cell) && negb (active cell)).
    + apply IH. lia.
    + apply IH. rewrite retype_length; [lia|].
      eapply lookup_lt_Some, Hc.
Qed.


End RetypeFacts.



Section SelectionFacts.
Import cells Notebook toolbar.

Lemma cut_loop_beyond fuel i nb cut :
  (length (Notebook.cells nb) <= i)%nat ->
  cut_loop fuel i nb cut = (nb, cut).
Proof.
  intros Hi. destruct fuel; [reflexivity|]. simpl.
  rewrite lookup_ge_None_2 by exact Hi. reflexivity.
Qed.

Lemma dispose_with_active b c :
  with_active b (dispose c) = dispose (with_active b c).
Proof. destruct c as [i tg nm tr ac se v]. destruct v; reflexivity. Qed.

Lemma strip_lookup (l l' : list ICellModel) i x :
  with_active false <$> l = with_active false <$> l' ->
  l' !! i = Some x ->
  exists x', l !! i = Some x' /\ with_active false x' = with_active false x.
Proof.
  intros Heq Hx.
  assert (H : (with_active false <$> l) !! i = Some (with_active false x)).
  { rewrite Heq, list_lookup_fmap, Hx. reflexivity. }
  rewrite list_lookup_fmap in H.
  destruct (l !! i) as [x'|]; [|discriminate].
  exists x'. split; [reflexivity|]. simpl in H. congruence.
Qed.

(** The loop of cut() over a stretch of selected cells: it takes the
    first, steps over the one that moved into its slot, and so on. *)
Lemma cut_loop_selected fuel : forall rem kept nb cut,
  with_active false <$> Notebook.cells nb = with_active false <$> (kept ++ rem) ->
  Forall (fun c => selected c = true) rem ->
  (length rem <= fuel)%nat ->
  exists nb' cut',
    cut_loop fuel (length kept) nb cut = (nb', cut')
    /\ with_active false <$> Notebook.cells nb'
       = with_active false <$> (kept ++ odd_slots rem)
    /\ with_active false <$> cut'
       = (with_active false <$> cut)
           ++ (with_active false <$> (dispose <$> even_slots rem)).
Proof.
  induction fuel as [|fuel IH]; intros rem kept nb cut Hs Hsel Hlen.
  - destruct rem; [|simpl in Hlen; lia].
    exists nb, cut. split; [reflexivity|]. split; [exact Hs|].
    simpl. rewrite app_nil_r. reflexivity.
  - destruct rem as [|x rem].
    { exists nb, cut. split; [|split; [exact Hs|simpl; rewrite app_nil_r; reflexivity]].
      apply cut_loop_beyond.
      rewrite <- (length_fmap (with_active false)), Hs, length_fmap, app_nil_r.
      lia. }
    assert (Hn : length (Notebook.cells nb) = length (kept ++ x :: rem)).
    { rewrite <- (length_fmap (with_active false)), Hs, length_fmap. reflexivity. }
    destruct (strip_lookup (Notebook.cells nb) (kept ++ x :: rem) (length kept) x Hs)
      as (x' & Hx' & Hxx).
    { rewrite lookup_app_r, Nat.sub_diag by lia. reflexivity. }
    assert (Hmark : marked x' = true).
    { unfold marked.
      replace (selected x') with (selected (with_active false x')) by reflexivity.
      rewrite Hxx. cbn [selected with_active].
      inversion Hsel; subst. rewrite H1. reflexivity. }
    cbn [cut_loop]. rewrite Hx', Hmark.
    assert (Hin : (length kept < length (Notebook.cells nb))%nat).
    { rewrite Hn, length_app. simpl. lia. }
    pose proof (strip_removeAt nb (length kept) Hin) as Hs1.
    rewrite list_fmap_delete, Hs, <- list_fmap_delete, delete_middle in Hs1.
    set (nb1 := cells_removeAt (Z.of_nat (length kept)) nb) in *.
    destruct rem as [|y rem].
    + exists nb1, (cut ++ [dispose x']). split; [|split].
      * apply cut_loop_beyond.
        rewrite <- (length_fmap (with_active false)), Hs1, length_fmap, app_nil_r.
        lia.
      * exact Hs1.
      * rewrite fmap_app. simpl. rewrite !dispose_with_active, Hxx. reflexivity.
    + destruct (IH rem (kept ++ [y]) nb1 (cut ++ [dispose x']))
        as (nb' & cut' & Hloop & Hcells & Hcut).
      * rewrite <- app_assoc. exact Hs1.
      * inversion Hsel as [|? ? _ Hrest]; subst.
        inversion Hrest; subst. assumption.
      * simpl in Hlen. lia.
      * exists nb', cut'. split; [|split].
        -- rewrite length_app in Hloop. simpl in Hloop.
           rewrite Nat.add_1_r in Hloop. exact Hloop.
        -- rewrite Hcells, <- app_assoc. reflexivity.
        -- rewrite Hcut, fmap_app, <- app_assoc. simpl.
           rewrite !dispose_with_active, Hxx. reflexivity.
Qed.
End SelectionFacts.

(** X26: cut() with every cell selected takes only every other cell: the
    cells of the slots 0, 2, 4, ... go to the clipboard, the cells of
    the slots 1, 3, 5, ... stay in the notebook (the cells compared up
    to their active flag). *)
Theorem cut_of_full_selection_leaves_every_other_cell (t : toolbar.NotebookToolbar) :
  Forall (fun c => cells.selected c = true) (Notebook.cells (toolbar.model t)) ->
  let l := Notebook.cells (toolbar.model t) in
  cells.with_active false <$> Notebook.cells (toolbar.model (toolbar.cut t))
  = cells.with_active false <$> odd_slots l
  /\ cells.with_active false <$> toolbar._cut (toolbar.cut t)
     = cells.with_active false <$> (Notebook.dispose <$> even_slots l).
Proof.
  intros Hsel l. subst l. unfold toolbar.cut.
  destruct (cut_loop_selected (length (Notebook.cells (toolbar.model t)))
              (Notebook.cells (toolbar.model t)) [] (toolbar.model t) [])
    as (nb' & cut' & Hloop & Hcells & Hcut);
    [reflexivity|exact Hsel|lia|].
  cbn [length] in Hloop. rewrite Hloop. cbn [toolbar.model toolbar._cut].
  split; [exact Hcells|exact Hcut].
Qed.

Lemma cut_of_full_selection_leaves_every_other_cell_witness :
  cells.with_active false
    <$> Notebook.cells
          (toolbar.model (toolbar.cut (toolbar.mkToolbar selected_notebook [] [])))
  = cells.with_active false
      <$> odd_slots
            (Notebook.cells (toolbar.model (toolbar.mkToolbar selected_notebook [] []))).
Proof.
  refine (proj1 (cut_of_full_selection_leaves_every_other_cell
                   (toolbar.mkToolbar selected_notebook [] []) _)).
  vm_compute. repeat constructor.
Defined.

Section RunFacts.
Import cells Notebook toolbar.

(** Writing the active flags for the index of the one active cell
    changes no cell. *)
Lemma activate_self nb a (g : ICellModel -> ICellModel) :
  only_active_marked nb a ->
  (forall b c, with_active b (g c) = with_active b c) ->
  imap (fun i cell => with_active (Z.eqb (Z.of_nat a) (Z.of_nat i)) cell)
       (g <$> Notebook.cells nb)
  = Notebook.cells nb.
Proof.
  intros (_ & _ & Hf) Hg. apply list_eq. intros i.
  rewrite list_lookup_imap, list_lookup_fmap.
  destruct (Notebook.cells nb !! i) as [x|] eqn:Hx; [|reflexivity].
  simpl. f_equal. rewrite Hg. destruct (Hf i x Hx) as [_ Hact].
  rewrite <- (with_active_same x) at 2. rewrite Hact. f_equal.
  destruct (Z.eqb_spec (Z.of_nat a) (Z.of_nat i)), (Nat.eqb_spec i a);
    (reflexivity || lia).
Qed.

Lemma set_activeCellIndex_self nb a :
  only_active_marked nb a ->
  set_activeCellIndex (Z.of_nat a) nb = nb.
Proof.
  intros Hm. pose proof Hm as (Hi & Ha & _).
  pose proof (activate_self nb a (fun c => c) Hm (fun _ _ => eq_refl)) as Hself.
  rewrite list_fmap_id in Hself.
  unfold set_activeCellIndex, ObservableList.length.
  replace (Z.min (Z.max (Z.of_nat a) 0) (Z.of_nat (length (Notebook.cells nb)) - 1))
    with (Z.of_nat a) by lia.
  cbn [Notebook.cells with_activeCellIndex]. rewrite Hself.
  destruct nb. simpl in Hi. subst. reflexivity.
Qed.

Lemma copy_loop_none l : forall i,
  Forall (fun c => marked c = false) l -> copy_loop i l = [].
Proof.
  induction l as [|c l IH]; intros i Hl; [reflexivity|].
  inversion Hl; subst. simpl. rewrite H1. apply IH. assumption.
Qed.

Lemma copy_loop_only_active l a : forall i,
  (i <= a < i + length l)%nat ->
  (forall j c, l !! j = Some c -> marked c = Nat.eqb (i + j) a) ->
  copy_loop i l = [Z.of_nat a].
Proof.
  induction l as [|c l IH]; intros i Hi Hf; [simpl in Hi; lia|].
  simpl. rewrite (Hf O c eq_refl), Nat.add_0_r.
  destruct (Nat.eqb_spec i a) as [->|Hne].
  - f_equal. apply copy_loop_none. apply Forall_lookup. intros j x Hx.
    rewrite (Hf (S j) x Hx). apply Nat.eqb_neq. lia.
  - apply IH; [simpl in Hi; lia|].
    intros j x Hx. rewrite (Hf (S j) x Hx). f_equal. lia.
Qed.

End RunFacts.

(** X27: with the active cell as the one marked cell, the toolbar's
    run() is runActiveCell(). *)
Theorem run_without_selection (nb : Notebook.NotebookModel) (a : nat) :
  only_active_marked nb a ->
  toolbar.run nb = Notebook.runActiveCell nb.
Proof.
  intros Hm. pose proof Hm as (_ & Ha & _). unfold toolbar.run.
  rewrite (copy_loop_only_active (Notebook.cells nb) a O); [|lia|].
  - cbn [foldl]. rewrite (set_activeCellIndex_self nb a Hm). reflexivity.
  - intros j c Hc. apply (only_active_marked_marks nb a j c Hm Hc).
Qed.

Lemma run_without_selection_witness :
  toolbar.run (toolbar.model sample_toolbar)
  = Notebook.runActiveCell (toolbar.model sample_toolbar).
Proof.
  apply (run_without_selection (toolbar.model sample_toolbar) 0).
  split; [vm_compute; reflexivity|split; [vm_compute; lia|]].
  intros j x Hj.
  destruct j as [|[|[|j]]]; vm_compute in Hj; try discriminate;
    injection Hj as <-; split; vm_compute; reflexivity.
Defined.



(** X29: with the active cell as the one marked cell, insertAbove()
    followed by cut() gives back the cells of the notebook, flags
    included, and its active cell index; the new code cell is what the
    clipboard holds. *)
Theorem insertAbove_then_cut (t : toolbar.NotebookToolbar) (a : nat) :
  only_active_marked (toolbar.model t) a ->
  let nb := toolbar.model t in
  let t' := toolbar.cut
              (toolbar.mkToolbar (toolbar.insertAbove nb)
                 (toolbar._copied t) (toolbar._cut t)) in
  Notebook.cells (toolbar.model t') = Notebook.cells nb
  /\ Notebook.activeCellIndex (toolbar.model t') = Notebook.activeCellIndex nb
  /\ toolbar._cut t'
     = [Notebook.dispose (cells.with_active true (Notebook.createCodeCell None nb))].
Proof.
  intros Hm nb t'. subst t'. pose proof Hm as (Hi & Ha & Hf). fold nb in Hi, Ha, Hf.
  set (new := Notebook.createCodeCell None nb).
  destruct (cells_insert_cells (Z.of_nat a) new nb) as [Hcells Hidx]; [lia|].
  rewrite Nat2Z.id in Hcells.
  assert (Habove : toolbar.insertAbove nb = Notebook.cells_insert (Z.of_nat a) new nb).
  { unfold toolbar.insertAbove. rewrite Hi. reflexivity. }
  set (nb1 := Notebook.cells_insert (Z.of_nat a) new nb) in *.
  assert (Hk : length (cells.with_active false <$> take a (Notebook.cells nb)) = a).
  { rewrite length_fmap, length_take. lia. }
  assert (Hnew : Notebook.cells nb1 !! a = Some (cells.with_active true new)).
  { rewrite Hcells, lookup_app_r, Hk, Nat.sub_diag by lia. reflexivity. }
  assert (Hlen : length (Notebook.cells nb1) = S (length (Notebook.cells nb))).
  { rewrite Hcells, length_app, Hk. simpl. rewrite length_fmap, length_drop. lia. }
  assert (Hm1 : only_active_marked nb1 a).
  { split; [exact Hidx|]. split; [lia|].
    intros j c Hc. rewrite Hcells in Hc.
    destruct (Nat.lt_trichotomy j a) as [Hlt|[->|Hgt]].
    - rewrite lookup_app_l in Hc by lia.
      rewrite list_lookup_fmap in Hc.
      destruct (take a (Notebook.cells nb) !! j) as [x|] eqn:Hx; [|discriminate].
      injection Hc as <-. rewrite lookup_take_lt in Hx by lia.
      destruct (Hf j x Hx) as [Hs _]. split; [exact Hs|].
      symmetry. apply Nat.eqb_neq. lia.
    - rewrite lookup_app_r, Hk, Nat.sub_diag in Hc by lia.
      injection Hc as <-. rewrite Nat.eqb_refl. split; reflexivity.
    - rewrite lookup_app_r, Hk in Hc by lia.
      destruct (j - a)%nat as [|m] eqn:Hja; [lia|]. simpl in Hc.
      rewrite list_lookup_fmap in Hc.
      destruct (drop a (Notebook.cells nb) !! m) as [x|] eqn:Hx; [|discriminate].
      injection Hc as <-. rewrite lookup_drop in Hx.
      destruct (Hf _ x Hx) as [Hs _]. split; [exact Hs|].
      symmetry. apply Nat.eqb_neq. lia. }
  unfold toolbar.cut. cbn [toolbar.model]. rewrite Habove.
  rewrite (cut_only_active nb1 a _ Hm1 Hnew). cbn [toolbar.model toolbar._cut].
  destruct (cells_removeAt_cells nb1 (Z.of_nat a)) as (Hidx2 & Hcells2 & _).
  { unfold ObservableList.length. lia. }
  cbv zeta in Hidx2, Hcells2. unfold ObservableList.length in Hidx2, Hcells2.
  rewrite Hlen in Hidx2, Hcells2.
  replace (Z.min (Z.of_nat a) (Z.of_nat (S (length (Notebook.cells nb))) - 2))
    with (Z.of_nat a) in Hidx2, Hcells2 by lia.
  split; [|split; [rewrite Hidx2, Hi; reflexivity|reflexivity]].
  rewrite Hcells2, Nat2Z.id, Hcells.
  rewrite <- Hk at 1. rewrite delete_middle, <- fmap_app, take_drop.
  apply (activate_self nb a (cells.with_active false) Hm). reflexivity.
Qed.

Lemma insertAbove_then_cut_witness :
  Notebook.cells
    (toolbar.model
       (toolbar.cut
          (toolbar.mkToolbar (toolbar.insertAbove (toolbar.model sample_toolbar))
             (toolbar._copied sample_toolbar) (toolbar._cut sample_toolbar))))
  = Notebook.cells (toolbar.model sample_toolbar).
Proof.
  refine (proj1 (insertAbove_then_cut sample_toolbar 0 _)).
  split; [vm_compute; reflexivity|split; [vm_compute; lia|]].
  intros j x Hj.
  destruct j as [|[|[|j]]]; vm_compute in Hj; try discriminate;
    injection Hj as <-; split; vm_compute; reflexivity.
Defined.
